(** * The jest module resolver and module runtime

    A shallow embedding of [packages/jest-resolve/src/index.js] (class
    [Resolver]) and of the module runtime (class [Runtime]) together with the
    properties of the require graph, the mock decision and the registries. *)

From Stdlib Require Import Ascii String ZArith.
From stdpp Require Import gmap strings list fin_maps.

Open Scope string_scope.

(** ** JavaScript values and truthiness *)

Definition Path := string.
Definition RegExp := string.

(** Objects live in a store and are named by their address; [VHost] stands
    for an object owned by the host (a core module, a native addon). *)
Inductive value :=
| VUndefined
| VNull
| VBool (b : bool)
| VNum (n : Z)
| VStr (s : string)
| VObj (l : nat)
| VHost (name : string).

(** What a [throw] carries: an error object (constructor name, message and
    the optional [code] property) or any other value. *)
Inductive exn :=
| JsError (ctor : string) (message : string) (code : option string)
| Thrown (v : value).

Inductive completion (A : Type) :=
| Normal (a : A)
| Abrupt (e : exn).
Arguments Normal {A} a.
Arguments Abrupt {A} e.

(** Sequencing of completions: an abrupt one ends the sequence. *)
Definition completion_bind {A B} (c : completion A)
    (f : A -> completion B) : completion B :=
  match c with
  | Normal a => f a
  | Abrupt e => Abrupt e
  end.

(** [if (s)] for a string. *)
Definition truthy_str (s : string) : bool := negb (String.eqb s "").

(** [if (x)] for [x] a string, [null] or [undefined]. *)
Definition truthy_opt (o : option string) : bool :=
  match o with Some s => truthy_str s | None => false end.

(** [if (v)] for a value. *)
Definition truthy (v : value) : bool :=
  match v with
  | VUndefined | VNull => false
  | VBool b => b
  | VNum n => negb (n =? 0)%Z
  | VStr s => truthy_str s
  | VObj _ | VHost _ => true
  end.

(** [a || b] on nullable strings. *)
Definition js_or (a b : option string) : option string :=
  if truthy_opt a then a else b.

(** [hay.includes(needle)] *)
Fixpoint includes (needle hay : string) : bool :=
  String.prefix needle hay ||
  match hay with
  | EmptyString => false
  | String _ rest => includes needle rest
  end.

(** [s.split('/')]: never empty, [''.split('/')] is [['']]. *)
Fixpoint split_slash_aux (cur : string) (s : string) : list string :=
  match s with
  | EmptyString => [String.rev cur]
  | String c rest =>
      if Ascii.eqb c "/"%char
      then String.rev cur :: split_slash_aux "" rest
      else split_slash_aux (String c cur) rest
  end.
Definition split_slash (s : string) : list string := split_slash_aux "" s.

(** ** What the host provides

    Node's [path] module, the [resolve] and [browser-resolve] packages,
    [require.resolve], [fs] and regular expressions are not part of the
    repository: the resolver and the runtime are stated over any
    implementation of them. *)

Record ResolveOpts := {
  ro_basedir : Path;
  ro_extensions : list string;
  ro_moduleDirectory : list string;
  ro_paths : option (list Path);
}.

Record NodeHost := {
  path_sep : string;
  path_delimiter : string;
  path_dirname : Path -> Path;
  path_basename : Path -> string;
  path_extname : Path -> string;
  path_join : list string -> Path;
  path_relative : Path -> Path -> Path;
  path_normalize : Path -> Path;
  (** [resolve.isCore] *)
  resolve_isCore : string -> bool;
  (** [resolve.sync] and [browserResolve.sync]; [None] when they throw *)
  resolve_sync : string -> ResolveOpts -> option Path;
  browserResolve_sync : string -> ResolveOpts -> option Path;
  (** [require.resolve]; [None] when it throws *)
  require_resolve : Path -> option Path;
  (** [resolve/lib/node-modules-paths]; an entry may be [undefined] *)
  nodeModulesPaths : Path -> list string -> list (option Path);
  (** the module constant [nodePaths], [NODE_PATH] split once *)
  nodePaths : option (list Path);
  (** [H.GENERIC_PLATFORM] of jest-haste-map *)
  H_GENERIC_PLATFORM : string;
  (** [new RegExp(source)]; a [SyntaxError] for an invalid pattern *)
  regexp_new : string -> completion RegExp;
  regexp_test : RegExp -> string -> bool;
  string_replace : string -> RegExp -> string -> string;
  fs_existsSync : Path -> bool;
}.

(** ** The resolver *)

Module Resolver.

(** [H.MODULE] and [H.PACKAGE] *)
Inductive HTypeValue := MODULE | PACKAGE.

Definition HTypeValue_eqb (a b : HTypeValue) : bool :=
  match a, b with
  | MODULE, MODULE | PACKAGE, PACKAGE => true
  | _, _ => false
  end.

(** A module-map entry, the array [[H.PATH]: path, [H.TYPE]: type]. *)
Record ModuleMetaData := { H_PATH : Path; H_TYPE : HTypeValue }.

Record HasteMap := {
  map : gmap string (gmap string ModuleMetaData);
  mocks : gmap string Path;
}.

Record ResolverConfig := {
  browser : option bool;
  defaultPlatform : option string;
  extensions : list string;
  hasCoreModules : option bool;
  moduleDirectories : option (list string);
  moduleNameMapper : option (list (string * RegExp));
  modulePaths : option (list Path);
  platforms : option (list string);
}.

Record FindNodeModuleConfig := {
  fn_basedir : Path;
  fn_browser : option bool;
  fn_extensions : list string;
  fn_moduleDirectory : list string;
  fn_paths : option (list Path);
}.

Record ResolveModuleConfig := { skipNodeResolution : option bool }.

Definition NATIVE_PLATFORM : string := "native".

Record t := {
  _options : ResolverConfig;
  _supportsNativePlatform : bool;
  _moduleMap : HasteMap;
  _moduleNameCache : gmap string Path;
  _modulePathCache : gmap string (list (option Path));
}.

Definition set_moduleNameCache (r : t) (c : gmap string Path) : t :=
  {| _options := _options r;
     _supportsNativePlatform := _supportsNativePlatform r;
     _moduleMap := _moduleMap r;
     _moduleNameCache := c;
     _modulePathCache := _modulePathCache r |}.

Definition set_modulePathCache (r : t)
    (c : gmap string (list (option Path))) : t :=
  {| _options := _options r;
     _supportsNativePlatform := _supportsNativePlatform r;
     _moduleMap := _moduleMap r;
     _moduleNameCache := _moduleNameCache r;
     _modulePathCache := c |}.

Definition opt_true (b : option bool) : bool :=
  match b with Some true => true | _ => false end.

Definition constructor (moduleMap : HasteMap) (options : ResolverConfig) : t :=
  {| _options :=
       {| defaultPlatform := defaultPlatform options;
          extensions := extensions options;
          hasCoreModules :=
            match hasCoreModules options with
            | None => Some true
            | Some b => Some b
            end;
          moduleDirectories :=
            match moduleDirectories options with
            | Some l => Some l
            | None => Some ["node_modules"]
            end;
          moduleNameMapper := moduleNameMapper options;
          modulePaths := modulePaths options;
          browser := browser options;
          platforms := None |};
     _supportsNativePlatform :=
       bool_decide (NATIVE_PLATFORM ∈ default [] (platforms options));
     _moduleMap := moduleMap;
     _moduleNameCache := ∅;
     _modulePathCache := ∅ |}.

Section WithHost.
Context (host : NodeHost).

Definition findNodeModule (path : Path)
    (options : FindNodeModuleConfig) : option Path :=
  let paths := fn_paths options in
  let resv :=
    if opt_true (fn_browser options)
    then browserResolve_sync host else resolve_sync host in
  resv path
    {| ro_basedir := fn_basedir options;
       ro_extensions := fn_extensions options;
       ro_moduleDirectory := fn_moduleDirectory options;
       ro_paths :=
         match paths with
         | Some ps => Some (default [] (nodePaths host) ++ ps)%list
         | None => nodePaths host
         end |}.

Definition isCoreModule (r : t) (moduleName : string) : bool :=
  opt_true (hasCoreModules (_options r)) && resolve_isCore host moduleName.

Definition getModule (r : t) (name : string)
    (type : option HTypeValue) : option Path :=
  let type := default MODULE type in
  match map (_moduleMap r) !! name with
  | Some map =>
      let platform := defaultPlatform (_options r) in
      let module :=
        if truthy_opt platform
        then map !! default "" platform else None in
      let module :=
        match module with
        | Some m => Some m
        | None =>
            if bool_decide (is_Some (map !! NATIVE_PLATFORM))
               && _supportsNativePlatform r
            then map !! NATIVE_PLATFORM
            else map !! H_GENERIC_PLATFORM host
        end in
      match module with
      | Some m =>
          if HTypeValue_eqb (H_TYPE m) type then Some (H_PATH m) else None
      | None => None
      end
  | None => None
  end.

Definition getPackage (r : t) (name : string) : option Path :=
  getModule r name (Some PACKAGE).

Definition nodeModuleConfig (r : t) (dirname : Path) : FindNodeModuleConfig :=
  {| fn_basedir := dirname;
     fn_browser := browser (_options r);
     fn_extensions := extensions (_options r);
     fn_moduleDirectory := default [] (moduleDirectories (_options r));
     fn_paths := modulePaths (_options r) |}.

Fixpoint _resolveStubModuleName_loop (r : t) (dirname : Path)
    (mapper : list (string * RegExp)) (moduleName : string)
    : option Path :=
  match mapper with
  | [] => None
  | (mappedModuleName, regex) :: rest =>
      if regexp_test host regex moduleName
      then
        let moduleName :=
          string_replace host moduleName regex mappedModuleName in
        js_or (getModule r moduleName None)
              (findNodeModule moduleName (nodeModuleConfig r dirname))
      else _resolveStubModuleName_loop r dirname rest moduleName
  end.

Definition _resolveStubModuleName (r : t) (from : Path)
    (moduleName : string) : option Path :=
  let dirname := path_dirname host from in
  match moduleNameMapper (_options r) with
  | Some moduleNameMapper =>
      _resolveStubModuleName_loop r dirname moduleNameMapper moduleName
  | None => None
  end.

Definition getMockModule (r : t) (from : Path) (name : string)
    : option Path :=
  if truthy_opt (mocks (_moduleMap r) !! name)
  then mocks (_moduleMap r) !! name
  else
    let moduleName := _resolveStubModuleName r from name in
    if truthy_opt moduleName
    then js_or (getModule r (default "" moduleName) None) moduleName
    else None.

Definition getModulePaths (r : t) (from : Path)
    : list (option Path) * t :=
  match _modulePathCache r !! from with
  | Some cached => (cached, r)
  | None =>
      let moduleDirectory := default [] (moduleDirectories (_options r)) in
      let paths := nodeModulesPaths host from moduleDirectory in
      let paths :=
        match last paths with
        | Some None => removelast paths
        | _ => paths
        end in
      (paths, set_modulePathCache r (<[from := paths]> (_modulePathCache r)))
  end.

Definition cacheKey (dirname : Path) (moduleName : string) : string :=
  dirname +:+ path_delimiter host +:+ moduleName.

Definition notFoundError (from : Path) (moduleName : string) : exn :=
  let dirname := path_dirname host from in
  let relativePath := path_relative host dirname from in
  JsError "Error"
    ("Cannot find module '" +:+ moduleName +:+ "' from '" +:+
     (if truthy_str relativePath then relativePath else ".") +:+ "'")
    (Some "MODULE_NOT_FOUND").

Definition resolveModule (r : t) (from : Path) (moduleName : string)
    (options : option ResolveModuleConfig) : completion Path * t :=
  let dirname := path_dirname host from in
  let key := cacheKey dirname moduleName in
  let remember p :=
    (Normal p, set_moduleNameCache r (<[key := p]> (_moduleNameCache r))) in
  (* 0. a value from the cache *)
  if truthy_opt (_moduleNameCache r !! key)
  then (Normal (default "" (_moduleNameCache r !! key)), r)
  else
  (* 1. a haste module *)
  let module := getModule r moduleName None in
  if truthy_opt module then remember (default "" module)
  else
  (* 2. the node module resolution algorithm *)
  let nodeResolution :=
    match options with
    | Some o => negb (opt_true (skipNodeResolution o))
    | None => true
    end in
  let module :=
    if nodeResolution
    then findNodeModule moduleName (nodeModuleConfig r dirname)
    else None in
  if truthy_opt module then remember (default "" module)
  else
  (* 3. haste packages *)
  let parts := split_slash moduleName in
  let module := getPackage r (default "" (head parts)) in
  let parts := tail parts in
  let fail := (Abrupt (notFoundError from moduleName), r) in
  if truthy_opt module
  then
    match require_resolve host
            (path_join host (path_dirname host (default "" module) :: parts))
    with
    | Some p => remember p
    | None => fail
    end
  else
  (* 4. the module could not be found *)
  fail.

End WithHost.

End Resolver.

(** ** The module runtime *)

Module Runtime.

Record InternalModuleOptions := { isInternalModule : bool }.

(** The per-module [require] built by [_createRequireImplementation]: the
    caller's path and the options are baked in. *)
Record RequireFn := {
  rq_from : Path;
  rq_options : option InternalModuleOptions;
}.

(** The sentinel [mockParentModule]. *)
Record ParentModule := { parent_filename : string; parent_id : string }.
Definition mockParentModule : ParentModule :=
  {| parent_filename := "mock.js"; parent_id := "mockParent" |}.

Record Module := {
  exports : value;
  filename : string;
  children : option (list value);
  parent : option ParentModule;
  paths : option (list (option Path));
  require : option RequireFn;
}.

Definition set_exports (v : value) (m : Module) : Module :=
  {| exports := v; filename := filename m; children := children m;
     parent := parent m; paths := paths m; require := require m |}.

Record Config := {
  config_identity : nat;
  automock : bool;
  mocksPattern : option string;
  rootDir : Path;
  scriptPreprocessor : option Path;
  setupFiles : list Path;
  testRegex : string;
  unmockedModulePathPatterns : option (list string);
  usesBabelJest : bool;
}.

(** The environment's global object, as far as [resetModuleRegistry] looks at
    it: its own enumerable properties, in key order, and the optional
    [mockClearTimers]. A mock function carries the calls recorded so far;
    [mockClear] forgets them. *)
Inductive GlobalProp :=
| GPrimitive (v : value)
| GObject (_isMockFunction : bool) (calls : nat)
| GFunction (_isMockFunction : bool) (calls : nat).

Record Global := {
  properties : list (string * GlobalProp);
  mockClearTimers : option nat;
}.

Record Environment := { global : option Global }.

(** Metadata of jest-mock: the type tag and the members it found. *)
Record Metadata := {
  meta_type : string;
  meta_members : list (string * string);
}.

(** *** Module bodies

    A compiled wrapper is a program over the operations the runtime hands
    to it: its own [module] and [exports], the [require] function with its
    attributes, and the [jest] object of [_createRuntimeFor]. *)
Inductive prog :=
| Ret (v : value)
| Throw (e : exn)
| TryCatch (body : prog) (handler : exn -> prog) (k : value -> prog)
| NewObject (k : value -> prog)
| GetProp (o : value) (key : string) (k : value -> prog)
| SetProp (o : value) (key : string) (v : value) (k : prog)
| GetModuleExports (k : value -> prog)
| SetModuleExports (v : value) (k : prog)
| Require (moduleName : string) (k : value -> prog)
| RequireActual (moduleName : string) (k : value -> prog)
| RequireMockOf (moduleName : string) (k : value -> prog)
| RequireResolve (moduleName : string) (k : Path -> prog)
| JestDisableAutomock (k : prog)
| JestEnableAutomock (k : prog)
| JestUnmock (moduleName : string) (k : prog)
| JestDeepUnmock (moduleName : string) (k : prog)
| JestMock (moduleName : string) (k : prog)
| JestMockFactory (moduleName : string) (mockFactory : prog)
    (virtual : option bool) (k : prog)
| JestSetMock (moduleName : string) (mock : value) (k : prog)
| JestGenMockFromModule (moduleName : string) (k : value -> prog)
| JestResetModuleRegistry (k : prog).

(** The arguments a wrapper sees besides those operations: [exports],
    [__dirname] and [__filename]. *)
Definition Wrapper := value -> Path -> Path -> prog.

(** Where a body or a mock factory runs: the path of the module that
    created it, that module's record and its require options. *)
Record Ctx := {
  c_from : Path;
  c_module : nat;
  c_options : option InternalModuleOptions;
}.

Record Closure := { cl_ctx : Ctx; cl_body : prog }.

Record Script := { script_id : nat }.

(** What the runtime depends on: the transformer, the script runner,
    node's own loader, [fs] and the jest-mock package. *)
Record Deps := {
  transform : Path -> Config -> bool -> completion Script;
  runScript : Script -> completion Wrapper;
  fs_readFileSync : Path -> completion string;
  JSON_parse : string -> list (gmap string value) ->
               completion (value * list (gmap string value));
  (** node's [require], used for core modules and [.node] addons *)
  node_require : string -> completion value;
  getMetadata : list (gmap string value) -> value -> option Metadata;
  generateFromMetadata : option Metadata -> list (gmap string value) ->
                         value * list (gmap string value);
}.

Record t := {
  _config : Config;
  _currentlyExecutingModulePath : string;
  _environment : Environment;
  _explicitShouldMock : gmap string bool;
  _isCurrentlyExecutingManualMock : option string;
  _mockFactories : gmap string Closure;
  _mockMetaDataCache : gmap string (option Metadata);
  _mockRegistry : nat;
  _mocksPattern : option RegExp;
  _moduleRegistry : nat;
  _resolver : Resolver.t;
  _shouldAutoMock : bool;
  _shouldMockModuleCache : gmap string bool;
  _shouldUnmockTransitiveDependenciesCache : gmap string bool;
  _testRegex : RegExp;
  _transitiveShouldMock : gmap string bool;
  _unmockList : option RegExp;
  _virtualMocks : gmap string bool;
}.

Definition set_currentlyExecutingModulePath (x : string) (r : t) : t :=
  {| _config := _config r; _currentlyExecutingModulePath := x; _environment
     := _environment r; _explicitShouldMock := _explicitShouldMock r;
     _isCurrentlyExecutingManualMock := _isCurrentlyExecutingManualMock r;
     _mockFactories := _mockFactories r; _mockMetaDataCache :=
     _mockMetaDataCache r; _mockRegistry := _mockRegistry r; _mocksPattern :=
     _mocksPattern r; _moduleRegistry := _moduleRegistry r; _resolver :=
     _resolver r; _shouldAutoMock := _shouldAutoMock r;
     _shouldMockModuleCache := _shouldMockModuleCache r;
     _shouldUnmockTransitiveDependenciesCache :=
     _shouldUnmockTransitiveDependenciesCache r; _testRegex := _testRegex r;
     _transitiveShouldMock := _transitiveShouldMock r; _unmockList :=
     _unmockList r; _virtualMocks := _virtualMocks r |}.

Definition set_environment (x : Environment) (r : t) : t :=
  {| _config := _config r; _currentlyExecutingModulePath :=
     _currentlyExecutingModulePath r; _environment := x; _explicitShouldMock
     := _explicitShouldMock r; _isCurrentlyExecutingManualMock :=
     _isCurrentlyExecutingManualMock r; _mockFactories := _mockFactories r;
     _mockMetaDataCache := _mockMetaDataCache r; _mockRegistry :=
     _mockRegistry r; _mocksPattern := _mocksPattern r; _moduleRegistry :=
     _moduleRegistry r; _resolver := _resolver r; _shouldAutoMock :=
     _shouldAutoMock r; _shouldMockModuleCache := _shouldMockModuleCache r;
     _shouldUnmockTransitiveDependenciesCache :=
     _shouldUnmockTransitiveDependenciesCache r; _testRegex := _testRegex r;
     _transitiveShouldMock := _transitiveShouldMock r; _unmockList :=
     _unmockList r; _virtualMocks := _virtualMocks r |}.

Definition set_explicitShouldMock (x : gmap string bool) (r : t) : t :=
  {| _config := _config r; _currentlyExecutingModulePath :=
     _currentlyExecutingModulePath r; _environment := _environment r;
     _explicitShouldMock := x; _isCurrentlyExecutingManualMock :=
     _isCurrentlyExecutingManualMock r; _mockFactories := _mockFactories r;
     _mockMetaDataCache := _mockMetaDataCache r; _mockRegistry :=
     _mockRegistry r; _mocksPattern := _mocksPattern r; _moduleRegistry :=
     _moduleRegistry r; _resolver := _resolver r; _shouldAutoMock :=
     _shouldAutoMock r; _shouldMockModuleCache := _shouldMockModuleCache r;
     _shouldUnmockTransitiveDependenciesCache :=
     _shouldUnmockTransitiveDependenciesCache r; _testRegex := _testRegex r;
     _transitiveShouldMock := _transitiveShouldMock r; _unmockList :=
     _unmockList r; _virtualMocks := _virtualMocks r |}.

Definition set_isCurrentlyExecutingManualMock (x : option string) (r : t) : t :=
  {| _config := _config r; _currentlyExecutingModulePath :=
     _currentlyExecutingModulePath r; _environment := _environment r;
     _explicitShouldMock := _explicitShouldMock r;
     _isCurrentlyExecutingManualMock := x; _mockFactories := _mockFactories
     r; _mockMetaDataCache := _mockMetaDataCache r; _mockRegistry :=
     _mockRegistry r; _mocksPattern := _mocksPattern r; _moduleRegistry :=
     _moduleRegistry r; _resolver := _resolver r; _shouldAutoMock :=
     _shouldAutoMock r; _shouldMockModuleCache := _shouldMockModuleCache r;
     _shouldUnmockTransitiveDependenciesCache :=
     _shouldUnmockTransitiveDependenciesCache r; _testRegex := _testRegex r;
     _transitiveShouldMock := _transitiveShouldMock r; _unmockList :=
     _unmockList r; _virtualMocks := _virtualMocks r |}.

Definition set_mockFactories (x : gmap string Closure) (r : t) : t :=
  {| _config := _config r; _currentlyExecutingModulePath :=
     _currentlyExecutingModulePath r; _environment := _environment r;
     _explicitShouldMock := _explicitShouldMock r;
     _isCurrentlyExecutingManualMock := _isCurrentlyExecutingManualMock r;
     _mockFactories := x; _mockMetaDataCache := _mockMetaDataCache r;
     _mockRegistry := _mockRegistry r; _mocksPattern := _mocksPattern r;
     _moduleRegistry := _moduleRegistry r; _resolver := _resolver r;
     _shouldAutoMock := _shouldAutoMock r; _shouldMockModuleCache :=
     _shouldMockModuleCache r; _shouldUnmockTransitiveDependenciesCache :=
     _shouldUnmockTransitiveDependenciesCache r; _testRegex := _testRegex r;
     _transitiveShouldMock := _transitiveShouldMock r; _unmockList :=
     _unmockList r; _virtualMocks := _virtualMocks r |}.

Definition set_mockMetaDataCache (x : gmap string (option Metadata)) (r : t) : t :=
  {| _config := _config r; _currentlyExecutingModulePath :=
     _currentlyExecutingModulePath r; _environment := _environment r;
     _explicitShouldMock := _explicitShouldMock r;
     _isCurrentlyExecutingManualMock := _isCurrentlyExecutingManualMock r;
     _mockFactories := _mockFactories r; _mockMetaDataCache := x;
     _mockRegistry := _mockRegistry r; _mocksPattern := _mocksPattern r;
     _moduleRegistry := _moduleRegistry r; _resolver := _resolver r;
     _shouldAutoMock := _shouldAutoMock r; _shouldMockModuleCache :=
     _shouldMockModuleCache r; _shouldUnmockTransitiveDependenciesCache :=
     _shouldUnmockTransitiveDependenciesCache r; _testRegex := _testRegex r;
     _transitiveShouldMock := _transitiveShouldMock r; _unmockList :=
     _unmockList r; _virtualMocks := _virtualMocks r |}.

Definition set_mockRegistry (x : nat) (r : t) : t :=
  {| _config := _config r; _currentlyExecutingModulePath :=
     _currentlyExecutingModulePath r; _environment := _environment r;
     _explicitShouldMock := _explicitShouldMock r;
     _isCurrentlyExecutingManualMock := _isCurrentlyExecutingManualMock r;
     _mockFactories := _mockFactories r; _mockMetaDataCache :=
     _mockMetaDataCache r; _mockRegistry := x; _mocksPattern := _mocksPattern
     r; _moduleRegistry := _moduleRegistry r; _resolver := _resolver r;
     _shouldAutoMock := _shouldAutoMock r; _shouldMockModuleCache :=
     _shouldMockModuleCache r; _shouldUnmockTransitiveDependenciesCache :=
     _shouldUnmockTransitiveDependenciesCache r; _testRegex := _testRegex r;
     _transitiveShouldMock := _transitiveShouldMock r; _unmockList :=
     _unmockList r; _virtualMocks := _virtualMocks r |}.

Definition set_moduleRegistry (x : nat) (r : t) : t :=
  {| _config := _config r; _currentlyExecutingModulePath :=
     _currentlyExecutingModulePath r; _environment := _environment r;
     _explicitShouldMock := _explicitShouldMock r;
     _isCurrentlyExecutingManualMock := _isCurrentlyExecutingManualMock r;
     _mockFactories := _mockFactories r; _mockMetaDataCache :=
     _mockMetaDataCache r; _mockRegistry := _mockRegistry r; _mocksPattern :=
     _mocksPattern r; _moduleRegistry := x; _resolver := _resolver r;
     _shouldAutoMock := _shouldAutoMock r; _shouldMockModuleCache :=
     _shouldMockModuleCache r; _shouldUnmockTransitiveDependenciesCache :=
     _shouldUnmockTransitiveDependenciesCache r; _testRegex := _testRegex r;
     _transitiveShouldMock := _transitiveShouldMock r; _unmockList :=
     _unmockList r; _virtualMocks := _virtualMocks r |}.

Definition set_resolver (x : Resolver.t) (r : t) : t :=
  {| _config := _config r; _currentlyExecutingModulePath :=
     _currentlyExecutingModulePath r; _environment := _environment r;
     _explicitShouldMock := _explicitShouldMock r;
     _isCurrentlyExecutingManualMock := _isCurrentlyExecutingManualMock r;
     _mockFactories := _mockFactories r; _mockMetaDataCache :=
     _mockMetaDataCache r; _mockRegistry := _mockRegistry r; _mocksPattern :=
     _mocksPattern r; _moduleRegistry := _moduleRegistry r; _resolver := x;
     _shouldAutoMock := _shouldAutoMock r; _shouldMockModuleCache :=
     _shouldMockModuleCache r; _shouldUnmockTransitiveDependenciesCache :=
     _shouldUnmockTransitiveDependenciesCache r; _testRegex := _testRegex r;
     _transitiveShouldMock := _transitiveShouldMock r; _unmockList :=
     _unmockList r; _virtualMocks := _virtualMocks r |}.

Definition set_shouldAutoMock (x : bool) (r : t) : t :=
  {| _config := _config r; _currentlyExecutingModulePath :=
     _currentlyExecutingModulePath r; _environment := _environment r;
     _explicitShouldMock := _explicitShouldMock r;
     _isCurrentlyExecutingManualMock := _isCurrentlyExecutingManualMock r;
     _mockFactories := _mockFactories r; _mockMetaDataCache :=
     _mockMetaDataCache r; _mockRegistry := _mockRegistry r; _mocksPattern :=
     _mocksPattern r; _moduleRegistry := _moduleRegistry r; _resolver :=
     _resolver r; _shouldAutoMock := x; _shouldMockModuleCache :=
     _shouldMockModuleCache r; _shouldUnmockTransitiveDependenciesCache :=
     _shouldUnmockTransitiveDependenciesCache r; _testRegex := _testRegex r;
     _transitiveShouldMock := _transitiveShouldMock r; _unmockList :=
     _unmockList r; _virtualMocks := _virtualMocks r |}.

Definition set_shouldMockModuleCache (x : gmap string bool) (r : t) : t :=
  {| _config := _config r; _currentlyExecutingModulePath :=
     _currentlyExecutingModulePath r; _environment := _environment r;
     _explicitShouldMock := _explicitShouldMock r;
     _isCurrentlyExecutingManualMock := _isCurrentlyExecutingManualMock r;
     _mockFactories := _mockFactories r; _mockMetaDataCache :=
     _mockMetaDataCache r; _mockRegistry := _mockRegistry r; _mocksPattern :=
     _mocksPattern r; _moduleRegistry := _moduleRegistry r; _resolver :=
     _resolver r; _shouldAutoMock := _shouldAutoMock r;
     _shouldMockModuleCache := x; _shouldUnmockTransitiveDependenciesCache :=
     _shouldUnmockTransitiveDependenciesCache r; _testRegex := _testRegex r;
     _transitiveShouldMock := _transitiveShouldMock r; _unmockList :=
     _unmockList r; _virtualMocks := _virtualMocks r |}.

Definition set_shouldUnmockTransitiveDependenciesCache (x : gmap string bool) (r : t) : t :=
  {| _config := _config r; _currentlyExecutingModulePath :=
     _currentlyExecutingModulePath r; _environment := _environment r;
     _explicitShouldMock := _explicitShouldMock r;
     _isCurrentlyExecutingManualMock := _isCurrentlyExecutingManualMock r;
     _mockFactories := _mockFactories r; _mockMetaDataCache :=
     _mockMetaDataCache r; _mockRegistry := _mockRegistry r; _mocksPattern :=
     _mocksPattern r; _moduleRegistry := _moduleRegistry r; _resolver :=
     _resolver r; _shouldAutoMock := _shouldAutoMock r;
     _shouldMockModuleCache := _shouldMockModuleCache r;
     _shouldUnmockTransitiveDependenciesCache := x; _testRegex := _testRegex
     r; _transitiveShouldMock := _transitiveShouldMock r; _unmockList :=
     _unmockList r; _virtualMocks := _virtualMocks r |}.

Definition set_transitiveShouldMock (x : gmap string bool) (r : t) : t :=
  {| _config := _config r; _currentlyExecutingModulePath :=
     _currentlyExecutingModulePath r; _environment := _environment r;
     _explicitShouldMock := _explicitShouldMock r;
     _isCurrentlyExecutingManualMock := _isCurrentlyExecutingManualMock r;
     _mockFactories := _mockFactories r; _mockMetaDataCache :=
     _mockMetaDataCache r; _mockRegistry := _mockRegistry r; _mocksPattern :=
     _mocksPattern r; _moduleRegistry := _moduleRegistry r; _resolver :=
     _resolver r; _shouldAutoMock := _shouldAutoMock r;
     _shouldMockModuleCache := _shouldMockModuleCache r;
     _shouldUnmockTransitiveDependenciesCache :=
     _shouldUnmockTransitiveDependenciesCache r; _testRegex := _testRegex r;
     _transitiveShouldMock := x; _unmockList := _unmockList r; _virtualMocks
     := _virtualMocks r |}.

Definition set_virtualMocks (x : gmap string bool) (r : t) : t :=
  {| _config := _config r; _currentlyExecutingModulePath :=
     _currentlyExecutingModulePath r; _environment := _environment r;
     _explicitShouldMock := _explicitShouldMock r;
     _isCurrentlyExecutingManualMock := _isCurrentlyExecutingManualMock r;
     _mockFactories := _mockFactories r; _mockMetaDataCache :=
     _mockMetaDataCache r; _mockRegistry := _mockRegistry r; _mocksPattern :=
     _mocksPattern r; _moduleRegistry := _moduleRegistry r; _resolver :=
     _resolver r; _shouldAutoMock := _shouldAutoMock r;
     _shouldMockModuleCache := _shouldMockModuleCache r;
     _shouldUnmockTransitiveDependenciesCache :=
     _shouldUnmockTransitiveDependenciesCache r; _testRegex := _testRegex r;
     _transitiveShouldMock := _transitiveShouldMock r; _unmockList :=
     _unmockList r; _virtualMocks := x |}.

(** *** The stores

    Registries, module records and plain objects are JavaScript objects:
    they are held by address, so that two holders of one registry see each
    other's writes and a replaced registry keeps its contents. *)
Record Store := {
  objects : list (gmap string value);
  modules : list Module;
  moduleRegistries : list (gmap string nat);
  mockRegistries : list (gmap string value);
}.

Definition set_objects (x : list (gmap string value)) (h : Store) : Store :=
  {| objects := x; modules := modules h;
     moduleRegistries := moduleRegistries h;
     mockRegistries := mockRegistries h |}.
Definition set_modules (x : list Module) (h : Store) : Store :=
  {| objects := objects h; modules := x;
     moduleRegistries := moduleRegistries h;
     mockRegistries := mockRegistries h |}.
Definition set_moduleRegistries (x : list (gmap string nat)) (h : Store)
    : Store :=
  {| objects := objects h; modules := modules h;
     moduleRegistries := x; mockRegistries := mockRegistries h |}.
Definition set_mockRegistries (x : list (gmap string value)) (h : Store)
    : Store :=
  {| objects := objects h; modules := modules h;
     moduleRegistries := moduleRegistries h; mockRegistries := x |}.

(** The two caches shared by every runtime of the process. *)
Record Process := {
  normalizedIDCache : gmap string string;
  unmockRegExpCache : gmap nat RegExp;
}.

Record state := {
  this : t;
  heap : Store;
  process : Process;
}.

Definition on_this (f : t -> t) (s : state) : state :=
  {| this := f (this s); heap := heap s; process := process s |}.
Definition on_heap (f : Store -> Store) (s : state) : state :=
  {| this := this s; heap := f (heap s); process := process s |}.
Definition on_process (f : Process -> Process) (s : state) : state :=
  {| this := this s; heap := heap s; process := f (process s) |}.

(** *** The monad of runtime operations: state, exceptions and fuel *)
Inductive outcome (A : Type) :=
| Ok (a : A) (s : state)
| Err (e : exn) (s : state)
| OutOfFuel.
Arguments Ok {A} a s.
Arguments Err {A} e s.
Arguments OutOfFuel {A}.

Definition M (A : Type) : Type := state -> outcome A.

#[export] Instance M_ret : MRet M := fun A a s => Ok a s.
#[export] Instance M_bind : MBind M := fun A B f m s =>
  match m s with
  | Ok a s' => f a s'
  | Err e s' => Err e s'
  | OutOfFuel => OutOfFuel
  end.

#[export] Instance M_fmap : FMap M := fun A B f m s =>
  match m s with
  | Ok a s' => Ok (f a) s'
  | Err e s' => Err e s'
  | OutOfFuel => OutOfFuel
  end.

Definition throw {A} (e : exn) : M A := fun s => Err e s.
Definition gets {A} (f : state -> A) : M A := fun s => Ok (f s) s.
Definition modify (f : state -> state) : M unit := fun s => Ok tt (f s).
Definition out_of_fuel {A} : M A := fun _ => OutOfFuel.

(** [try { m } catch (e) { h e }] *)
Definition try_catch {A} (m : M A) (h : exn -> M A) : M A := fun s =>
  match m s with
  | Ok a s' => Ok a s'
  | Err e s' => h e s'
  | OutOfFuel => OutOfFuel
  end.

Definition lift_completion {A} (c : completion A) : M A :=
  match c with
  | Normal a => mret a
  | Abrupt e => throw e
  end.

Definition typeError {A} (message : string) : M A :=
  throw (JsError "TypeError" message None).

(** The run returned, it neither threw nor ran out of fuel. *)
Definition returned {A} (o : outcome A) : bool :=
  match o with
  | Ok _ _ => true
  | _ => false
  end.


(** *** Store primitives *)

Definition alloc_object (o : gmap string value) : M nat := fun s =>
  Ok (length (objects (heap s)))
     (on_heap (set_objects (objects (heap s) ++ [o])) s).

Definition alloc_module (m : Module) : M nat := fun s =>
  Ok (length (modules (heap s)))
     (on_heap (set_modules (modules (heap s) ++ [m])) s).

(** [Object.create(null)] for a module registry and for a mock registry *)
Definition alloc_moduleRegistry : M nat := fun s =>
  Ok (length (moduleRegistries (heap s)))
     (on_heap (set_moduleRegistries (moduleRegistries (heap s) ++ [∅])) s).

Definition alloc_mockRegistry : M nat := fun s =>
  Ok (length (mockRegistries (heap s)))
     (on_heap (set_mockRegistries (mockRegistries (heap s) ++ [∅])) s).

Definition read_module (l : nat) : M Module := fun s =>
  match modules (heap s) !! l with
  | Some m => Ok m s
  | None => Err (JsError "TypeError" "not a module record" None) s
  end.

Definition write_module (l : nat) (f : Module -> Module) : M unit :=
  modify (on_heap (fun h =>
    set_modules (alter f l (modules h)) h)).

(** [registry[key]] on the registry at address [reg] *)
Definition moduleRegistry_get (reg : nat) (key : string) (s : state)
    : option nat :=
  moduleRegistries (heap s) !! reg ≫= fun r => r !! key.

Definition mockRegistry_get (reg : nat) (key : string) (s : state)
    : option value :=
  mockRegistries (heap s) !! reg ≫= fun r => r !! key.

(** [this._moduleRegistry[key]] and [this._mockRegistry[key]] *)
Definition moduleRegistry_lookup (key : string) : M (option nat) :=
  gets (fun s => moduleRegistry_get (_moduleRegistry (this s)) key s).

Definition mockRegistry_lookup (key : string) : M (option value) :=
  gets (fun s => mockRegistry_get (_mockRegistry (this s)) key s).

(** [registry[key] = v] on the mock registry at address [reg] *)
Definition mockRegistry_set (reg : nat) (key : string) (v : value)
    : M unit :=
  modify (on_heap (fun h =>
    set_mockRegistries (alter (insert key v) reg (mockRegistries h)) h)).

(** [this._moduleRegistry[key] = l] and [this._mockRegistry[key] = v] *)
Definition moduleRegistry_store (key : string) (l : nat) : M unit :=
  modify (fun s => on_heap (fun h =>
    set_moduleRegistries
      (alter (insert key l) (_moduleRegistry (this s)) (moduleRegistries h))
      h) s).

Definition mockRegistry_store (key : string) (v : value) : M unit :=
  modify (fun s => on_heap (fun h =>
    set_mockRegistries
      (alter (insert key v) (_mockRegistry (this s)) (mockRegistries h))
      h) s).

(** [o[key]] and [o[key] = v] as a module body performs them *)
Definition getProp (o : value) (key : string) : M value := fun s =>
  match o with
  | VObj l =>
      Ok (default VUndefined (objects (heap s) !! l ≫= fun f => f !! key)) s
  | VUndefined | VNull =>
      Err (JsError "TypeError" "Cannot read property of undefined" None) s
  | _ => Ok VUndefined s
  end.

Definition setProp (o : value) (key : string) (v : value) : M unit :=
  match o with
  | VObj l =>
      modify (on_heap (fun h =>
        set_objects (alter (insert key v) l (objects h)) h))
  | VUndefined | VNull => typeError "Cannot set property of undefined"
  | _ => mret tt
  end.

Definition NODE_MODULES_of (sep : string) : string :=
  sep +:+ "node_modules" +:+ sep.

Section WithHost.
Context (host : NodeHost) (deps : Deps).

Definition NODE_MODULES : string := NODE_MODULES_of (path_sep host).

(** [this._resolver.resolveModule(from, to)] with the resolver's caches
    written back *)
Definition resolver_resolveModule (from : Path) (to : string) : M Path :=
  fun s =>
    let '(c, r) :=
      Resolver.resolveModule host (_resolver (this s)) from to None in
    lift_completion c (on_this (set_resolver r) s).

Definition resolver_getModulePaths (from : Path)
    : M (list (option Path)) :=
  fun s =>
    let '(ps, r) := Resolver.getModulePaths host (_resolver (this s)) from in
    Ok ps (on_this (set_resolver r) s).

Definition resolver_getModule (name : string) : M (option Path) :=
  gets (fun s => Resolver.getModule host (_resolver (this s)) name None).

Definition resolver_getMockModule (from : Path) (name : string)
    : M (option Path) :=
  gets (fun s => Resolver.getMockModule host (_resolver (this s)) from name).

Definition resolver_isCoreModule (name : string) : M bool :=
  gets (fun s => Resolver.isCoreModule host (_resolver (this s)) name).

Definition _resolveModule (from : Path) (to : option string) : M Path :=
  if truthy_opt to
  then resolver_resolveModule from (default "" to)
  else mret from.

Definition _getVirtualMockPath (from : Path) (moduleName : string)
    : Path :=
  match moduleName with
  | String c _ =>
      if Ascii.eqb c "."%char || Ascii.eqb c "/"%char
      then path_normalize host
             (path_dirname host from +:+ "/" +:+ moduleName)
      else moduleName
  | EmptyString => moduleName
  end.

Definition _normalizeID (from : Path) (moduleName : option string)
    : M string :=
  let moduleName := if truthy_opt moduleName
                    then default "" moduleName else "" in
  let key := from +:+ path_delimiter host +:+ moduleName in
  cached ← gets (fun s => normalizedIDCache (process s) !! key);
  if truthy_opt cached then mret (default "" cached)
  else
    isCore ← resolver_isCoreModule moduleName;
    '(moduleType, absolutePath, mockPath) ←
      (if (isCore : bool)
       then mret ("node", Some moduleName, None)
            : M (string * option string * option string)
       else
         haste ← resolver_getModule moduleName;
         mock ← resolver_getMockModule from moduleName;
         absolutePath ←
           (if negb (truthy_opt haste) && negb (truthy_opt mock)
            then
              virtualMocks ← gets (fun s => _virtualMocks (this s));
              let virtualMockPath := _getVirtualMockPath from moduleName in
              if truthy_str moduleName
                 && bool_decide (is_Some (virtualMocks !! virtualMockPath))
              then mret (Some virtualMockPath) : M (option string)
              else Some <$> _resolveModule from (Some moduleName)
            else mret None);
         moduleResource ← resolver_getModule moduleName;
         let absolutePath :=
           match absolutePath with
           | Some a => Some a
           | None =>
               if truthy_opt moduleResource then moduleResource else None
           end in
         mockResource ← resolver_getMockModule from moduleName;
         let mockPath :=
           if truthy_opt mockResource then mockResource else None in
         mret ("user", absolutePath, mockPath));
    let sep := path_delimiter host in
    let id := moduleType +:+ sep
              +:+ default "" (js_or absolutePath (Some "")) +:+ sep
              +:+ default "" (js_or mockPath (Some "")) in
    modify (on_process (fun p =>
      {| normalizedIDCache := <[key := id]> (normalizedIDCache p);
         unmockRegExpCache := unmockRegExpCache p |}));;
    mret id.

Definition _shouldMock (from : Path) (moduleName : string) : M bool :=
  let mockPath := _getVirtualMockPath from moduleName in
  virtualMocks ← gets (fun s => _virtualMocks (this s));
  if bool_decide (is_Some (virtualMocks !! mockPath)) then mret true
  else
    moduleID ← _normalizeID from (Some moduleName);
    let key := from +:+ path_delimiter host +:+ moduleID in
    explicitShouldMock ← gets (fun s => _explicitShouldMock (this s));
    match explicitShouldMock !! moduleID with
    | Some b => mret b
    | None =>
        shouldAutoMock ← gets (fun s => _shouldAutoMock (this s));
        isCore ← resolver_isCoreModule moduleName;
        unmockTransitive ← gets (fun s =>
          _shouldUnmockTransitiveDependenciesCache (this s) !! key);
        if negb shouldAutoMock || isCore
           || bool_decide (unmockTransitive = Some true)
        then mret false
        else
          cache ← gets (fun s => _shouldMockModuleCache (this s));
          match cache !! moduleID with
          | Some b => mret b
          | None =>
              manualMock ← resolver_getMockModule from moduleName;
              let remember (b : bool) : M bool :=
                modify (on_this (fun r =>
                  set_shouldMockModuleCache
                    (<[moduleID := b]> (_shouldMockModuleCache r)) r));;
                mret b in
              modulePath ←
                try_catch (Some <$> _resolveModule from (Some moduleName))
                  (fun e =>
                     if truthy_opt manualMock then mret None
                     else throw e);
              match modulePath with
              | None => remember true
              | Some modulePath =>
                  unmockList ← gets (fun s => _unmockList (this s));
                  let unmockList_test (p : string) : bool :=
                    match unmockList with
                    | Some re => regexp_test host re p
                    | None => false
                    end in
                  if unmockList_test modulePath then remember false
                  else
                    currentModuleID ← _normalizeID from None;
                    transitive ← gets (fun s =>
                      _transitiveShouldMock (this s));
                    explicitShouldMock ← gets (fun s =>
                      _explicitShouldMock (this s));
                    if bool_decide
                         (transitive !! currentModuleID = Some false)
                       || (includes NODE_MODULES from
                           && includes NODE_MODULES modulePath
                           && (unmockList_test from
                               || bool_decide
                                    (explicitShouldMock !! currentModuleID
                                     = Some false)))
                    then
                      modify (on_this (fun r =>
                        set_transitiveShouldMock
                          (<[moduleID := false]>
                             (_transitiveShouldMock r)) r));;
                      modify (on_this (fun r =>
                        set_shouldUnmockTransitiveDependenciesCache
                          (<[key := true]>
                             (_shouldUnmockTransitiveDependenciesCache r))
                          r));;
                      mret false
                    else remember true
              end
          end
    end.

(** [mockClear] on every mock function among the global's properties *)
Definition mockClear (g : GlobalProp) : GlobalProp :=
  match g with
  | GPrimitive v => GPrimitive v
  | GObject isMock calls => GObject isMock (if isMock then 0 else calls)
  | GFunction isMock calls =>
      GFunction isMock (if isMock then 0 else calls)
  end.

Definition resetModuleRegistry : M unit :=
  mockRegistry ← alloc_mockRegistry;
  modify (on_this (set_mockRegistry mockRegistry));;
  moduleRegistry ← alloc_moduleRegistry;
  modify (on_this (set_moduleRegistry moduleRegistry));;
  environment ← gets (fun s => _environment (this s));
  match global environment with
  | Some envGlobal =>
      modify (on_this (set_environment
        {| global := Some
             {| properties :=
                  prod_map id mockClear <$> properties envGlobal;
                mockClearTimers :=
                  (fun _ => 0) <$> mockClearTimers envGlobal |} |}))
  | None => mret tt
  end.

Definition setMock (from : Path) (moduleName : string)
    (mockFactory : Closure) (options : option bool) : M unit :=
  (if Resolver.opt_true options
   then
     let mockPath := _getVirtualMockPath from moduleName in
     modify (on_this (fun r =>
       set_virtualMocks (<[mockPath := true]> (_virtualMocks r)) r))
   else mret tt);;
  moduleID ← _normalizeID from (Some moduleName);
  modify (on_this (fun r =>
    set_explicitShouldMock
      (<[moduleID := true]> (_explicitShouldMock r)) r));;
  modify (on_this (fun r =>
    set_mockFactories (<[moduleID := mockFactory]> (_mockFactories r)) r)).

Definition syntaxErrorMessage (config : Config) (message : string)
    (filename : Path) : string :=
  let relative filePath := path_relative host (rootDir config) filePath in
  let preprocessorInfo :=
    match scriptPreprocessor config with
    | Some pre =>
        if truthy_str pre then relative pre
        else "No preprocessor specified, consider installing 'babel-jest'"
    | None =>
        "No preprocessor specified, consider installing 'babel-jest'"
    end in
  let babelInfo :=
    if usesBabelJest config
    then "Make sure your '.babelrc' is set up correctly, " +:+
         "for example it should include the 'es2015' preset." +:+
         String "010"%char ""
    else "" in
  let nl := String "010"%char "" in
  message +:+ " in file '" +:+ relative filename +:+ "'." +:+ nl +:+ nl
  +:+ "Make sure your preprocessor is set up correctly and ensure "
  +:+ "your 'preprocessorIgnorePatterns' configuration is correct: "
  +:+ "http://facebook.github.io/jest/docs/api.html"
  +:+ "#preprocessorignorepatterns-array-string" +:+ nl
  +:+ "If you are currently setting up Jest or modifying your "
  +:+ "preprocessor, try `jest --no-cache`." +:+ nl
  +:+ "Preprocessor: " +:+ preprocessorInfo +:+ "." +:+ nl +:+ babelInfo.

Definition _runScript (script : Script) (filename : Path) : M Wrapper :=
  try_catch (lift_completion (runScript deps script))
    (fun e =>
       config ← gets (fun s => _config (this s));
       match e with
       | JsError "SyntaxError" message _ =>
           throw (JsError "SyntaxError"
                    (syntaxErrorMessage config message filename) None)
       | Thrown VUndefined | Thrown VNull =>
           typeError "Cannot read property 'constructor' of undefined"
       | _ => throw e
       end).

(** The operations a running body reaches through [require] and [jest];
    a body runs against the runtime one level of nesting further down. *)
Record Ops := {
  o_requireModuleOrMock : Path -> string -> M value;
  o_requireModule :
    Path -> option string -> option InternalModuleOptions -> M value;
  o_requireMock : Path -> string -> M value;
  o_generateMock : Path -> string -> M value;
}.

Definition is_internal (options : option InternalModuleOptions) : bool :=
  match options with
  | Some o => isInternalModule o
  | None => false
  end.

Definition explicitly (b : bool) (from : Path) (moduleName : string)
    : M unit :=
  moduleID ← _normalizeID from (Some moduleName);
  modify (on_this (fun r =>
    set_explicitShouldMock
      (<[moduleID := b]> (_explicitShouldMock r)) r)).

Section WithOps.
Context (self : Ops).

(** Runs a body or a factory created by the module at [c_from ctx]. *)
Fixpoint run (ctx : Ctx) (p : prog) {struct p} : M value :=
  let from := c_from ctx in
  match p with
  | Ret v => mret v
  | Throw e => throw e
  | TryCatch body handler k =>
      v ← try_catch (run ctx body) (fun e => run ctx (handler e));
      run ctx (k v)
  | NewObject k =>
      l ← alloc_object ∅;
      run ctx (k (VObj l))
  | GetProp o key k =>
      v ← getProp o key;
      run ctx (k v)
  | SetProp o key v k =>
      setProp o key v;;
      run ctx k
  | GetModuleExports k =>
      m ← read_module (c_module ctx);
      run ctx (k (exports m))
  | SetModuleExports v k =>
      write_module (c_module ctx) (set_exports v);;
      run ctx k
  | Require moduleName k =>
      v ← (if is_internal (c_options ctx)
           then o_requireModule self from (Some moduleName)
                  (Some {| isInternalModule := true |})
           else o_requireModuleOrMock self from moduleName);
      run ctx (k v)
  | RequireActual moduleName k =>
      v ← o_requireModule self from (Some moduleName) None;
      run ctx (k v)
  | RequireMockOf moduleName k =>
      v ← o_requireMock self from moduleName;
      run ctx (k v)
  | RequireResolve moduleName k =>
      p ← _resolveModule from (Some moduleName);
      run ctx (k p)
  | JestDisableAutomock k =>
      modify (on_this (set_shouldAutoMock false));;
      run ctx k
  | JestEnableAutomock k =>
      modify (on_this (set_shouldAutoMock true));;
      run ctx k
  | JestUnmock moduleName k =>
      explicitly false from moduleName;;
      run ctx k
  | JestDeepUnmock moduleName k =>
      moduleID ← _normalizeID from (Some moduleName);
      modify (on_this (fun r =>
        set_explicitShouldMock
          (<[moduleID := false]> (_explicitShouldMock r)) r));;
      modify (on_this (fun r =>
        set_transitiveShouldMock
          (<[moduleID := false]> (_transitiveShouldMock r)) r));;
      run ctx k
  | JestMock moduleName k =>
      explicitly true from moduleName;;
      run ctx k
  | JestMockFactory moduleName mockFactory virtual k =>
      setMock from moduleName
        {| cl_ctx := ctx; cl_body := mockFactory |} virtual;;
      run ctx k
  | JestSetMock moduleName mock k =>
      setMock from moduleName
        {| cl_ctx := ctx; cl_body := Ret mock |} None;;
      run ctx k
  | JestGenMockFromModule moduleName k =>
      v ← o_generateMock self from moduleName;
      run ctx (k v)
  | JestResetModuleRegistry k =>
      resetModuleRegistry;;
      run ctx k
  end.

Definition _execModule (localModule : nat)
    (options : option InternalModuleOptions) : M unit :=
  environment ← gets (fun s => _environment (this s));
  match global environment with
  | None => mret tt
  | Some _ =>
      let isInternalModule := is_internal options in
      m ← read_module localModule;
      let filename := filename m in
      lastExecutingModulePath ← gets (fun s =>
        _currentlyExecutingModulePath (this s));
      modify (on_this (set_currentlyExecutingModulePath filename));;
      origCurrExecutingManualMock ← gets (fun s =>
        _isCurrentlyExecutingManualMock (this s));
      modify (on_this
        (set_isCurrentlyExecutingManualMock (Some filename)));;
      let dirname := path_dirname host filename in
      paths ← resolver_getModulePaths dirname;
      write_module localModule (fun m =>
        {| exports := exports m; filename := Runtime.filename m;
           children := Some [];
           parent := Some mockParentModule;
           paths := Some paths;
           require := Some {| rq_from := filename;
                              rq_options := options |} |});;
      config ← gets (fun s => _config (this s));
      script ← lift_completion
                 (transform deps filename config isInternalModule);
      wrapper ← _runScript script filename;
      m ← read_module localModule;
      run {| c_from := filename; c_module := localModule;
             c_options := options |}
          (wrapper (exports m) dirname filename);;
      modify (on_this
        (set_isCurrentlyExecutingManualMock origCurrExecutingManualMock));;
      modify (on_this
        (set_currentlyExecutingModulePath lastExecutingModulePath))
  end.

Definition requireModule (from : Path) (moduleName : option string)
    (options : option InternalModuleOptions) : M value :=
  moduleID ← _normalizeID from moduleName;
  let named := truthy_opt moduleName in
  let name := default "" moduleName in
  moduleResource ← resolver_getModule name;
  manualMock ← resolver_getMockModule from name;
  executingManualMock ← gets (fun s =>
    _isCurrentlyExecutingManualMock (this s));
  explicitShouldMock ← gets (fun s => _explicitShouldMock (this s));
  let modulePath : option Path :=
    if negb (is_internal options)
       && negb (named && truthy_opt moduleResource)
       && (named && truthy_opt manualMock)
       && negb (bool_decide (manualMock = executingManualMock))
       && negb (bool_decide (explicitShouldMock !! moduleID = Some false))
    then manualMock
    else None in
  isCore ← resolver_isCoreModule name;
  if named && isCore
  then lift_completion (node_require deps name)
  else
    modulePath ←
      (if truthy_opt modulePath then mret (default "" modulePath)
       else _resolveModule from moduleName);
    registered ← moduleRegistry_lookup modulePath;
    match registered with
    | Some _ => mret tt
    | None =>
        e ← alloc_object ∅;
        localModule ← alloc_module
          {| filename := modulePath; exports := VObj e;
             children := None; parent := None; paths := None;
             require := None |};
        moduleRegistry_store modulePath localModule;;
        if String.eqb (path_extname host modulePath) ".json"
        then
          environment ← gets (fun s => _environment (this s));
          match global environment with
          | None =>
              typeError "Cannot read property 'JSON' of undefined"
          | Some _ =>
              text ← lift_completion
                       (fs_readFileSync deps modulePath);
              objs ← gets (fun s => objects (heap s));
              '(v, objs) ← lift_completion
                             (JSON_parse deps text objs);
              modify (on_heap (set_objects objs));;
              write_module localModule (set_exports v)
          end
        else if String.eqb (path_extname host modulePath) ".node"
        then
          v ← lift_completion (node_require deps modulePath);
          write_module localModule (set_exports v)
        else _execModule localModule options
    end;;
    registered ← moduleRegistry_lookup modulePath;
    match registered with
    | Some l => exports <$> read_module l
    | None => typeError "Cannot read property 'exports' of undefined"
    end.

Definition requireInternalModule (from : Path) (to : option string)
    : M value :=
  requireModule from to (Some {| isInternalModule := true |}).

Definition _generateMock (from : Path) (moduleName : string)
    : M value :=
  modulePath ← _resolveModule from (Some moduleName);
  cache ← gets (fun s => _mockMetaDataCache (this s));
  let remember (meta : option Metadata) : M unit :=
    modify (on_this (fun r =>
      set_mockMetaDataCache
        (<[modulePath := meta]> (_mockMetaDataCache r)) r)) in
  (if bool_decide (is_Some (cache !! modulePath)) then mret tt
   else
     empty ← alloc_object ∅;
     objs ← gets (fun s => objects (heap s));
     remember (getMetadata deps objs (VObj empty));;
     origMockRegistry ← gets (fun s => _mockRegistry (this s));
     origModuleRegistry ← gets (fun s => _moduleRegistry (this s));
     mockRegistry ← alloc_mockRegistry;
     modify (on_this (set_mockRegistry mockRegistry));;
     moduleRegistry ← alloc_moduleRegistry;
     modify (on_this (set_moduleRegistry moduleRegistry));;
     moduleExports ← requireModule from (Some moduleName) None;
     modify (on_this (set_mockRegistry origMockRegistry));;
     modify (on_this (set_moduleRegistry origModuleRegistry));;
     objs ← gets (fun s => objects (heap s));
     match getMetadata deps objs moduleExports with
     | None =>
         throw (JsError "Error"
           ("Failed to get mock metadata: " +:+ modulePath
            +:+ String "010"%char (String "010"%char "")
            +:+ "See: http://facebook.github.io/jest/docs/"
            +:+ "manual-mocks.html#content") None)
     | Some mockMetadata => remember (Some mockMetadata)
     end);;
  cache ← gets (fun s => _mockMetaDataCache (this s));
  objs ← gets (fun s => objects (heap s));
  let '(mock, objs) :=
    generateFromMetadata deps (mjoin (cache !! modulePath)) objs in
  modify (on_heap (set_objects objs));;
  mret mock.

Definition requireMock (from : Path) (moduleName : string) : M value :=
  moduleID ← _normalizeID from (Some moduleName);
  registered ← mockRegistry_lookup moduleID;
  if truthy (default VUndefined registered)
  then mret (default VUndefined registered)
  else
    mockFactories ← gets (fun s => _mockFactories (this s));
    match mockFactories !! moduleID with
    | Some factory =>
        (* the registry object is looked up before the factory runs *)
        registry ← gets (fun s => _mockRegistry (this s));
        v ← run (cl_ctx factory) (cl_body factory);
        mockRegistry_set registry moduleID v;;
        mret v
    | None =>
        manualMock ← resolver_getMockModule from moduleName;
        '(manualMock, modulePath) ←
          (if truthy_opt manualMock
           then
             modulePath ← _resolveModule from manualMock;
             mret (true, modulePath)
           else
             modulePath ← _resolveModule from (Some moduleName);
             let moduleDir := path_dirname host modulePath in
             let moduleFileName := path_basename host modulePath in
             let potentialManualMock :=
               path_join host [moduleDir; "__mocks__"; moduleFileName] in
             if fs_existsSync host potentialManualMock
             then mret (true, potentialManualMock)
             else mret (false, modulePath));
        (if (manualMock : bool)
         then
           e ← alloc_object ∅;
           localModule ← alloc_module
             {| exports := VObj e; filename := modulePath;
                children := None; parent := None; paths := None;
                require := None |};
           _execModule localModule None;;
           m ← read_module localModule;
           mockRegistry_store moduleID (exports m)
         else
           (* the registry object is looked up before the call *)
           registry ← gets (fun s => _mockRegistry (this s));
           v ← _generateMock from moduleName;
           mockRegistry_set registry moduleID v);;
        registered ← mockRegistry_lookup moduleID;
        mret (default VUndefined registered)
    end.

Definition requireModuleOrMock (from : Path) (moduleName : string)
    : M value :=
  shouldMock ← _shouldMock from moduleName;
  if (shouldMock : bool)
  then requireMock from moduleName
  else requireModule from (Some moduleName) None.

End WithOps.

(** The runtime with [fuel] levels of nested module execution left. *)
Fixpoint ops (fuel : nat) : Ops :=
  match fuel with
  | 0 =>
      {| o_requireModuleOrMock := fun _ _ => out_of_fuel;
         o_requireModule := fun _ _ _ => out_of_fuel;
         o_requireMock := fun _ _ => out_of_fuel;
         o_generateMock := fun _ _ => out_of_fuel |}
  | S fuel =>
      {| o_requireModuleOrMock := requireModuleOrMock (ops fuel);
         o_requireModule := requireModule (ops fuel);
         o_requireMock := requireMock (ops fuel);
         o_generateMock := _generateMock (ops fuel) |}
  end.


(** *** The constructor *)

(** [list.forEach(f)] *)
Fixpoint forEach {A} (f : A -> M unit) (l : list A) : M unit :=
  match l with
  | [] => mret tt
  | x :: l => f x;; forEach f l
  end.

(** [for (let i = start; i < start + count; i++) body(i)] *)
Fixpoint for_loop (count i : nat) (body : nat -> M unit) : M unit :=
  match count with
  | 0 => mret tt
  | S count => body i;; for_loop count (S i) body
  end.

Definition unmockPath (filePath : Path) : M unit :=
  if truthy_str filePath && includes NODE_MODULES filePath
  then
    moduleID ← _normalizeID filePath None;
    modify (on_this (fun r =>
      set_transitiveShouldMock
        (<[moduleID := false]> (_transitiveShouldMock r)) r))
  else mret tt.

(** The fields as the constructor assigns them, given the three regular
    expressions it has built or found in the cache; the two registries are
    fresh [Object.create(null)], and a newly built unmock list is put into
    the process-wide cache. *)
Definition constructed_with (config : Config) (environment : Environment)
    (resolver : Resolver.t) (h : Store) (p : Process)
    (mocksPattern : option RegExp) (testRegex : RegExp)
    (unmockList : option RegExp) : state :=
  {| this :=
       {| _moduleRegistry := length (moduleRegistries h);
          _mockRegistry := length (mockRegistries h);
          _config := config;
          _environment := environment;
          _resolver := resolver;
          _currentlyExecutingModulePath := "";
          _explicitShouldMock := ∅;
          _isCurrentlyExecutingManualMock := None;
          _mockFactories := ∅;
          _mocksPattern := mocksPattern;
          _shouldAutoMock := automock config;
          _testRegex := testRegex;
          _virtualMocks := ∅;
          _mockMetaDataCache := ∅;
          _shouldMockModuleCache := ∅;
          _shouldUnmockTransitiveDependenciesCache := ∅;
          _transitiveShouldMock := ∅;
          _unmockList := unmockList |};
     heap :=
       set_mockRegistries (mockRegistries h ++ [∅])
         (set_moduleRegistries (moduleRegistries h ++ [∅]) h);
     process :=
       {| normalizedIDCache := normalizedIDCache p;
          unmockRegExpCache :=
            match unmockRegExpCache p !! config_identity config,
                  unmockList with
            | None, Some re =>
                <[config_identity config := re]> (unmockRegExpCache p)
            | _, _ => unmockRegExpCache p
            end |} |}.

(** The constructor up to its first method call. Each [new RegExp] can
    throw a [SyntaxError], which ends the construction: first
    [config.mocksPattern] when it is truthy, then [config.testRegex] with
    every [/] replaced by [path.sep], then, when the process-wide cache has
    no unmock list for the config, the joined
    [config.unmockedModulePathPatterns] when there are any. *)
Definition constructed (config : Config) (environment : Environment)
    (resolver : Resolver.t) (h : Store) (p : Process) : completion state :=
  completion_bind
    (match mocksPattern config with
     | Some pattern =>
         if truthy_str pattern
         then completion_bind (regexp_new host pattern)
                (fun re => Normal (Some re))
         else Normal None
     | None => Normal None
     end) (fun mocksPattern =>
  completion_bind
    (regexp_new host
       (String.concat (path_sep host) (split_slash (testRegex config))))
    (fun testRegex =>
  completion_bind
    (match unmockRegExpCache p !! config_identity config with
     | Some re => Normal (Some re)
     | None =>
         match unmockedModulePathPatterns config with
         | Some patterns =>
             completion_bind (regexp_new host (String.concat "|" patterns))
               (fun re => Normal (Some re))
         | None => Normal None
         end
     end) (fun unmockList =>
  Normal (constructed_with config environment resolver h p
            mocksPattern testRegex unmockList)))).

(** The loop body [this.requireModule(config.setupFiles[i])]; the loop
    keeps [i] below the length, the other case is never run. *)
Definition requireSetupFile (fuel : nat) (setupFiles : list Path)
    (i : nat) : M unit :=
  match setupFiles !! i with
  | Some file => requireModule (ops fuel) file None None;; mret tt
  | None => typeError "setupFiles index out of range"
  end.

(** A [SyntaxError] of the regular expressions ends the constructor before
    there is a runtime; otherwise the rest runs on the fields as assigned. *)
Definition constructor (fuel : nat) (config : Config)
    (environment : Environment) (resolver : Resolver.t)
    (h : Store) (p : Process) : completion (outcome unit) :=
  completion_bind (constructed config environment resolver h p) (fun s =>
    Normal
      ((forEach unmockPath (setupFiles config);;
        resetModuleRegistry;;
        if bool_decide (length (setupFiles config) ≠ 0)
        then for_loop (length (setupFiles config)) 0
               (requireSetupFile fuel (setupFiles config))
        else mret tt) s)).

End WithHost.

End Runtime.

(** * A small host for examples

    A POSIX-like [path], a file system given by tables, and dependencies
    whose transformer looks the wrapper up by file name. *)

Module Demo.
Import Runtime.

Definition posix_dirname (p : Path) : Path :=
  let dir := String.concat "/" (removelast (split_slash p)) in
  if truthy_str dir then dir
  else if String.prefix "/" p then "/" else ".".

Definition posix_basename (p : Path) : string :=
  default "" (last (split_slash p)).

(** The suffix from the last dot on, when there is one. *)
Fixpoint last_dot (s : string) : option string :=
  match s with
  | EmptyString => None
  | String c rest =>
      match last_dot rest with
      | Some e => Some e
      | None => if Ascii.eqb c "."%char then Some s else None
      end
  end.

Definition posix_extname (p : Path) : string :=
  match posix_basename p with
  | EmptyString => ""
  | String _ rest => default "" (last_dot rest)
  end.

(** Drops [.] segments and resolves [..] against the segment before. *)
Fixpoint normalize_segments (done todo : list string) : list string :=
  match todo with
  | [] => rev done
  | seg :: todo =>
      if String.eqb seg "." then normalize_segments done todo
      else if String.eqb seg ".."
      then normalize_segments (tail done) todo
      else normalize_segments (seg :: done) todo
  end.

Definition posix_normalize (p : Path) : Path :=
  String.concat "/" (normalize_segments [] (split_slash p)).

Definition posix_join (parts : list string) : Path :=
  posix_normalize (String.concat "/" parts).

(** [to] below [from] gives the rest of [to]; the same path gives [""]. *)
Fixpoint strip_prefix (pre s : string) : option string :=
  match pre, s with
  | EmptyString, _ => Some s
  | String a pre, String b s =>
      if Ascii.eqb a b then strip_prefix pre s else None
  | String _ _, EmptyString => None
  end.

Definition posix_relative (from to : Path) : Path :=
  if String.eqb from to then ""
  else default to (strip_prefix (from +:+ "/") to).

Definition lookup_assoc {A} (key : string) (table : list (string * A))
    : option A :=
  snd <$> List.find (fun kv => String.eqb (fst kv) key) table.

(** [resolutions] lists what node resolution finds, keyed by the base
    directory and the requested name. *)
Definition host (resolutions : list (string * Path)) : NodeHost :=
  {| path_sep := "/";
     path_delimiter := ":";
     path_dirname := posix_dirname;
     path_basename := posix_basename;
     path_extname := posix_extname;
     path_join := posix_join;
     path_relative := posix_relative;
     path_normalize := posix_normalize;
     resolve_isCore := fun name => bool_decide (name ∈ ["fs"; "path"; "vm"]);
     resolve_sync := fun name opts =>
       lookup_assoc (ro_basedir opts +:+ ":" +:+ name) resolutions;
     browserResolve_sync := fun name opts =>
       lookup_assoc (ro_basedir opts +:+ ":" +:+ name) resolutions;
     require_resolve := fun _ => None;
     nodeModulesPaths := fun from dirs =>
       (fun d => Some (from +:+ "/" +:+ d)) <$> dirs;
     nodePaths := None;
     H_GENERIC_PLATFORM := "g";
     regexp_new := fun source =>
       if String.eqb source "("
       then Abrupt (JsError "SyntaxError"
                      "Invalid regular expression: /(/: Unterminated group"
                      None)
       else Normal source;
     regexp_test := fun re str => includes re str;
     string_replace := fun str _ replacement => replacement;
     fs_existsSync := fun _ => false |}.

Fixpoint index_of (key : string) (table : list (string * completion Wrapper))
    (i : nat) : option nat :=
  match table with
  | [] => None
  | (k, _) :: table =>
      if String.eqb k key then Some i else index_of key table (S i)
  end.

Definition enoent {A} (file : Path) : completion A :=
  Abrupt (JsError "Error" ("ENOENT: no such file, open '" +:+ file +:+ "'")
            (Some "ENOENT")).

(** [files] maps a file to what evaluating its transformed source gives. *)
Definition deps (files : list (string * completion Wrapper)) : Deps :=
  {| transform := fun file _ _ =>
       match index_of file files 0 with
       | Some i => Normal {| script_id := i |}
       | None => enoent file
       end;
     runScript := fun script =>
       match files !! script_id script with
       | Some (_, w) => w
       | None => Abrupt (JsError "Error" "no such script" None)
       end;
     fs_readFileSync := fun file => enoent file;
     JSON_parse := fun text objs => Normal (VStr text, objs);
     node_require := fun name => Normal (VHost name);
     getMetadata := fun objs v =>
       match v with
       | VObj l =>
           Some {| meta_type := "object";
                   meta_members :=
                     (fun kv => (fst kv, "constant"))
                       <$> map_to_list (default ∅ (objs !! l)) |}
       | _ => Some {| meta_type := "constant"; meta_members := [] |}
       end;
     generateFromMetadata := fun meta objs =>
       match meta with
       | Some m =>
           (VObj (length objs),
            (objs ++ [list_to_map
                        ((fun kv => (fst kv, VUndefined)) <$> meta_members m)])%list)
       | None => (VUndefined, objs)
       end |}.

Definition resolverConfig : Resolver.ResolverConfig :=
  {| Resolver.browser := None;
     Resolver.defaultPlatform := None;
     Resolver.extensions := [".js"; ".json"];
     Resolver.hasCoreModules := Some true;
     Resolver.moduleDirectories := Some ["node_modules"];
     Resolver.moduleNameMapper := None;
     Resolver.modulePaths := Some [];
     Resolver.platforms := None |}.

Definition noHaste : Resolver.HasteMap :=
  {| Resolver.map := ∅; Resolver.mocks := ∅ |}.

Definition config (automock : bool) (setupFiles : list Path) : Config :=
  {| config_identity := 0;
     automock := automock;
     mocksPattern := None;
     rootDir := "/proj";
     scriptPreprocessor := None;
     setupFiles := setupFiles;
     testRegex := "__tests__/.*\.js$";
     unmockedModulePathPatterns := None;
     usesBabelJest := false |}.

Definition environment : Environment :=
  {| global := Some {| properties := []; mockClearTimers := None |} |}.

Definition emptyStore : Store :=
  {| objects := []; modules := []; moduleRegistries := [];
     mockRegistries := [] |}.

Definition emptyProcess : Process :=
  {| normalizedIDCache := ∅; unmockRegExpCache := ∅ |}.

(** A runtime right after construction, with no setup files: the config
    has no mocks pattern and no unmock list, and its test pattern is a
    regular expression. *)
Definition fresh (h : NodeHost) (haste : Resolver.HasteMap) (automock : bool)
    : state :=
  constructed_with (config automock []) environment
    (Resolver.constructor haste resolverConfig) emptyStore emptyProcess
    None
    (String.concat (path_sep h) (split_slash (testRegex (config automock []))))
    None.

(** The property [key] of the object at address [l]. *)
Definition prop_of (s : state) (l : nat) (key : string) : option value :=
  objects (heap s) !! l ≫= fun o => o !! key.

(** Two modules that require each other; each assigns [exports.v] before
    and after, and records what it saw of the other. *)
Definition circular_a : Wrapper := fun exports _ _ =>
  SetProp exports "v" (VNum 1) (
  Require "./b" (fun b =>
  GetProp b "v" (fun bv =>
  SetProp exports "sawB" bv (
  SetProp exports "v" (VNum 2) (
  Ret VUndefined))))).

Definition circular_b : Wrapper := fun exports _ _ =>
  SetProp exports "v" (VNum 10) (
  Require "./a" (fun a =>
  GetProp a "v" (fun av =>
  SetProp exports "sawA" av (
  SetProp exports "v" (VNum 20) (
  Ret VUndefined))))).

Definition circular_host : NodeHost :=
  host [("/proj:./a", "/proj/a.js"); ("/proj:./b", "/proj/b.js")].

Definition circular_deps : Deps :=
  deps [("/proj/a.js", Normal circular_a);
           ("/proj/b.js", Normal circular_b)].

(** Scenario "haste wins": the haste map knows [foo] as a module, and a
    package [foo] is installed under [node_modules] as well. *)
Definition fooHaste : Resolver.HasteMap :=
  {| Resolver.map :=
       {[ "foo" := {[ "g" := {| Resolver.H_PATH := "/h/foo.js";
                                Resolver.H_TYPE := Resolver.MODULE |} ]} ]};
     Resolver.mocks := ∅ |}.

Definition fooHost : NodeHost :=
  host [("/proj:foo", "/proj/node_modules/foo/index.js")].

(** A module whose body throws. *)
Definition thrower : Wrapper := fun _ _ _ =>
  Throw (JsError "Error" "boom" None).

Definition thrower_deps : Deps :=
  deps [("/proj/throws.js", Normal thrower)].

(** A fresh runtime that holds one module record, for [/proj/throws.js],
    at address [0]. *)
Definition thrower_state : state :=
  on_heap (set_modules
    [{| exports := VObj 0; filename := "/proj/throws.js";
        children := None; parent := None; paths := None;
        require := None |}])
    (on_heap (set_objects [∅]) (fresh (host []) noHaste false)).

(** The circular pair again, with [a]'s record at address [0]. *)
Definition a_state : state :=
  on_heap (set_modules
    [{| exports := VObj 0; filename := "/proj/a.js";
        children := None; parent := None; paths := None;
        require := None |}])
    (on_heap (set_objects [∅]) (fresh circular_host noHaste false)).



(** The state a run ends in. *)
Definition after {A} (m : M A) (s : state) : state :=
  match m s with
  | Ok _ s' | Err _ s' => s'
  | OutOfFuel => s
  end.

(** Scenario "installed package": [foo] is found by node resolution only;
    [foo_resolved] is the resolver after it resolved [foo] once. *)
Definition plain_resolver : Resolver.t :=
  Resolver.constructor noHaste resolverConfig.

Definition foo_resolved : Resolver.t :=
  (Resolver.resolveModule fooHost plain_resolver "/proj/a.js" "foo" None).2.

(** Scenario "stubs": style sheets and images are mapped to stub modules by
    [moduleNameMapper]; the style stub is installed, the image stub is
    not. *)
Definition stub_resolver : Resolver.t :=
  Resolver.constructor noHaste
    {| Resolver.browser := None;
       Resolver.defaultPlatform := None;
       Resolver.extensions := [".js"];
       Resolver.hasCoreModules := None;
       Resolver.moduleDirectories := None;
       Resolver.moduleNameMapper :=
         Some [("fileMock", ".png"); ("styleMock", ".css");
               ("anyMock", "a")];
       Resolver.modulePaths := None;
       Resolver.platforms := None |}.

Definition stub_host : NodeHost :=
  host [("/proj:styleMock", "/proj/styleMock.js")].

(** What a run returned, when it returned. *)
Definition result {A} (m : M A) (s : state) : option A :=
  match m s with
  | Ok a _ => Some a
  | _ => None
  end.

(** What a run threw, when it threw. *)
Definition thrown {A} (m : M A) (s : state) : option exn :=
  match m s with
  | Err e _ => Some e
  | _ => None
  end.

(** The run threw. *)
Definition threw {A} (o : outcome A) : bool :=
  match o with
  | Err _ _ => true
  | _ => false
  end.

(** Scenario "core module": [/proj/a.js] asked for the id of [fs]; and
    another runtime of the same process. *)
Definition plain_state : state := fresh (host []) noHaste true.

Definition fs_asked : state :=
  after (_normalizeID (host []) "/proj/a.js" (Some "fs")) plain_state.

Definition other_runtime : state :=
  {| this := this (fresh circular_host fooHaste false);
     heap := emptyStore;
     process := process fs_asked |}.

(** Scenario "two files": [/proj/a.js] and [/proj/b.js] next to each
    other, automock on or off. *)
Definition pair_state (automock : bool) : state :=
  fresh circular_host noHaste automock.

Definition b_resolved : Resolver.t :=
  (Resolver.resolveModule circular_host (_resolver (this (pair_state true)))
     "/proj/a.js" "./b" None).2.

(** [/proj/a.js] asks for [./b] for the first time: the id of [./b] is
    computed, the name is resolved, the id of [/proj/a.js] is computed. *)
Definition b_id_given : state :=
  after (_normalizeID circular_host "/proj/a.js" (Some "./b"))
    (pair_state true).

Definition b_found : state :=
  after (_resolveModule circular_host "/proj/a.js" (Some "./b")) b_id_given.

Definition a_id_given : state :=
  after (_normalizeID circular_host "/proj/a.js" None) b_found.

Definition b_flagged (flag : bool) : state :=
  after (explicitly circular_host flag "/proj/a.js" "./b")
    (pair_state false).

(** Scenario "virtual mock": [/proj/a.js] mocks a module that exists
    nowhere. *)
Definition answer : Closure :=
  {| cl_ctx := {| c_from := "/proj/a.js"; c_module := 0;
                  c_options := None |};
     cl_body := Ret (VNum 42) |}.

Definition virtual_mocked : state :=
  after (setMock (host []) "/proj/a.js" "nowhere" answer (Some true))
    plain_state.

(** Scenario "react": [react] is installed under [node_modules] and has a
    file [lib.js] of its own; the config may list it among the unmocked
    paths. *)
Definition react_host : NodeHost :=
  host [("/proj:react", "/proj/node_modules/react/index.js");
        ("/proj/node_modules/react:./lib",
         "/proj/node_modules/react/lib.js")].

Definition react_config : Config :=
  {| config_identity := 1;
     automock := true;
     mocksPattern := None;
     rootDir := "/proj";
     scriptPreprocessor := None;
     setupFiles := [];
     testRegex := "__tests__/.*\.js$";
     unmockedModulePathPatterns := Some ["node_modules/react"];
     usesBabelJest := false |}.

(** The same config later, with a pattern that is no regular expression. *)
Definition react_later : Config :=
  {| config_identity := 1;
     automock := true;
     mocksPattern := None;
     rootDir := "/proj";
     scriptPreprocessor := None;
     setupFiles := [];
     testRegex := "__tests__/.*\.js$";
     unmockedModulePathPatterns := Some ["("];
     usesBabelJest := false |}.

(** The runtime of that config right after its fields are set. *)
Definition react_fresh : state :=
  constructed_with react_config environment plain_resolver emptyStore
    emptyProcess None
    (String.concat "/" (split_slash (testRegex react_config)))
    (Some "node_modules/react").

Definition react_id_given : state :=
  after (_normalizeID react_host "/proj/a.js" (Some "react")) react_fresh.

Definition react_found : state :=
  after (_resolveModule react_host "/proj/a.js" (Some "react"))
    react_id_given.

Definition react_index : Path := "/proj/node_modules/react/index.js".

(** [react]'s main file is transitively unmocked, as a setup file under
    [node_modules] is, and asks for [./lib] for the first time. *)
Definition react_unmocked : state :=
  after (unmockPath react_host react_index) (fresh react_host noHaste true).

Definition lib_id_given : state :=
  after (_normalizeID react_host react_index (Some "./lib")) react_unmocked.

Definition lib_found : state :=
  after (_resolveModule react_host react_index (Some "./lib")) lib_id_given.

Definition index_id_given : state :=
  after (_normalizeID react_host react_index None) lib_found.

(** Scenario "two projects": one runtime has [react] in its haste map and
    gave it an id; a second runtime of the same process has neither the
    haste module nor the package. *)
Definition react_haste : Resolver.HasteMap :=
  {| Resolver.map :=
       {[ "react" := {[ "g" := {| Resolver.H_PATH := "/h/react.js";
                                  Resolver.H_TYPE := Resolver.MODULE |} ]} ]};
     Resolver.mocks := ∅ |}.

Definition react_named : state :=
  after (_normalizeID (host []) "/proj/a.js" (Some "react"))
    (fresh (host []) react_haste true).

Definition second_project : state :=
  {| this := this (fresh (host []) noHaste true);
     heap := heap (fresh (host []) noHaste true);
     process := process react_named |}.

(** Scenario "setup file": the config names one setup file, which sets a
    property of its exports; and a config whose mocks pattern is no regular
    expression. *)
Definition setup : Wrapper := fun exports _ _ =>
  SetProp exports "ready" (VBool true) (Ret VUndefined).

Definition setup_deps : Deps := deps [("/proj/setup.js", Normal setup)].

Definition setup_config : Config := config false ["/proj/setup.js"].

(** The fields of a runtime for [config], with no mocks pattern and no
    unmock list. *)
Definition fresh_for (config : Config) : state :=
  constructed_with config environment plain_resolver emptyStore emptyProcess
    None (String.concat "/" (split_slash (testRegex config))) None.

Definition broken_config : Config :=
  {| config_identity := 2;
     automock := false;
     mocksPattern := Some "(";
     rootDir := "/proj";
     scriptPreprocessor := None;
     setupFiles := ["/proj/setup.js"];
     testRegex := "__tests__/.*\.js$";
     unmockedModulePathPatterns := None;
     usesBabelJest := false |}.

(** Scenario "widget": the haste map has a manual mock for [widget]; the
    package is installed for [widget_host] and missing for [host []]. *)
Definition widget_haste : Resolver.HasteMap :=
  {| Resolver.map := ∅;
     Resolver.mocks := {[ "widget" := "/proj/__mocks__/widget.js" ]} |}.

Definition widget_host : NodeHost :=
  host [("/proj:widget", "/proj/node_modules/widget/index.js")].

Definition widget_id : string := "user::/proj/__mocks__/widget.js".

Definition widget_asked (h : NodeHost) (automock : bool) : state :=
  after (_normalizeID h "/proj/a.js" (Some "widget"))
    (fresh h widget_haste automock).

Definition widget_unmocked : state :=
  after (explicitly widget_host false "/proj/a.js" "widget")
    (fresh widget_host widget_haste false).

(** Scenario "torn down": the environment has been disposed of. *)
Definition torn_down : state :=
  on_this (set_environment {| global := None |}) plain_state.

(** Scenario "data": a JSON file that can be read. *)
Definition json_deps : Deps :=
  {| transform := transform (deps []);
     runScript := runScript (deps []);
     fs_readFileSync := fun file =>
       if String.eqb file "/proj/data.json" then Normal "{}"
       else enoent file;
     JSON_parse := JSON_parse (deps []);
     node_require := node_require (deps []);
     getMetadata := getMetadata (deps []);
     generateFromMetadata := generateFromMetadata (deps []) |}.

(** Scenario "metadata": the metadata of [/proj/a.js] is in the cache. *)
Definition a_metadata : option Metadata :=
  Some {| meta_type := "object"; meta_members := [("v", "constant")] |}.

Definition metadata_cached : state :=
  on_this (set_mockMetaDataCache {[ "/proj/a.js" := a_metadata ]})
    (pair_state false).

(** Scenario "set mock": [/proj/a.js] called [jest.setMock('./b', 7)]. *)
Definition seven : Closure :=
  {| cl_ctx := {| c_from := "/proj/a.js"; c_module := 0;
                  c_options := None |};
     cl_body := Ret (VNum 7) |}.

Definition b_set : state :=
  after (setMock circular_host "/proj/a.js" "./b" seven None)
    (pair_state true).

End Demo.

(** * The vocabulary of the properties *)

(** ** The resolver *)

Section ResolverVocabulary.
Context (host : NodeHost).
Import Resolver.

(** Two resolvers over the same haste map and options. *)
Definition same_static (r r' : t) : Prop :=
  _options r' = _options r ∧ _moduleMap r' = _moduleMap r ∧
  _supportsNativePlatform r' = _supportsNativePlatform r.

(** Two hosts that name things alike: the same [path.dirname], path
    delimiter and generic platform; they may differ in everything else, node
    resolution and [require.resolve] included. *)
Definition same_naming (host' : NodeHost) : Prop :=
  path_dirname host' = path_dirname host ∧
  path_delimiter host' = path_delimiter host ∧
  H_GENERIC_PLATFORM host' = H_GENERIC_PLATFORM host.

End ResolverVocabulary.

(** ** Invariants of the runtime

    [Inv] is a property of the state; [GoodMod] and [GoodMock] say which
    addresses may become the current module and mock registry. *)

Section InvariantVocabulary.
Import Runtime.
Context (host : NodeHost).
Context (Inv : state → Prop) (GoodMod GoodMock : nat → Prop).

(** The primitive steps of the runtime keep [Inv]. *)
Record keeps : Prop := {
  keeps_this : ∀ f s,
    (∀ r, _moduleRegistry (f r) = _moduleRegistry r) →
    (∀ r, _mockRegistry (f r) = _mockRegistry r) →
    (∀ r, _resolver (f r) = _resolver r) →
    Inv s → Inv (on_this f s);
  keeps_process : ∀ f s, Inv s → Inv (on_process f s);
  keeps_heap : ∀ f s,
    (∀ h, moduleRegistries (f h) = moduleRegistries h) →
    (∀ h, mockRegistries (f h) = mockRegistries h) →
    Inv s → Inv (on_heap f s);
  keeps_resolveModule : ∀ from to s,
    Inv s →
    Inv (on_this (set_resolver
         (Resolver.resolveModule host (_resolver (this s)) from to None).2) s);
  keeps_getModulePaths : ∀ from s,
    Inv s →
    Inv (on_this (set_resolver
         (Resolver.getModulePaths host (_resolver (this s)) from).2) s);
  keeps_alloc_mod : ∀ s,
    Inv s →
    Inv (on_heap (set_moduleRegistries (moduleRegistries (heap s) ++ [∅])) s)
    ∧ GoodMod (length (moduleRegistries (heap s)));
  keeps_alloc_mock : ∀ s,
    Inv s →
    Inv (on_heap (set_mockRegistries (mockRegistries (heap s) ++ [∅])) s)
    ∧ GoodMock (length (mockRegistries (heap s)));
  keeps_cur_mod : ∀ s, Inv s → GoodMod (_moduleRegistry (this s));
  keeps_cur_mock : ∀ s, Inv s → GoodMock (_mockRegistry (this s));
  keeps_set_mod : ∀ a s,
    GoodMod a → Inv s → Inv (on_this (set_moduleRegistry a) s);
  keeps_set_mock : ∀ a s,
    GoodMock a → Inv s → Inv (on_this (set_mockRegistry a) s);
  keeps_store_mod : ∀ key l s,
    Inv s →
    Inv (on_heap (fun h =>
         set_moduleRegistries
           (alter (insert key l) (_moduleRegistry (this s))
              (moduleRegistries h)) h) s);
  keeps_store_mock : ∀ a key v s,
    GoodMock a → Inv s →
    Inv (on_heap (fun h =>
         set_mockRegistries (alter (insert key v) a (mockRegistries h)) h) s);
}.

(** [m] keeps [Inv], and its result satisfies [Q]. *)
Definition hoare {A} (m : M A) (Q : A → Prop) : Prop :=
  ∀ s, Inv s →
    match m s with
    | Ok a s' => Inv s' ∧ Q a
    | Err _ s' => Inv s'
    | OutOfFuel => True
    end.

Definition any {A} : A → Prop := fun _ => True.

(** The four operations a body can reach keep the invariant. *)
Record ops_ok (self : Ops) : Prop := {
  ok_requireModuleOrMock : ∀ from moduleName,
    hoare (o_requireModuleOrMock self from moduleName) any;
  ok_requireModule : ∀ from moduleName options,
    hoare (o_requireModule self from moduleName options) any;
  ok_requireMock : ∀ from moduleName,
    hoare (o_requireMock self from moduleName) any;
  ok_generateMock : ∀ from moduleName,
    hoare (o_generateMock self from moduleName) any;
}.

End InvariantVocabulary.

Arguments keeps_this {host Inv GoodMod GoodMock} k.
Arguments keeps_process {host Inv GoodMod GoodMock} k.
Arguments keeps_heap {host Inv GoodMod GoodMock} k.
Arguments keeps_resolveModule {host Inv GoodMod GoodMock} k.
Arguments keeps_getModulePaths {host Inv GoodMod GoodMock} k.
Arguments keeps_alloc_mod {host Inv GoodMod GoodMock} k.
Arguments keeps_alloc_mock {host Inv GoodMod GoodMock} k.
Arguments keeps_cur_mod {host Inv GoodMod GoodMock} k.
Arguments keeps_cur_mock {host Inv GoodMod GoodMock} k.
Arguments keeps_set_mod {host Inv GoodMod GoodMock} k.
Arguments keeps_set_mock {host Inv GoodMod GoodMock} k.
Arguments keeps_store_mod {host Inv GoodMod GoodMock} k.
Arguments keeps_store_mock {host Inv GoodMod GoodMock} k.

(** ** Registries *)

Section RegistryVocabulary.
Import Runtime.

(** The module registry at address [l] holds [c] and is not the current
    one. *)
Definition protects_mod (l : nat) (c : gmap string nat) (s : state) : Prop :=
  moduleRegistries (heap s) !! l = Some c ∧ l ≠ _moduleRegistry (this s).

Definition protects_mock (l : nat) (c : gmap string value) (s : state)
    : Prop :=
  mockRegistries (heap s) !! l = Some c ∧ l ≠ _mockRegistry (this s).

(** The registry side of a state: the two current addresses and the two
    stores of registries. *)
Definition registries_of (s : state) :=
  (_moduleRegistry (this s), _mockRegistry (this s),
   moduleRegistries (heap s), mockRegistries (heap s)).


End RegistryVocabulary.

(** ** Requiring a module *)

(** The two halves of [requireModule]. The first half (up to
    [modulePath = this._resolveModule(from, moduleName)]) comes to the
    exports of a core module or to the path of the file to load; the second
    half looks the path up in the registry, registers and loads the file
    when it is not there, and returns the exports the registry holds. *)
Section Halves.
Import Runtime.
Context (host : NodeHost) (deps : Deps).

Inductive Selected :=
| CoreModule (coreExports : value)
| ModulePath (modulePath : Path).

Definition requireModule_path (from : Path) (moduleName : option string)
    (options : option InternalModuleOptions) : M Selected :=
  moduleID ← _normalizeID host from moduleName;
  let named := truthy_opt moduleName in
  let name := default "" moduleName in
  moduleResource ← resolver_getModule host name;
  manualMock ← resolver_getMockModule host from name;
  executingManualMock ← gets (fun s =>
    _isCurrentlyExecutingManualMock (this s));
  explicitShouldMock ← gets (fun s => _explicitShouldMock (this s));
  let modulePath : option Path :=
    if negb (is_internal options)
       && negb (named && truthy_opt moduleResource)
       && (named && truthy_opt manualMock)
       && negb (bool_decide (manualMock = executingManualMock))
       && negb (bool_decide (explicitShouldMock !! moduleID = Some false))
    then manualMock
    else None in
  isCore ← resolver_isCoreModule host name;
  if named && isCore
  then CoreModule <$> lift_completion (node_require deps name)
  else
    ModulePath <$>
      (if truthy_opt modulePath then mret (default "" modulePath)
       else _resolveModule host from moduleName).

Definition requireModule_load (self : Ops) (modulePath : Path)
    (options : option InternalModuleOptions) : M value :=
  registered ← moduleRegistry_lookup modulePath;
  match registered with
  | Some _ => mret tt
  | None =>
      e ← alloc_object ∅;
      localModule ← alloc_module
        {| filename := modulePath; exports := VObj e;
           children := None; parent := None; paths := None;
           require := None |};
      moduleRegistry_store modulePath localModule;;
      if String.eqb (path_extname host modulePath) ".json"
      then
        environment ← gets (fun s => _environment (this s));
        match global environment with
        | None =>
            typeError "Cannot read property 'JSON' of undefined"
        | Some _ =>
            text ← lift_completion
                     (fs_readFileSync deps modulePath);
            objs ← gets (fun s => objects (heap s));
            '(v, objs) ← lift_completion
                           (JSON_parse deps text objs);
            modify (on_heap (set_objects objs));;
            write_module localModule (set_exports v)
        end
      else if String.eqb (path_extname host modulePath) ".node"
      then
        v ← lift_completion (node_require deps modulePath);
        write_module localModule (set_exports v)
      else _execModule host deps self localModule options
  end;;
  registered ← moduleRegistry_lookup modulePath;
  match registered with
  | Some l => exports <$> read_module l
  | None => typeError "Cannot read property 'exports' of undefined"
  end.

(** Two states that differ at most in the process-wide caches. *)
Definition same_runtime (s s1 : state) : Prop :=
  this s1 = this s ∧ heap s1 = heap s.

(** What [requireModule] does after the body of a freshly registered module
    returned: [_execModule] puts the two pointers back, as they were in
    [s], and the exports are read from the record the registry holds
    then. *)
Definition after_body (modulePath : Path) (s : state) : M value :=
  modify (on_this (set_isCurrentlyExecutingManualMock
                     (_isCurrentlyExecutingManualMock (this s))));;
  modify (on_this (set_currentlyExecutingModulePath
                     (_currentlyExecutingModulePath (this s))));;
  registered ← moduleRegistry_lookup modulePath;
  match registered with
  | Some l => exports <$> read_module l
  | None => typeError "Cannot read property 'exports' of undefined"
  end.

End Halves.

(** ** The constructor *)

Section ConstructorVocabulary.
Import Runtime.
Context (host : NodeHost) (deps : Deps).

(** [requireModule] on each file, first to last. *)
Fixpoint requireEach (self : Ops) (files : list Path) : M unit :=
  match files with
  | [] => mret tt
  | file :: files =>
      requireModule host deps self file None None;;
      requireEach self files
  end.

(** The key of a path in the cache of ids, for a call with no name. *)
Definition idKey (file : Path) : string :=
  file +:+ path_delimiter host +:+ "".

(** [file] has an id in the cache, flagged as transitively unmocked. *)
Definition marked (s : state) (file : Path) : Prop :=
  ∃ id, normalizedIDCache (process s) !! idKey file = Some id ∧ id ≠ "" ∧
        _transitiveShouldMock (this s) !! id = Some false.

(** Ids once given and flags once set to false stay. *)
Definition grows (s s' : state) : Prop :=
  (∀ k v, v ≠ "" → normalizedIDCache (process s) !! k = Some v →
          normalizedIDCache (process s') !! k = Some v) ∧
  (∀ id, _transitiveShouldMock (this s) !! id = Some false →
         _transitiveShouldMock (this s') !! id = Some false).

End ConstructorVocabulary.

(** ** Ids and registries *)

Section IdVocabulary.
Import Runtime.
Context (host : NodeHost).

(** The key of [(from, moduleName)] in the cache of ids. *)
Definition normalizedKey (from : Path) (moduleName : option string)
    : string :=
  from +:+ path_delimiter host +:+
  (if truthy_opt moduleName then default "" moduleName else "").

(** [s1] is [s] with another resolver over the same haste map and options,
    and possibly more ids in the cache of ids. *)
Definition resolved_more (s s1 : state) : Prop :=
  heap s1 = heap s ∧
  (∃ r', this s1 = set_resolver r' (this s)
         ∧ same_static (_resolver (this s)) r') ∧
  unmockRegExpCache (process s1) = unmockRegExpCache (process s).

(** Automock has to decide on [name], required by [from], whose id is
    [id]: there is no virtual mock and no explicit flag for it, it is no
    core module, automock is on, and no verdict is remembered. *)
Definition undecided (s : state) (from : Path) (name id : string) : Prop :=
  name ≠ "" ∧
  _virtualMocks (this s) !! _getVirtualMockPath host from name = None ∧
  _explicitShouldMock (this s) !! id = None ∧
  _shouldAutoMock (this s) = true ∧
  Resolver.isCoreModule host (_resolver (this s)) name = false ∧
  _shouldUnmockTransitiveDependenciesCache (this s)
    !! (from +:+ path_delimiter host +:+ id) ≠ Some true ∧
  _shouldMockModuleCache (this s) !! id = None.

(** [this._unmockList && this._unmockList.test(p)] *)
Definition matches_unmockList (s : state) (p : string) : bool :=
  match _unmockList (this s) with
  | Some re => regexp_test host re p
  | None => false
  end.

(** The module registry at address [a] has an entry for [p]. *)
Definition registers (a : nat) (p : string) (s : state) : Prop :=
  ∃ c, moduleRegistries (heap s) !! a = Some c ∧ is_Some (c !! p).

(** The mock registry at address [a] has an entry for [id]. *)
Definition registers_mock (a : nat) (id : string) (s : state) : Prop :=
  ∃ c, mockRegistries (heap s) !! a = Some c ∧ is_Some (c !! id).

(** The cache of ids has [v] at the key [k]. *)
Definition has_id (k v : string) (s : state) : Prop :=
  normalizedIDCache (process s) !! k = Some v.

(** The runtime's resolver is over the haste map and options of [r]. *)
Definition resolver_over (r : Resolver.t) (s : state) : Prop :=
  same_static r (_resolver (this s)).

(** What holds of the state the run [o] ended in, by returning or by
    throwing. *)
Definition ends_in {A} (o : outcome A) (P : state → Prop) : Prop :=
  match o with
  | Ok _ s' | Err _ s' => P s'
  | OutOfFuel => True
  end.

End IdVocabulary.

(** * Properties of the resolver *)

Section ResolverFacts.
Context (host : NodeHost).
Import Resolver.

Lemma truthy_str_true (s : string) : truthy_str s = true ↔ s ≠ "".
Proof.
  unfold truthy_str. destruct (String.eqb_spec s ""); simpl; split;
    congruence.
Qed.

Lemma truthy_opt_Some (s : string) : s ≠ "" → truthy_opt (Some s) = true.
Proof. intros. simpl. by apply truthy_str_true. Qed.

(** The steps of [resolveModule], as one case analysis: the cache, the
    haste map, node resolution, a haste package, or the error. *)
Lemma resolveModule_cases r from moduleName options :
  let key := cacheKey host (path_dirname host from) moduleName in
  let '(c, r') := resolveModule host r from moduleName options in
  (r' = r ∧ ∃ q, _moduleNameCache r !! key = Some q ∧ q ≠ "" ∧ c = Normal q)
  ∨ (truthy_opt (_moduleNameCache r !! key) = false ∧
     ∃ p, c = Normal p ∧
          r' = set_moduleNameCache r (<[key := p]> (_moduleNameCache r)) ∧
          (truthy_opt (getModule host r moduleName None) = true →
           getModule host r moduleName None = Some p))
  ∨ (r' = r ∧ c = Abrupt (notFoundError host from moduleName) ∧
     truthy_opt (_moduleNameCache r !! key) = false ∧
     truthy_opt (getModule host r moduleName None) = false).
Proof.
  intros key. unfold resolveModule. fold key.
  destruct (truthy_opt (_moduleNameCache r !! key)) eqn:Hc.
  { left. split; [done|]. destruct (_moduleNameCache r !! key) as [q|];
      [|done]. exists q. simpl in *. by rewrite truthy_str_true in Hc. }
  destruct (truthy_opt (getModule host r moduleName None)) eqn:Hh.
  { right; left. split; [done|].
    destruct (getModule host r moduleName None) as [p|]; [|done].
    exists p. done. }
  match goal with
  | |- context [if truthy_opt ?m then _ else _] =>
      destruct (truthy_opt m) eqn:Hn
  end.
  { right; left. split; [done|]. eexists. split; [done|]. split; [done|].
    done. }
  match goal with
  | |- context [if truthy_opt ?m then _ else _] =>
      destruct (truthy_opt m) eqn:Hp
  end.
  - match goal with
    | |- context [require_resolve host ?a] =>
        destruct (require_resolve host a) as [p|] eqn:Hr
    end.
    + right; left. split; [done|]. exists p. done.
    + right; right. done.
  - right; right. done.
Qed.

Lemma getModule_static r r' name type :
  same_static r r' → getModule host r' name type = getModule host r name type.
Proof. intros (Ho & Hm & Hn). unfold getModule. by rewrite Ho, Hm, Hn. Qed.

Lemma isCoreModule_static r r' name :
  same_static r r' → isCoreModule host r' name = isCoreModule host r name.
Proof. intros (Ho & _). unfold isCoreModule. by rewrite Ho. Qed.

Lemma getMockModule_static r r' from name :
  same_static r r' →
  getMockModule host r' from name = getMockModule host r from name.
Proof.
  intros Hs. pose proof Hs as (Ho & Hm & Hn).
  unfold getMockModule, _resolveStubModuleName. rewrite Ho, Hm.
  assert (∀ mapper dirname moduleName,
            _resolveStubModuleName_loop host r' dirname mapper moduleName
            = _resolveStubModuleName_loop host r dirname mapper moduleName)
    as Hloop.
  { induction mapper as [|[mapped regex] mapper IH]; intros; simpl; [done|].
    rewrite IH, (getModule_static r r') by done.
    unfold nodeModuleConfig. by rewrite Ho. }
  destruct (moduleNameMapper (_options r)) as [mapper|]; [|done].
  rewrite Hloop.
  by rewrite (getModule_static r r').
Qed.

(** [resolveModule] writes to the name cache only. *)
Lemma resolveModule_static r from moduleName options :
  same_static r (resolveModule host r from moduleName options).2.
Proof.
  unfold same_static.
  pose proof (resolveModule_cases r from moduleName options) as H.
  simpl in H. destruct (resolveModule host r from moduleName options)
    as [c r']. simpl.
  by destruct H as [[-> _]|[[_ (p & _ & -> & _)]|[-> _]]].
Qed.

(** A path once resolved is resolved to again, from the cache. *)
Lemma resolveModule_again r from moduleName options p r' :
  resolveModule host r from moduleName options = (Normal p, r') →
  p ≠ "" →
  resolveModule host r' from moduleName options = (Normal p, r').
Proof.
  intros H Hp.
  pose proof (resolveModule_cases r from moduleName options) as Hc.
  simpl in Hc. rewrite H in Hc.
  destruct Hc as [[-> _]|[[_ (q & [= <-] & -> & _)]|[_ [? _]]]];
    [done| |done].
  unfold resolveModule. simpl. rewrite lookup_insert_eq. simpl.
  by rewrite (proj2 (truthy_str_true p)).
Qed.

End ResolverFacts.


Lemma cacheKey_same_naming host host' from name :
  same_naming host host' →
  Resolver.cacheKey host' (path_dirname host' from) name
  = Resolver.cacheKey host (path_dirname host from) name.
Proof.
  intros (Hd & Hdel & _). unfold Resolver.cacheKey. by rewrite Hd, Hdel.
Qed.





(** C8. When every step fails (no cached path, no haste module, node
    resolution skipped or empty-handed, no haste package or one that
    [require.resolve] rejects), [resolveModule] throws an [Error] with code
    [MODULE_NOT_FOUND] whose message names the module and the caller's path
    relative to its own directory, ['.'] when that is empty; the resolver is
    left as it was. *)
Theorem resolveModule_not_found host r from moduleName options :
  let dirname := path_dirname host from in
  let relativePath := path_relative host dirname from in
  truthy_opt (Resolver._moduleNameCache r
                !! Resolver.cacheKey host dirname moduleName) = false →
  truthy_opt (Resolver.getModule host r moduleName None) = false →
  (match options with
   | Some o => Resolver.opt_true (Resolver.skipNodeResolution o)
   | None => false
   end = true
   ∨ truthy_opt (Resolver.findNodeModule host moduleName
                   (Resolver.nodeModuleConfig r dirname)) = false) →
  (truthy_opt (Resolver.getPackage host r
                 (default "" (head (split_slash moduleName)))) = false
   ∨ require_resolve host
       (path_join host
          (path_dirname host
             (default "" (Resolver.getPackage host r
                            (default "" (head (split_slash moduleName)))))
           :: tail (split_slash moduleName))) = None) →
  Resolver.resolveModule host r from moduleName options
  = (Abrupt (JsError "Error"
               ("Cannot find module '" +:+ moduleName +:+ "' from '" +:+
                (if decide (relativePath = "") then "." else relativePath)
                +:+ "'")
               (Some "MODULE_NOT_FOUND")),
     r).
Proof.
  intros dirname relativePath Hc Hh Hn Hp.
  assert (Resolver.notFoundError host from moduleName
          = JsError "Error"
              ("Cannot find module '" +:+ moduleName +:+ "' from '" +:+
               (if decide (relativePath = "") then "." else relativePath)
               +:+ "'")
              (Some "MODULE_NOT_FOUND")) as <-.
  { unfold Resolver.notFoundError. fold dirname relativePath.
    destruct (decide (relativePath = "")) as [->|Hne]; [done|].
    by rewrite (proj2 (truthy_str_true relativePath)). }
  unfold Resolver.resolveModule. fold dirname. rewrite Hc, Hh.
  match goal with
  | |- context [if truthy_opt ?m then _ else _] =>
      assert (truthy_opt m = false) as ->
  end.
  { destruct Hn as [Hn|Hn].
    - destruct options as [o|]; [|done]. by rewrite Hn.
    - destruct options as [o|]; [|done].
      by destruct (Resolver.opt_true (Resolver.skipNodeResolution o)). }
  destruct Hp as [Hp|Hp].
  - by rewrite Hp.
  - match goal with
    | |- context [if truthy_opt ?m then _ else _] =>
        destruct (truthy_opt m)
    end; [|done].
    by rewrite Hp.
Qed.

Lemma resolveModule_not_found_witness :
  Resolver.resolveModule Demo.fooHost
    (Resolver.constructor Demo.fooHaste Demo.resolverConfig)
    "/proj/src/x.js" "nope" None
  = (Abrupt (JsError "Error" "Cannot find module 'nope' from 'x.js'"
               (Some "MODULE_NOT_FOUND")),
     Resolver.constructor Demo.fooHaste Demo.resolverConfig).
Proof.
  apply (resolveModule_not_found Demo.fooHost
           (Resolver.constructor Demo.fooHaste Demo.resolverConfig)
           "/proj/src/x.js" "nope" None).
  - vm_compute. reflexivity.
  - vm_compute. reflexivity.
  - right. vm_compute. reflexivity.
  - left. vm_compute. reflexivity.
Defined.


(** * Properties of the runtime *)

(** ** Stepping through the monad *)

Section MonadFacts.
Import Runtime.

Lemma bind_Ok {A B} (m : M A) (f : A → M B) s a s1 :
  m s = Ok a s1 → (m ≫= f) s = f a s1.
Proof. intros H. unfold mbind, M_bind. by rewrite H. Qed.

Lemma bind_Err {A B} (m : M A) (f : A → M B) s e s1 :
  m s = Err e s1 → (m ≫= f) s = Err e s1.
Proof. intros H. unfold mbind, M_bind. by rewrite H. Qed.

Lemma bind_inv_Ok {A B} (m : M A) (f : A → M B) s b s' :
  (m ≫= f) s = Ok b s' → ∃ a s1, m s = Ok a s1 ∧ f a s1 = Ok b s'.
Proof.
  unfold mbind, M_bind. destruct (m s) as [a s1| |]; [eauto|done..].
Qed.

Lemma bind_inv_Err {A B} (m : M A) (f : A → M B) s e s' :
  (m ≫= f) s = Err e s' →
  m s = Err e s' ∨ ∃ a s1, m s = Ok a s1 ∧ f a s1 = Err e s'.
Proof.
  unfold mbind, M_bind. destruct (m s) as [a s1|e1 s1|]; [eauto| |done].
  intros [= -> ->]. by left.
Qed.

Lemma bind_assoc {A B C} (m : M A) (f : A → M B) (g : B → M C) s :
  ((m ≫= f) ≫= g) s = (m ≫= fun a => f a ≫= g) s.
Proof. unfold mbind, M_bind. by destruct (m s). Qed.

End MonadFacts.

(** Runs the primitive at the head of the goal's computation. *)
Ltac run_head :=
  rewrite ?bind_assoc; erewrite bind_Ok by reflexivity; cbv beta.

(** ** Invariants every runtime operation keeps

    An invariant [Inv] of the state that the primitive steps keep is kept by
    every operation, whatever the module bodies do; it holds after a normal
    return and after a throw. [GoodMod] and [GoodMock] say which addresses
    may become the current module and mock registry. *)

Section Invariant.
Import Runtime.
Context (host : NodeHost) (deps : Deps).
Context (Inv : state → Prop) (GoodMod GoodMock : nat → Prop).
Local Abbreviation keeps := (keeps host Inv GoodMod GoodMock).
Local Abbreviation hoare := (hoare Inv).
Local Abbreviation ops_ok := (ops_ok Inv).

Lemma hoare_ret {A} (a : A) (Q : A → Prop) : Q a → hoare (mret a) Q.
Proof. intros HQ s Hs. by split. Qed.

Lemma hoare_throw {A} (e : exn) (Q : A → Prop) : hoare (throw e) Q.
Proof. by intros s Hs. Qed.

Lemma hoare_out_of_fuel {A} (Q : A → Prop) : hoare out_of_fuel Q.
Proof. by intros s Hs. Qed.

Lemma hoare_gets {A} (g : state → A) : hoare (gets g) any.
Proof. by intros s Hs. Qed.

Lemma hoare_bind {A B} (m : M A) (f : A → M B) Q R :
  hoare m Q → (∀ a, Q a → hoare (f a) R) → hoare (m ≫= f) R.
Proof.
  intros Hm Hf s Hs. specialize (Hm s Hs). unfold mbind, M_bind.
  destruct (m s) as [a s1|e s1|]; [|done..].
  destruct Hm as [Hs1 Ha]. by apply Hf.
Qed.

Lemma hoare_fmap {A B} (g : A → B) (m : M A) :
  hoare m any → hoare (g <$> m) any.
Proof.
  intros Hm s Hs. specialize (Hm s Hs). unfold fmap, M_fmap.
  by destruct (m s).
Qed.

Lemma hoare_try_catch {A} (m : M A) (h : exn → M A) Q :
  hoare m Q → (∀ e, hoare (h e) Q) → hoare (try_catch m h) Q.
Proof.
  intros Hm Hh s Hs. specialize (Hm s Hs). unfold try_catch.
  destruct (m s) as [a s1|e s1|]; [done| |done]. by apply Hh.
Qed.

Lemma hoare_lift_completion {A} (c : completion A) :
  hoare (lift_completion c) any.
Proof. destruct c; [by apply hoare_ret|apply hoare_throw]. Qed.

Context (K : keeps).

Lemma hoare_modify_this f :
  (∀ r, _moduleRegistry (f r) = _moduleRegistry r) →
  (∀ r, _mockRegistry (f r) = _mockRegistry r) →
  (∀ r, _resolver (f r) = _resolver r) →
  hoare (modify (on_this f)) any.
Proof. intros ??? s Hs. split; [by apply (keeps_this K)|done]. Qed.

Lemma hoare_modify_process f : hoare (modify (on_process f)) any.
Proof. intros s Hs. split; [by apply (keeps_process K)|done]. Qed.

Lemma hoare_modify_heap f :
  (∀ h, moduleRegistries (f h) = moduleRegistries h) →
  (∀ h, mockRegistries (f h) = mockRegistries h) →
  hoare (modify (on_heap f)) any.
Proof. intros ?? s Hs. split; [by apply (keeps_heap K)|done]. Qed.

Lemma hoare_cur_mod : hoare (gets (fun s => _moduleRegistry (this s))) GoodMod.
Proof. intros s Hs. split; [done|by apply (keeps_cur_mod K)]. Qed.

Lemma hoare_cur_mock : hoare (gets (fun s => _mockRegistry (this s))) GoodMock.
Proof. intros s Hs. split; [done|by apply (keeps_cur_mock K)]. Qed.

Lemma hoare_alloc_mod : hoare alloc_moduleRegistry GoodMod.
Proof. intros s Hs. by apply (keeps_alloc_mod K). Qed.

Lemma hoare_alloc_mock : hoare alloc_mockRegistry GoodMock.
Proof. intros s Hs. by apply (keeps_alloc_mock K). Qed.

Lemma hoare_set_mod a :
  GoodMod a → hoare (modify (on_this (set_moduleRegistry a))) any.
Proof. intros Ha s Hs. split; [by apply (keeps_set_mod K)|done]. Qed.

Lemma hoare_set_mock a :
  GoodMock a → hoare (modify (on_this (set_mockRegistry a))) any.
Proof. intros Ha s Hs. split; [by apply (keeps_set_mock K)|done]. Qed.

Lemma hoare_alloc_object o : hoare (alloc_object o) any.
Proof. intros s Hs. split; [by apply (keeps_heap K)|done]. Qed.

Lemma hoare_alloc_module m : hoare (alloc_module m) any.
Proof. intros s Hs. split; [by apply (keeps_heap K)|done]. Qed.

Lemma hoare_read_module l : hoare (read_module l) any.
Proof. intros s Hs. unfold read_module. by destruct (_ !! _). Qed.

Lemma hoare_write_module l f : hoare (write_module l f) any.
Proof. by apply hoare_modify_heap. Qed.

Lemma hoare_moduleRegistry_store key l : hoare (moduleRegistry_store key l) any.
Proof. intros s Hs. split; [by apply (keeps_store_mod K)|done]. Qed.

Lemma hoare_mockRegistry_set a key v :
  GoodMock a → hoare (mockRegistry_set a key v) any.
Proof. intros Ha s Hs. split; [by apply (keeps_store_mock K)|done]. Qed.

Lemma hoare_mockRegistry_store key v : hoare (mockRegistry_store key v) any.
Proof.
  intros s Hs. split; [|done].
  apply (keeps_store_mock K); [by apply (keeps_cur_mock K)|done].
Qed.

Lemma hoare_getProp o key : hoare (getProp o key) any.
Proof. intros s Hs. unfold getProp. by destruct o. Qed.

Lemma hoare_setProp o key v : hoare (setProp o key v) any.
Proof.
  destruct o; simpl; try (by apply hoare_ret); try apply hoare_throw.
  by apply hoare_modify_heap.
Qed.

Lemma hoare_resolver_resolveModule from to :
  hoare (resolver_resolveModule host from to) any.
Proof.
  intros s Hs. unfold resolver_resolveModule.
  pose proof (keeps_resolveModule K from to s Hs) as H.
  destruct (Resolver.resolveModule host (_resolver (this s)) from to None)
    as [[p|e] r]; simpl in *; done.
Qed.

Lemma hoare_resolver_getModulePaths from :
  hoare (resolver_getModulePaths host from) any.
Proof.
  intros s Hs. unfold resolver_getModulePaths.
  pose proof (keeps_getModulePaths K from s Hs) as H.
  destruct (Resolver.getModulePaths host (_resolver (this s)) from)
    as [ps r]; simpl in *; done.
Qed.


Create HintDb hoare.

Ltac hstep :=
  cbv beta zeta;
  lazymatch goal with
  | |- hoare (mret _) _ => apply hoare_ret; exact I
  | |- hoare (throw _) _ => apply hoare_throw
  | |- hoare (typeError _) _ => apply hoare_throw
  | |- hoare out_of_fuel _ => apply hoare_out_of_fuel
  | |- hoare (mbind _ (gets (fun s => _moduleRegistry (this s)))) _ =>
      eapply hoare_bind; [apply hoare_cur_mod | intros ? ?]
  | |- hoare (mbind _ (gets (fun s => _mockRegistry (this s)))) _ =>
      eapply hoare_bind; [apply hoare_cur_mock | intros ? ?]
  | |- hoare (mbind _ alloc_moduleRegistry) _ =>
      eapply hoare_bind; [apply hoare_alloc_mod | intros ? ?]
  | |- hoare (mbind _ alloc_mockRegistry) _ =>
      eapply hoare_bind; [apply hoare_alloc_mock | intros ? ?]
  | |- hoare (mbind _ _) _ =>
      eapply (hoare_bind _ _ any); [ | intros ? _]
  | |- hoare (fmap _ _) _ => apply hoare_fmap
  | |- hoare (try_catch _ _) _ => apply hoare_try_catch; [ | intros ?]
  | |- hoare (gets _) _ => apply hoare_gets
  | |- hoare (moduleRegistry_lookup _) _ => apply hoare_gets
  | |- hoare (mockRegistry_lookup _) _ => apply hoare_gets
  | |- hoare (resolver_getModule _ _) _ => apply hoare_gets
  | |- hoare (resolver_getMockModule _ _ _) _ => apply hoare_gets
  | |- hoare (resolver_isCoreModule _ _) _ => apply hoare_gets
  | |- hoare (lift_completion _) _ => apply hoare_lift_completion
  | |- hoare (modify (on_process _)) _ => apply hoare_modify_process
  | |- hoare (modify (on_this (set_moduleRegistry _))) _ =>
      apply hoare_set_mod; assumption
  | |- hoare (modify (on_this (set_mockRegistry _))) _ =>
      apply hoare_set_mock; assumption
  | |- hoare (modify (on_this _)) _ =>
      apply hoare_modify_this; intros; reflexivity
  | |- hoare (modify (on_heap _)) _ =>
      apply hoare_modify_heap; intros; reflexivity
  | |- hoare (alloc_object _) _ => apply hoare_alloc_object
  | |- hoare (alloc_module _) _ => apply hoare_alloc_module
  | |- hoare (read_module _) _ => apply hoare_read_module
  | |- hoare (write_module _ _) _ => apply hoare_write_module
  | |- hoare (moduleRegistry_store _ _) _ => apply hoare_moduleRegistry_store
  | |- hoare (mockRegistry_store _ _) _ => apply hoare_mockRegistry_store
  | |- hoare (mockRegistry_set _ _ _) _ =>
      apply hoare_mockRegistry_set; assumption
  | |- hoare (getProp _ _) _ => apply hoare_getProp
  | |- hoare (setProp _ _ _) _ => apply hoare_setProp
  | |- hoare (resolver_resolveModule _ _ _) _ =>
      apply hoare_resolver_resolveModule
  | |- hoare (resolver_getModulePaths _ _) _ =>
      apply hoare_resolver_getModulePaths
  | |- hoare (if ?b then _ else _) _ => destruct b
  | |- hoare (match ?x with _ => _ end) _ => destruct x
  | |- hoare _ _ => solve [eauto with hoare]
  end.

Ltac hsteps := repeat hstep.

Lemma resolveModule_ok from to : hoare (_resolveModule host from to) any.
Proof. unfold _resolveModule. hsteps. Qed.
#[local] Hint Resolve resolveModule_ok : hoare.

Lemma normalizeID_ok from moduleName :
  hoare (_normalizeID host from moduleName) any.
Proof. unfold _normalizeID. hsteps. Qed.
#[local] Hint Resolve normalizeID_ok : hoare.

Lemma shouldMock_ok from moduleName :
  hoare (_shouldMock host from moduleName) any.
Proof. unfold _shouldMock. hsteps. Qed.
#[local] Hint Resolve shouldMock_ok : hoare.

Lemma resetModuleRegistry_ok : hoare resetModuleRegistry any.
Proof. unfold resetModuleRegistry. hsteps. Qed.
#[local] Hint Resolve resetModuleRegistry_ok : hoare.

Lemma setMock_ok from moduleName mockFactory options :
  hoare (setMock host from moduleName mockFactory options) any.
Proof. unfold setMock. hsteps. Qed.
#[local] Hint Resolve setMock_ok : hoare.

Lemma explicitly_ok b from moduleName :
  hoare (explicitly host b from moduleName) any.
Proof. unfold explicitly. hsteps. Qed.
#[local] Hint Resolve explicitly_ok : hoare.

Lemma runScript_ok script filename :
  hoare (_runScript host deps script filename) any.
Proof. unfold _runScript. hsteps. Qed.
#[local] Hint Resolve runScript_ok : hoare.

Section WithOps.
Context (self : Ops) (Hself : ops_ok self).

Lemma self_requireModuleOrMock from moduleName :
  hoare (o_requireModuleOrMock self from moduleName) any.
Proof. apply Hself. Qed.

Lemma self_requireModule from moduleName options :
  hoare (o_requireModule self from moduleName options) any.
Proof. apply Hself. Qed.

Lemma self_requireMock from moduleName :
  hoare (o_requireMock self from moduleName) any.
Proof. apply Hself. Qed.

Lemma self_generateMock from moduleName :
  hoare (o_generateMock self from moduleName) any.
Proof. apply Hself. Qed.

#[local] Hint Resolve self_requireModuleOrMock self_requireModule self_requireMock
  self_generateMock : hoare.

Lemma run_ok p : ∀ ctx, hoare (run host self ctx p) any.
Proof.
  induction p; intros ctx; simpl; hsteps.
Qed.
#[local] Hint Resolve run_ok : hoare.

Lemma execModule_ok localModule options :
  hoare (_execModule host deps self localModule options) any.
Proof. unfold _execModule. hsteps. Qed.
#[local] Hint Resolve execModule_ok : hoare.

Lemma requireModule_ok from moduleName options :
  hoare (requireModule host deps self from moduleName options) any.
Proof. unfold requireModule. hsteps. Qed.
#[local] Hint Resolve requireModule_ok : hoare.

Lemma generateMock_ok from moduleName :
  hoare (_generateMock host deps self from moduleName) any.
Proof. unfold _generateMock. hsteps. Qed.
#[local] Hint Resolve generateMock_ok : hoare.

Lemma requireMock_ok from moduleName :
  hoare (requireMock host deps self from moduleName) any.
Proof. unfold requireMock. hsteps. Qed.
#[local] Hint Resolve requireMock_ok : hoare.

Lemma requireModuleOrMock_ok from moduleName :
  hoare (requireModuleOrMock host deps self from moduleName) any.
Proof. unfold requireModuleOrMock. hsteps. Qed.

End WithOps.

Lemma ops_keep fuel : ops_ok (ops host deps fuel).
Proof.
  induction fuel as [|fuel IH].
  - split; intros; simpl; apply hoare_out_of_fuel.
  - split; intros; simpl.
    + by apply requireModuleOrMock_ok.
    + by apply requireModule_ok.
    + by apply requireMock_ok.
    + by apply generateMock_ok.
Qed.

End Invariant.

(** ** Registries that are not current are out of reach *)

Section Protected.
Import Runtime.
Context (host : NodeHost) (deps : Deps).

Lemma protects_mod_keeps l c :
  keeps host (protects_mod l c) (fun a => a ≠ l) any.
Proof.
  split; unfold protects_mod; simpl.
  - intros f s Hm _ _ [H1 H2]. by rewrite Hm.
  - done.
  - intros f s Hm _ [H1 H2]. by rewrite Hm.
  - done.
  - done.
  - intros s [H1 H2]. apply lookup_lt_Some in H1 as Hlt.
    split; [split|]; [|done|lia]. by rewrite lookup_app_l.
  - done.
  - intros s [H1 H2]. congruence.
  - done.
  - intros a s Ha [H1 H2]. split; [done|congruence].
  - done.
  - intros key x s [H1 H2]. split; [|done].
    by rewrite list_lookup_alter_ne.
  - done.
Qed.

Lemma protects_mock_keeps l c :
  keeps host (protects_mock l c) any (fun a => a ≠ l).
Proof.
  split; unfold protects_mock; simpl.
  - intros f s _ Hm _ [H1 H2]. by rewrite Hm.
  - done.
  - intros f s _ Hm [H1 H2]. by rewrite Hm.
  - done.
  - done.
  - done.
  - intros s [H1 H2]. apply lookup_lt_Some in H1 as Hlt.
    split; [split|]; [|done|lia]. by rewrite lookup_app_l.
  - done.
  - intros s [H1 H2]. congruence.
  - done.
  - intros a s Ha [H1 H2]. split; [done|congruence].
  - done.
  - intros a key x s Ha [H1 H2]. split; [|done].
    by rewrite list_lookup_alter_ne.
Qed.

End Protected.

(** ** Inverting a run that returned *)

Ltac prim_ok H :=
  cbv [Runtime.gets Runtime.modify Runtime.alloc_object Runtime.alloc_module
       Runtime.alloc_moduleRegistry Runtime.alloc_mockRegistry
       Runtime.moduleRegistry_lookup Runtime.mockRegistry_lookup
       Runtime.moduleRegistry_store Runtime.mockRegistry_store
       Runtime.mockRegistry_set Runtime.write_module
       Runtime.resolver_getModule Runtime.resolver_getMockModule
       Runtime.resolver_isCoreModule mret Runtime.M_ret] in H;
  injection H as <- <-.

(** Splits [(m ≫= f) s = Ok b s'] into the run of [m] and the run of the
    rest; a primitive [m] is evaluated on the spot. *)
Ltac step_ok H :=
  let a := fresh "a" in
  let s1 := fresh "s" in
  let H1 := fresh "Hstep" in
  apply bind_inv_Ok in H as (a & s1 & H1 & H);
  cbv beta zeta in H;
  try prim_ok H1.

Section GenerateMock.
Import Runtime.
Context (host : NodeHost) (deps : Deps).

Lemma resolveModule_registries from to s p s1 :
  _resolveModule host from to s = Ok p s1 →
  registries_of s1 = registries_of s.
Proof.
  unfold _resolveModule, resolver_resolveModule.
  destruct (truthy_opt to); [|by intros [= _ <-]].
  destruct (Resolver.resolveModule host (_resolver (this s)) from
              (default "" to) None) as [[q|e] r]; simpl; [|done].
  by intros [= _ <-].
Qed.

Lemma protects_fresh {A} (regs : list A) (l : nat) (c x : A) :
  regs !! l = Some c →
  (regs ++ [x])%list !! l = Some c ∧ l ≠ length regs.
Proof.
  intros Hl. apply lookup_lt_Some in Hl as Hlt.
  split; [|lia]. by rewrite lookup_app_l.
Qed.

(** C5. When [_generateMock] returns, the runtime points at the module
    registry and the mock registry it pointed at before the call, and every
    registry that existed before the call holds what it held: the module
    required for introspection, and whatever it required in turn, went into
    registries of their own. *)
Theorem generateMock_restores_registries fuel from moduleName s v s' :
  _generateMock host deps (ops host deps fuel) from moduleName s
  = Ok v s' →
  _moduleRegistry (this s') = _moduleRegistry (this s) ∧
  _mockRegistry (this s') = _mockRegistry (this s) ∧
  (∀ l c, moduleRegistries (heap s) !! l = Some c →
          moduleRegistries (heap s') !! l = Some c) ∧
  (∀ l c, mockRegistries (heap s) !! l = Some c →
          mockRegistries (heap s') !! l = Some c).
Proof.
  intros H. unfold _generateMock in H.
  step_ok H. apply resolveModule_registries in Hstep as Hreg.
  step_ok H. step_ok H.
  assert (_moduleRegistry (this s1) = _moduleRegistry (this s0) ∧
          _mockRegistry (this s1) = _mockRegistry (this s0) ∧
          (∀ l c, moduleRegistries (heap s0) !! l = Some c →
                  moduleRegistries (heap s1) !! l = Some c) ∧
          (∀ l c, mockRegistries (heap s0) !! l = Some c →
                  mockRegistries (heap s1) !! l = Some c)) as Hblock.
  { clear H. destruct (bool_decide _).
    { prim_ok Hstep0. done. }
    rename Hstep0 into H.
    do 9 step_ok H. step_ok H. rename Hstep0 into Hreq.
    do 3 step_ok H.
    match type of H with
    | context [match ?x with _ => _ end] => destruct x
    end; [|by cbv [throw] in H].
    prim_ok H. simpl.
    split; [done|]. split; [done|]. split.
    - intros l c Hl.
      pose proof (requireModule_ok host deps _ _ _
                    (protects_mod_keeps host l c) _
                    (ops_keep host deps _ _ _
                       (protects_mod_keeps host l c) fuel)
                    from (Some moduleName) None) as Hk.
      match type of Hreq with
      | _ ?st = _ => specialize (Hk st)
      end.
      rewrite Hreq in Hk.
      by destruct (Hk (protects_fresh _ l c _ Hl)) as [[Hk' _] _].
    - intros l c Hl.
      pose proof (requireModule_ok host deps _ _ _
                    (protects_mock_keeps host l c) _
                    (ops_keep host deps _ _ _
                       (protects_mock_keeps host l c) fuel)
                    from (Some moduleName) None) as Hk.
      match type of Hreq with
      | _ ?st = _ => specialize (Hk st)
      end.
      rewrite Hreq in Hk.
      by destruct (Hk (protects_fresh _ l c _ Hl)) as [[Hk' _] _]. }
  do 2 step_ok H.
  destruct (generateFromMetadata deps _ _) as [mock objs].
  step_ok H. prim_ok H. simpl.
  injection Hreg as Hr1 Hr2 Hr3 Hr4.
  destruct Hblock as (-> & -> & Hb3 & Hb4).
  rewrite Hr3, Hr4 in *. done.
Qed.

End GenerateMock.

(** ** Requiring a module *)

Section RequireModule.
Import Runtime.
Context (host : NodeHost) (deps : Deps).

Lemma bind_ext {A B} (m : M A) (f g : A → M B) s :
  (∀ a s', f a s' = g a s') → (m ≫= f) s = (m ≫= g) s.
Proof. intros H. unfold mbind, M_bind. by destruct (m s). Qed.

Lemma fmap_bind {A B C} (g : A → B) (m : M A) (k : B → M C) s :
  ((g <$> m) ≫= k) s = (m ≫= fun a => k (g a)) s.
Proof. unfold mbind, M_bind, fmap, M_fmap. by destruct (m s). Qed.

Lemma bind_ret {A} (m : M A) s : (m ≫= mret) s = m s.
Proof. unfold mbind, M_bind. by destruct (m s). Qed.

(** [requireModule] is its first half followed by its second half. *)
Lemma requireModule_halves self from moduleName options s :
  requireModule host deps self from moduleName options s
  = (requireModule_path host deps from moduleName options
     ≫= fun selected =>
          match selected with
          | CoreModule v => mret v
          | ModulePath modulePath =>
              requireModule_load host deps self modulePath options
          end) s.
Proof.
  unfold requireModule, requireModule_path.
  rewrite bind_assoc. apply bind_ext. intros moduleID s1. cbv zeta.
  do 4 (rewrite bind_assoc; apply bind_ext; intros ? ?).
  rewrite bind_assoc. apply bind_ext. intros isCore s6.
  destruct (truthy_opt moduleName && isCore).
  - by rewrite fmap_bind, bind_ret.
  - by rewrite fmap_bind.
Qed.

Lemma requireModule_for self from moduleName options s p s1 :
  requireModule_path host deps from moduleName options s
  = Ok (ModulePath p) s1 →
  requireModule host deps self from moduleName options s
  = requireModule_load host deps self p options s1.
Proof.
  intros H. by rewrite requireModule_halves, (bind_Ok _ _ _ _ _ H).
Qed.

(** The id of a call with no module name is computed without the resolver
    and cannot fail. *)
Lemma normalizeID_unnamed from moduleName s :
  truthy_opt moduleName = false →
  ∃ id s1, _normalizeID host from moduleName s = Ok id s1 ∧ same_runtime s s1.
Proof.
  intros Hname. unfold _normalizeID. rewrite Hname.
  cbv [mbind M_bind gets modify resolver_isCoreModule resolver_getModule
       resolver_getMockModule fmap M_fmap mret M_ret _resolveModule].
  simpl.
  repeat match goal with
         | |- context [if ?b then _ else _] => destruct b
         end; simpl; do 2 eexists; (split; [reflexivity|by split]).
Qed.

(** With no module name the first half comes to [from] itself, and leaves
    the runtime, the resolver included, and the stores as they were. *)
Lemma requireModule_path_unnamed from moduleName options s :
  truthy_opt moduleName = false →
  ∃ s1, requireModule_path host deps from moduleName options s
        = Ok (ModulePath from) s1 ∧ same_runtime s s1.
Proof.
  intros Hname.
  destruct (normalizeID_unnamed from moduleName s Hname)
    as (id & s1 & Hid & Hsame).
  exists s1. split; [|done].
  unfold requireModule_path. rewrite (bind_Ok _ _ _ _ _ Hid).
  do 4 run_head. cbv zeta. rewrite Hname.
  cbn [andb negb]. rewrite andb_false_r. cbn [andb negb truthy_opt].
  run_head. unfold _resolveModule. by rewrite Hname.
Qed.

(** The id of a named call is computed with at most the resolution the
    call itself is about to make. *)
Lemma normalizeID_named from name s p r' :
  name ≠ "" →
  Resolver.isCoreModule host (_resolver (this s)) name = false →
  truthy_opt (Resolver.getMockModule host (_resolver (this s)) from name)
  = false →
  Resolver.resolveModule host (_resolver (this s)) from name None
  = (Normal p, r') →
  ∃ id s1, _normalizeID host from (Some name) s = Ok id s1 ∧
           heap s1 = heap s ∧
           (this s1 = this s ∨ this s1 = set_resolver r' (this s)).
Proof.
  intros Hname Hcore Hmock Hres. unfold _normalizeID.
  assert ((if truthy_opt (Some name)
           then default "" (Some name) else "") = name) as ->.
  { simpl. by rewrite (proj2 (truthy_str_true name)). }
  run_head. destruct (truthy_opt (normalizedIDCache _ !! _)).
  { do 2 eexists. split; [reflexivity|]. split; [done|by left]. }
  unfold resolver_isCoreModule, resolver_getModule, resolver_getMockModule.
  run_head. rewrite Hcore. do 2 run_head. rewrite Hmock.
  destruct (truthy_opt (Resolver.getModule _ _ _ _)); cbn [negb andb].
  - do 3 run_head. cbv iota beta. run_head.
    do 2 eexists. split; [reflexivity|]. split; [done|by left].
  - run_head. destruct (_ && _).
    + do 3 run_head. cbv iota beta. run_head.
      do 2 eexists. split; [reflexivity|]. split; [done|by left].
    + unfold _resolveModule, resolver_resolveModule.
      change (default "" (Some name)) with name.
      cbn [truthy_opt].
      rewrite (proj2 (truthy_str_true name)) by done.
      rewrite ?bind_assoc, fmap_bind. unfold mbind at 1, M_bind at 1.
      rewrite Hres. cbn [lift_completion]. unfold mret at 1, M_ret at 1.
      do 2 run_head. cbv iota beta. run_head.
      do 2 eexists. split; [reflexivity|]. split; [done|by right].
Qed.

(** A named call for a module that is neither a core module nor has a
    manual mock is for the path the resolver gives. *)
Lemma requireModule_path_named from name options s p r' :
  name ≠ "" →
  Resolver.isCoreModule host (_resolver (this s)) name = false →
  truthy_opt (Resolver.getMockModule host (_resolver (this s)) from name)
  = false →
  Resolver.resolveModule host (_resolver (this s)) from name None
  = (Normal p, r') →
  p ≠ "" →
  ∃ s1, requireModule_path host deps from (Some name) options s
        = Ok (ModulePath p) s1 ∧
        heap s1 = heap s ∧ this s1 = set_resolver r' (this s).
Proof.
  intros Hname Hcore Hmock Hres Hp.
  destruct (normalizeID_named from name s p r' Hname Hcore Hmock Hres)
    as (id & sA & Hid & Hheap & Hthis).
  pose proof (resolveModule_static host (_resolver (this s)) from name None)
    as Hstatic.
  rewrite Hres in Hstatic. simpl in Hstatic.
  assert (Resolver.isCoreModule host (_resolver (this sA)) name = false
          ∧ truthy_opt (Resolver.getMockModule host (_resolver (this sA))
                          from name) = false
          ∧ Resolver.resolveModule host (_resolver (this sA)) from name None
            = (Normal p, r')
          ∧ set_resolver r' (this sA) = set_resolver r' (this s))
    as (Hcore' & Hmock' & Hres' & Hthis').
  { destruct Hthis as [->| ->]; [done|]. simpl. split_and!.
    - by rewrite (isCoreModule_static host (_resolver (this s)) r').
    - by rewrite (getMockModule_static host (_resolver (this s)) r').
    - by apply (resolveModule_again host (_resolver (this s))).
    - done. }
  exists (on_this (set_resolver r') sA). split; [|by split].
  unfold requireModule_path. rewrite (bind_Ok _ _ _ _ _ Hid).
  do 4 run_head. cbv zeta. change (default "" (Some name)) with name.
  rewrite Hmock'. cbn [truthy_opt andb negb].
  rewrite !andb_false_r. cbn [andb negb truthy_opt].
  unfold resolver_isCoreModule. run_head. rewrite Hcore'.
  rewrite andb_false_r.
  unfold _resolveModule, resolver_resolveModule.
  change (default "" (Some name)) with name. cbn [truthy_opt].
  rewrite (proj2 (truthy_str_true name)) by done.
  unfold fmap, M_fmap. by rewrite Hres'.
Qed.

Lemma read_module_Ok l m s :
  modules (heap s) !! l = Some m → read_module l s = Ok m s.
Proof. intros H. unfold read_module. by rewrite H. Qed.

Lemma read_module_inv l m s s1 :
  read_module l s = Ok m s1 → s1 = s ∧ modules (heap s) !! l = Some m.
Proof.
  unfold read_module. destruct (modules (heap s) !! l); [|done].
  by intros [= <- <-].
Qed.

Lemma resolver_getModulePaths_Ok from s :
  resolver_getModulePaths host from s
  = Ok (Resolver.getModulePaths host (_resolver (this s)) from).1
       (on_this (set_resolver
          (Resolver.getModulePaths host (_resolver (this s)) from).2) s).
Proof.
  unfold resolver_getModulePaths. by destruct (Resolver.getModulePaths _ _ _).
Qed.

(** A path that is registered is answered from the registry: nothing is
    transformed or run, whatever fuel is left, and the state stays. *)
Lemma requireModule_load_hit self p options s l m :
  moduleRegistry_get (_moduleRegistry (this s)) p s = Some l →
  modules (heap s) !! l = Some m →
  requireModule_load host deps self p options s = Ok (exports m) s.
Proof.
  intros Hreg Hmod. unfold requireModule_load.
  run_head. rewrite Hreg. do 2 run_head. rewrite Hreg.
  unfold fmap, M_fmap. by rewrite (read_module_Ok l m).
Qed.

(** When the second half returns, what it returns is the [exports] of the
    record the registry holds for the path. *)
Lemma requireModule_load_inv self p options s v s' :
  requireModule_load host deps self p options s = Ok v s' →
  ∃ l m, moduleRegistry_get (_moduleRegistry (this s')) p s' = Some l ∧
         modules (heap s') !! l = Some m ∧ exports m = v.
Proof.
  intros H. unfold requireModule_load in H.
  step_ok H. step_ok H. clear Hstep. step_ok H.
  destruct (moduleRegistry_get _ p s0) as [l|] eqn:Hl;
    [|by cbv [typeError throw] in H].
  unfold fmap, M_fmap, read_module in H.
  destruct (modules (heap s0) !! l) as [m|] eqn:Hm; [|done].
  injection H as <- <-. eauto.
Qed.

(** On a miss, the second half registers a record with a fresh empty
    [exports] and then runs the body, in a state [s_b] that has the
    record. *)
Lemma requireModule_load_miss self p options s script wrapper :
  is_Some (moduleRegistries (heap s) !! _moduleRegistry (this s)) →
  moduleRegistry_get (_moduleRegistry (this s)) p s = None →
  path_extname host p ≠ ".json" →
  path_extname host p ≠ ".node" →
  is_Some (global (_environment (this s))) →
  transform deps p (_config (this s)) (is_internal options)
  = Normal script →
  runScript deps script = Normal wrapper →
  ∃ s_b l e,
    requireModule_load host deps self p options s
    = (run host self
         {| c_from := p; c_module := l; c_options := options |}
         (wrapper (VObj e) (path_dirname host p) p);;
       after_body p s) s_b ∧
    moduleRegistry_get (_moduleRegistry (this s_b)) p s_b = Some l ∧
    (∃ m, modules (heap s_b) !! l = Some m ∧ filename m = p
          ∧ exports m = VObj e) ∧
    objects (heap s_b) !! e = Some ∅ ∧
    _currentlyExecutingModulePath (this s_b) = p ∧
    _isCurrentlyExecutingManualMock (this s_b) = Some p ∧
    Resolver._moduleNameCache (_resolver (this s_b))
    = Resolver._moduleNameCache (_resolver (this s)).
Proof.
  intros [reg Hreg] Hmiss Hjson Hnode [g Hg] Htransform Hscript.
  unfold requireModule_load. run_head. rewrite Hmiss.
  pose proof (proj2 (String.eqb_neq _ _) Hjson) as Hjson'.
  pose proof (proj2 (String.eqb_neq _ _) Hnode) as Hnode'.
  rewrite Hjson', Hnode'.
  do 3 run_head.
  unfold _execModule.
  run_head. cbn [this on_heap]. rewrite Hg.
  rewrite ?bind_assoc.
  erewrite bind_Ok
    by (apply read_module_Ok; cbn; by apply list_lookup_middle).
  cbv beta. do 4 run_head.
  rewrite ?bind_assoc, (bind_Ok _ _ _ _ _ (resolver_getModulePaths_Ok _ _)).
  do 2 run_head. cbn [this on_this on_heap _config set_resolver
                       set_isCurrentlyExecutingManualMock
                       set_currentlyExecutingModulePath filename].
  rewrite Htransform.
  run_head. unfold _runScript. rewrite Hscript.
  rewrite ?bind_assoc.
  erewrite (bind_Ok (try_catch _ _)) by reflexivity. cbv beta.
  rewrite ?bind_assoc.
  erewrite bind_Ok
    by (apply read_module_Ok; cbn;
        by rewrite list_lookup_alter_eq, list_lookup_middle).
  cbv beta. cbn [exports this on_this on_heap heap set_objects objects
                 _isCurrentlyExecutingManualMock
                 _currentlyExecutingModulePath
                 set_currentlyExecutingModulePath modules].
  rewrite ?bind_assoc. unfold after_body.
  do 3 eexists. split; [reflexivity|].
  unfold moduleRegistry_get. cbn.
  split_and!.
  - rewrite list_lookup_alter_eq, Hreg. simpl. apply lookup_insert_eq.
  - eexists. rewrite list_lookup_alter_eq, list_lookup_middle by done.
    done.
  - by apply list_lookup_middle.
  - done.
  - done.
  - unfold Resolver.getModulePaths.
    by destruct (Resolver._modulePathCache _ !! _).
Qed.


Lemma requireModule_named_hit self from name options s p r' l m :
  name ≠ "" →
  Resolver.isCoreModule host (_resolver (this s)) name = false →
  truthy_opt (Resolver.getMockModule host (_resolver (this s)) from name)
  = false →
  Resolver.resolveModule host (_resolver (this s)) from name None
  = (Normal p, r') →
  p ≠ "" →
  moduleRegistry_get (_moduleRegistry (this s)) p s = Some l →
  modules (heap s) !! l = Some m →
  ∃ s1, requireModule host deps self from (Some name) options s
        = Ok (exports m) s1 ∧ heap s1 = heap s.
Proof.
  intros Hname Hcore Hmock Hres Hp Hl Hm.
  destruct (requireModule_path_named from name options s p r')
    as (s1 & Hpath & Hheap & Hthis); try done.
  exists s1. split; [|done]. rewrite (requireModule_for _ _ _ _ _ _ _ Hpath).
  apply requireModule_load_hit with l.
  - unfold moduleRegistry_get in *. by rewrite Hheap, Hthis.
  - by rewrite Hheap.
Qed.











End RequireModule.

Section RequireTheorems.
Import Runtime.
Context (host : NodeHost) (deps deps' : Deps).



(** C9. With no module name, or an empty one, [_resolveModule] returns
    [from] and leaves the state alone; the first half of [requireModule]
    comes to [from] with the runtime, its resolver included, and the stores
    unchanged; so [requireModule] loads [from]: what it returns is the
    [exports] of the record registered under [from], and on a registry miss
    the record it registers and runs has [from] as its key and as its file
    name. *)
Theorem requireModule_unnamed_loads_from self from moduleName options s :
  truthy_opt moduleName = false →
  _resolveModule host from moduleName s = Ok from s ∧
  ∃ s1,
    requireModule_path host deps from moduleName options s
    = Ok (ModulePath from) s1 ∧
    this s1 = this s ∧ heap s1 = heap s ∧
    requireModule host deps self from moduleName options s
    = requireModule_load host deps self from options s1 ∧
    (∀ v s',
       requireModule host deps self from moduleName options s = Ok v s' →
       ∃ l m,
         moduleRegistry_get (_moduleRegistry (this s')) from s' = Some l ∧
         modules (heap s') !! l = Some m ∧ exports m = v) ∧
    (∀ script wrapper,
       is_Some (moduleRegistries (heap s) !! _moduleRegistry (this s)) →
       moduleRegistry_get (_moduleRegistry (this s)) from s = None →
       path_extname host from ≠ ".json" →
       path_extname host from ≠ ".node" →
       is_Some (global (_environment (this s))) →
       transform deps from (_config (this s)) (is_internal options)
       = Normal script →
       runScript deps script = Normal wrapper →
       ∃ s_b l e m,
         requireModule host deps self from moduleName options s
         = (run host self
              {| c_from := from; c_module := l; c_options := options |}
              (wrapper (VObj e) (path_dirname host from) from);;
            after_body from s1) s_b ∧
         moduleRegistry_get (_moduleRegistry (this s_b)) from s_b = Some l ∧
         modules (heap s_b) !! l = Some m ∧ filename m = from).
Proof.
  intros Hname. split.
  { unfold _resolveModule. by rewrite Hname. }
  destruct (requireModule_path_unnamed host deps from moduleName options
              s Hname) as (s1 & Hpath & Hthis & Hheap).
  exists s1. split; [done|]. split; [done|]. split; [done|].
  pose proof (requireModule_for host deps self _ _ _ _ _ _ Hpath) as Hfor.
  split; [done|]. split.
  - intros v s' H. rewrite Hfor in H.
    by eapply requireModule_load_inv.
  - intros script wrapper Hreg Hmiss Hjson Hnode Hg Htransform Hscript.
    assert (moduleRegistry_get (_moduleRegistry (this s1)) from s1 = None)
      as Hmiss1
      by (unfold moduleRegistry_get in *; by rewrite Hheap, Hthis).
    destruct (requireModule_load_miss host deps self from options s1
                script wrapper) as
      (s_b & l & e & Heq & Hl & (m & Hm & Hf & _) & _);
      try done; [by rewrite Hheap, Hthis|by rewrite Hthis..|].
    exists s_b, l, e, m. by rewrite Hfor.
Qed.

End RequireTheorems.

(** ** Executing a module, resetting, deciding to mock *)

Section ExecModule.
Import Runtime.
Context (host : NodeHost) (deps : Deps).

(** C4, as the code has it. When [_execModule] returns, the
    currently-executing module path and the currently-executing manual mock
    are what they were on entry, whatever the body did in between (a torn
    down environment included, where nothing is touched). *)
Theorem execModule_restores_on_return self localModule options s u s' :
  _execModule host deps self localModule options s = Ok u s' →
  _currentlyExecutingModulePath (this s')
  = _currentlyExecutingModulePath (this s) ∧
  _isCurrentlyExecutingManualMock (this s')
  = _isCurrentlyExecutingManualMock (this s).
Proof.
  intros H. unfold _execModule in H. step_ok H.
  destruct (global (_environment (this s))) as [g|].
  - step_ok H. apply read_module_inv in Hstep as [-> _].
    repeat step_ok H. prim_ok H. done.
  - prim_ok H. done.
Qed.

Lemma resetModuleRegistry_Ok s :
  ∃ s', resetModuleRegistry s = Ok tt s' ∧
    mockRegistries (heap s') !! _mockRegistry (this s') = Some ∅ ∧
    moduleRegistries (heap s') !! _moduleRegistry (this s') = Some ∅ ∧
    process s' = process s ∧
    _mockFactories (this s') = _mockFactories (this s) ∧
    _explicitShouldMock (this s') = _explicitShouldMock (this s) ∧
    _virtualMocks (this s') = _virtualMocks (this s) ∧
    _unmockList (this s') = _unmockList (this s) ∧
    _transitiveShouldMock (this s') = _transitiveShouldMock (this s).
Proof.
  unfold resetModuleRegistry. do 5 run_head.
  destruct (global (_environment _)) as [g|]; eexists;
    (split; [reflexivity|]); cbn; by rewrite !list_lookup_middle.
Qed.

(** C7. [resetModuleRegistry] always returns; afterwards the mock registry
    and the module registry are empty tables, and the mock factories, the
    explicit-mock flags, the virtual mocks and the unmock regular expression
    (the runtime's and the process-wide cache of it) are what they were. *)
Theorem resetModuleRegistry_keeps_mock_settings s :
  ∃ s', resetModuleRegistry s = Ok tt s' ∧
    mockRegistries (heap s') !! _mockRegistry (this s') = Some ∅ ∧
    moduleRegistries (heap s') !! _moduleRegistry (this s') = Some ∅ ∧
    _mockFactories (this s') = _mockFactories (this s) ∧
    _explicitShouldMock (this s') = _explicitShouldMock (this s) ∧
    _virtualMocks (this s') = _virtualMocks (this s) ∧
    _unmockList (this s') = _unmockList (this s) ∧
    unmockRegExpCache (process s') = unmockRegExpCache (process s).
Proof.
  destruct (resetModuleRegistry_Ok s)
    as (s' & H & H1 & H2 & Hp & H3 & H4 & H5 & H6 & _).
  exists s'. by rewrite Hp.
Qed.

Lemma normalizeID_core from moduleName s :
  Resolver.isCoreModule host (_resolver (this s)) moduleName = true →
  ∃ id s1, _normalizeID host from (Some moduleName) s = Ok id s1
           ∧ same_runtime s s1.
Proof.
  intros Hcore. unfold _normalizeID.
  assert ((if truthy_opt (Some moduleName)
           then default "" (Some moduleName) else "") = moduleName) as ->.
  { simpl. unfold truthy_str.
    by destruct (String.eqb_spec moduleName ""). }
  run_head. destruct (truthy_opt _).
  { do 2 eexists. split; [reflexivity|by split]. }
  unfold resolver_isCoreModule. run_head. rewrite Hcore.
  run_head. cbv iota beta. run_head.
  do 2 eexists. split; [reflexivity|by split].
Qed.

(** C3, as the code has it. A core module that is not a virtual mock, and
    whose id carries no explicit flag, is not mocked. *)
Theorem shouldMock_core_module from moduleName s :
  Resolver.isCoreModule host (_resolver (this s)) moduleName = true →
  _virtualMocks (this s) !! _getVirtualMockPath host from moduleName = None →
  (∀ id s1, _normalizeID host from (Some moduleName) s = Ok id s1 →
            _explicitShouldMock (this s) !! id = None) →
  ∃ s', _shouldMock host from moduleName s = Ok false s'.
Proof.
  intros Hcore Hvirtual Hexplicit.
  destruct (normalizeID_core from moduleName s Hcore)
    as (id & s1 & Hid & Hthis & Hheap).
  specialize (Hexplicit id s1 Hid).
  unfold _shouldMock. run_head. rewrite Hvirtual.
  rewrite bool_decide_eq_false_2 by (by intros [? ?]).
  rewrite (bind_Ok _ _ _ _ _ Hid). run_head.
  rewrite Hthis, Hexplicit. do 3 run_head.
  unfold Resolver.isCoreModule in Hcore. rewrite Hthis.
  unfold Resolver.isCoreModule. rewrite Hcore.
  rewrite orb_true_r. simpl. eauto.
Qed.

End ExecModule.

(** ** Constructing a runtime *)

Section Constructor.
Import Runtime.
Context (host : NodeHost) (deps : Deps).
Local Abbreviation requireEach := (requireEach host deps).
Local Abbreviation idKey := (idKey host).
Local Abbreviation marked := (marked host).

Lemma grows_refl s : grows s s.
Proof. by split. Qed.

Lemma grows_trans s1 s2 s3 : grows s1 s2 → grows s2 s3 → grows s1 s3.
Proof. intros [H1 H2] [H3 H4]. split; eauto. Qed.

Lemma normalizeID_cached from moduleName s id :
  normalizedIDCache (process s)
    !! (from +:+ path_delimiter host +:+
        (if truthy_opt moduleName then default "" moduleName else ""))
  = Some id →
  id ≠ "" →
  _normalizeID host from moduleName s = Ok id s.
Proof.
  intros Hc Hid. unfold _normalizeID. run_head. rewrite Hc. simpl.
  by rewrite (proj2 (truthy_str_true id)).
Qed.

Lemma append_nonempty (a b : string) : a ≠ "" → a +:+ b ≠ "".
Proof. by destruct a. Qed.

(** A miss in the cache of ids: the id is computed, it is not empty, and it
    is stored under the key; [Hne] says that no entry to keep has that key. *)
Ltac caches_id Hne :=
  unfold resolver_isCoreModule, resolver_getModule, resolver_getMockModule;
  cbn [truthy_opt]; run_head;
  destruct (Resolver.isCoreModule _ _ _);
  [ run_head
  | do 2 run_head; unfold _resolveModule; cbn [truthy_opt truthy_str];
    destruct (negb _ && negb _); [do 4 run_head|do 3 run_head] ];
  cbv iota beta; run_head;
  do 2 eexists; (split; [reflexivity|]); simpl;
  rewrite lookup_insert_eq; split_and!; try done;
  intros k v Hv Hk; (rewrite lookup_insert_ne; [done|]);
  intros Heq; by eapply Hne.

Lemma normalizeID_unnamed_caches from s :
  ∃ id s1,
    _normalizeID host from None s = Ok id s1 ∧
    this s1 = this s ∧ heap s1 = heap s ∧ id ≠ "" ∧
    normalizedIDCache (process s1) !! idKey from = Some id ∧
    (∀ k v, v ≠ "" → normalizedIDCache (process s) !! k = Some v →
            normalizedIDCache (process s1) !! k = Some v).
Proof.
  unfold _normalizeID. cbn [truthy_opt]. fold (idKey from). run_head.
  destruct (normalizedIDCache (process s) !! idKey from) as [c|] eqn:Hc.
  - simpl. destruct (truthy_str c) eqn:Ht.
    + apply truthy_str_true in Ht. exists c, s. done.
    + assert (∀ k v, v ≠ "" → normalizedIDCache (process s) !! k = Some v →
                k ≠ idKey from) as Hne.
      { intros k v Hv Hk ->. rewrite Hc in Hk. injection Hk as ->.
        apply truthy_str_true in Hv. congruence. }
      caches_id Hne.
  - assert (∀ k v, v ≠ "" → normalizedIDCache (process s) !! k = Some v →
              k ≠ idKey from) as Hne by (intros k v _ Hk ->; congruence).
    caches_id Hne.
Qed.


Lemma marked_grows s s' file : grows s s' → marked s file → marked s' file.
Proof. intros [H1 H2] (id & Hc & Hid & Ht). exists id. eauto. Qed.

Lemma unmockPath_Ok file s :
  ∃ s', unmockPath host file s = Ok tt s' ∧ grows s s' ∧
        heap s' = heap s ∧
        (file ≠ "" → includes (NODE_MODULES host) file = true →
         marked s' file) ∧
        _config (this s') = _config (this s) ∧
        _environment (this s') = _environment (this s).
Proof.
  unfold unmockPath.
  destruct (truthy_str file && includes (NODE_MODULES host) file) eqn:Hc.
  - destruct (normalizeID_unnamed_caches file s)
      as (id & s1 & Hid & Hthis & Hheap & Hne & Hkey & Hkeep).
    rewrite (bind_Ok _ _ _ _ _ Hid). eexists. split; [reflexivity|].
    simpl. split_and!; try done; try (by rewrite Hthis).
    + split; simpl; [done|]. intros id' Hid'. rewrite Hthis.
      destruct (decide (id = id')) as [->|Hneq].
      * by rewrite lookup_insert_eq.
      * by rewrite lookup_insert_ne.
    + intros _ _. exists id. simpl. by rewrite lookup_insert_eq.
  - exists s. split; [done|]. split; [apply grows_refl|]. split; [done|].
    split; [|done].
    intros Hfile Hinc. rewrite Hinc, (proj2 (truthy_str_true file)) in Hc;
      done.
Qed.

Lemma forEach_unmockPath_Ok files s :
  ∃ s', forEach (unmockPath host) files s = Ok tt s' ∧ grows s s' ∧
        heap s' = heap s ∧
        (∀ file, file ∈ files → file ≠ "" →
                 includes (NODE_MODULES host) file = true → marked s' file) ∧
        _config (this s') = _config (this s) ∧
        _environment (this s') = _environment (this s).
Proof.
  revert s. induction files as [|file files IH]; intros s.
  - exists s. split; [done|]. split; [apply grows_refl|]. split; [done|].
    split; [|done]. intros file Hin. by apply elem_of_nil in Hin.
  - destruct (unmockPath_Ok file s) as (s1 & H1 & Hg1 & Hh1 & Hm1 & Hc1 & He1).
    destruct (IH s1) as (s2 & H2 & Hg2 & Hh2 & Hm2 & Hc2 & He2).
    exists s2. simpl. rewrite (bind_Ok _ _ _ _ _ H1). split; [done|].
    split; [by eapply grows_trans|]. split; [congruence|].
    split; [|split; congruence].
    intros f Hin Hf Hinc. apply elem_of_cons in Hin as [->|Hin].
    + eapply marked_grows; eauto.
    + by apply Hm2.
Qed.

(** [resetModuleRegistry] keeps the config, and a global that is there. *)
Lemma resetModuleRegistry_frame s s' :
  resetModuleRegistry s = Ok tt s' →
  _config (this s') = _config (this s) ∧
  (is_Some (global (_environment (this s))) →
   is_Some (global (_environment (this s')))).
Proof.
  unfold resetModuleRegistry. do 5 run_head.
  cbn [this on_this on_heap _environment set_moduleRegistry
       set_mockRegistry].
  destruct (global (_environment (this s))) as [g|] eqn:Hg;
    intros [= <-]; (split; [done|]).
  - intros _. by eexists.
  - by intros [? ?].
Qed.

(** What a construction that got past its regular expressions has set. *)
Lemma constructed_inv config environment resolver h p s :
  constructed host config environment resolver h p = Normal s →
  ∃ mocksPattern testRegex unmockList,
    s = constructed_with config environment resolver h p
          mocksPattern testRegex unmockList.
Proof.
  unfold constructed, completion_bind.
  repeat case_match; try done; intros [= <-]; eauto.
Qed.

Lemma requireSetupFile_middle fuel pre file files :
  requireSetupFile host deps fuel (pre ++ file :: files) (length pre)
  = (requireModule host deps (ops host deps fuel) file None None;;
     mret tt).
Proof. unfold requireSetupFile. by rewrite list_lookup_middle. Qed.

Lemma for_loop_requireEach fuel pre files s :
  for_loop (length files) (length pre)
    (requireSetupFile host deps fuel (pre ++ files)) s
  = requireEach (ops host deps fuel) files s.
Proof.
  revert pre s. induction files as [|file files IH]; intros pre s; [done|].
  cbn [length for_loop requireEach]. rewrite requireSetupFile_middle.
  rewrite bind_assoc. unfold mbind at 1 3, M_bind at 1 3.
  destruct (requireModule _ _ _ _ _ _ s) as [v s1|e s1|]; [|done..].
  rewrite bind_Ok with (a := tt) (s1 := s1) by done.
  specialize (IH (pre ++ [file])%list s1).
  rewrite length_app, Nat.add_1_r, <- app_assoc in IH. done.
Qed.

(** A call that comes to the same as a run from another state does so
    with what follows it. *)
Lemma bind_same {A C} (m n : M A) (f : A → M C) s s' :
  m s = n s' → (m ≫= f) s = (n ≫= f) s'.
Proof. intros H. unfold mbind, M_bind. by rewrite H. Qed.

(** C10, as the code has it. Let the constructor get past the regular
    expressions it builds from the config (a [SyntaxError] there ends it
    before it looks at a setup file). It then comes to a state [s0] in which
    every setup file whose path has a [node_modules] segment has its id
    flagged as transitively unmocked and in which both registries are empty
    (the flags were set and [resetModuleRegistry] has run), and from [s0] it
    requires the setup files one after the other, in the order of the list:
    what the constructor gives is what that gives. This executes modules:
    the first setup file, when it is an ordinary file that the transformer
    accepts, is registered with a fresh [exports] object and its body is
    run, and the other files are required after it. *)
Theorem constructor_requires_setup_files fuel config environment resolver
    h p s_c :
  constructed host config environment resolver h p = Normal s_c →
  ∃ s0,
    (∀ file, file ∈ setupFiles config → file ≠ "" →
       includes (NODE_MODULES host) file = true →
       ∃ id, _normalizeID host file None s0 = Ok id s0 ∧
             _transitiveShouldMock (this s0) !! id = Some false) ∧
    mockRegistries (heap s0) !! _mockRegistry (this s0) = Some ∅ ∧
    moduleRegistries (heap s0) !! _moduleRegistry (this s0) = Some ∅ ∧
    constructor host deps fuel config environment resolver h p
    = Normal (requireEach (ops host deps fuel) (setupFiles config) s0) ∧
    ∀ file files script wrapper,
      setupFiles config = file :: files →
      path_extname host file ≠ ".json" →
      path_extname host file ≠ ".node" →
      is_Some (global environment) →
      transform deps file config false = Normal script →
      runScript deps script = Normal wrapper →
      ∃ s1 s_b l e,
        same_runtime s0 s1 ∧
        requireEach (ops host deps fuel) (file :: files) s0
        = (run host (ops host deps fuel)
             {| c_from := file; c_module := l; c_options := None |}
             (wrapper (VObj e) (path_dirname host file) file);;
           after_body file s1;;
           requireEach (ops host deps fuel) files) s_b ∧
        moduleRegistry_get (_moduleRegistry (this s_b)) file s_b = Some l ∧
        (∃ m, modules (heap s_b) !! l = Some m ∧ filename m = file
              ∧ exports m = VObj e) ∧
        objects (heap s_b) !! e = Some ∅.
Proof.
  intros Hc. unfold constructor. rewrite Hc. cbn [completion_bind].
  apply constructed_inv in Hc as (mp & tr & ul & ->).
  destruct (forEach_unmockPath_Ok (setupFiles config)
              (constructed_with config environment resolver h p mp tr ul))
    as (s1 & H1 & Hg1 & Hh1 & Hm1 & Hc1 & He1).
  destruct (resetModuleRegistry_Ok s1)
    as (s0 & H0 & Hmock & Hmod & Hp & _ & _ & _ & _ & Ht).
  destruct (resetModuleRegistry_frame s1 s0 H0) as (Hc0 & He0).
  exists s0. split_and!; try done.
  - intros file Hin Hfile Hinc.
    destruct (Hm1 file Hin Hfile Hinc) as (id & Hc & Hid & Hfalse).
    exists id. split.
    + apply normalizeID_cached; [|done]. by rewrite Hp.
    + by rewrite Ht.
  - f_equal. rewrite (bind_Ok _ _ _ _ _ H1), (bind_Ok _ _ _ _ _ H0).
    destruct (setupFiles config) as [|file files] eqn:Hfiles; [done|].
    rewrite bool_decide_eq_true_2 by done.
    apply (for_loop_requireEach fuel [] (file :: files)).
  - intros file files script wrapper _ Hjson Hnode Hglobal Htransform
      Hscript.
    destruct (requireModule_path_unnamed host deps file None None s0 eq_refl)
      as (s2 & Hpath & Hthis & Hheap).
    destruct (requireModule_load_miss host deps (ops host deps fuel) file
                None s2 script wrapper)
      as (s_b & l & e & Heq & Hl & Hm & He & _); try done.
    + rewrite Hheap, Hthis, Hmod. by eexists.
    + unfold moduleRegistry_get. by rewrite Hheap, Hthis, Hmod.
    + rewrite Hthis. apply He0. by rewrite He1.
    + by rewrite Hthis, Hc0, Hc1.
    + exists s2, s_b, l, e. split; [by split|]. split; [|done].
      cbn [requireEach]. rewrite <- bind_assoc.
      apply bind_same.
      by rewrite (requireModule_for _ _ _ _ _ _ _ _ _ Hpath).
Qed.

End Constructor.

(** * Further properties of the resolver *)

Section ResolverMore.
Context (host : NodeHost).
Import Resolver.

(** X1. A name is never both a haste module and a haste package:
    [getModule] and [getPackage] read the same entry of the haste map, the
    one the platform preference selects, and accept different types. *)
Theorem getModule_getPackage_exclusive r name :
  getModule host r name None = None ∨ getPackage host r name = None.
Proof.
  unfold getPackage, getModule. cbv zeta. simpl.
  destruct (map (_moduleMap r) !! name) as [entries|]; [|by left].
  repeat case_match; simplify_eq; auto;
    destruct (H_TYPE _); simpl in *; done.
Qed.

(** X2. What [resolveModule] leaves behind: the haste map, the options and
    the cache of module paths are untouched, and so is every entry of the
    name cache but the one of [(dirname(from), moduleName)]; that entry
    holds the result of a successful call, and a failed call changes
    nothing at all (a failure is not remembered). *)
Theorem resolveModule_writes_one_key r from moduleName options :
  let key := cacheKey host (path_dirname host from) moduleName in
  let '(c, r') := resolveModule host r from moduleName options in
  same_static r r' ∧
  _modulePathCache r' = _modulePathCache r ∧
  (∀ k, k ≠ key → _moduleNameCache r' !! k = _moduleNameCache r !! k) ∧
  match c with
  | Normal p => _moduleNameCache r' !! key = Some p
  | Abrupt _ => r' = r
  end.
Proof.
  intros key.
  pose proof (resolveModule_cases host r from moduleName options) as H.
  simpl in H. fold key in H.
  destruct (resolveModule host r from moduleName options) as [c r'].
  destruct H as [[-> (q & Hq & _ & ->)]
                |[[_ (p & -> & -> & _)]|[-> [-> _]]]]; simpl.
  - done.
  - split_and!; try done.
    + intros k Hk. by rewrite lookup_insert_ne.
    + by rewrite lookup_insert_eq.
  - done.
Qed.

Lemma resolveModule_remembers r from moduleName options p r' :
  resolveModule host r from moduleName options = (Normal p, r') →
  _moduleNameCache r' !! cacheKey host (path_dirname host from) moduleName
  = Some p.
Proof.
  intros H.
  pose proof (resolveModule_cases host r from moduleName options) as Hc.
  simpl in Hc. rewrite H in Hc.
  destruct Hc as [[-> (q & Hq & _ & [= ->])]
                 |[[_ (q & [= <-] & -> & _)]|[_ [? _]]]]; [done| |done].
  simpl. by rewrite lookup_insert_eq.
Qed.

(** X3. A name once resolved from a directory stays resolved: every later
    call for the same name from a file of that directory gives the same
    path from the cache, whatever the options, the haste map's packages and
    node resolution would give now, and without changing the resolver. *)
Theorem resolveModule_cached_for_directory r from moduleName options p r' :
  resolveModule host r from moduleName options = (Normal p, r') →
  p ≠ "" →
  ∀ host' from' options',
    same_naming host host' →
    path_dirname host from' = path_dirname host from →
    resolveModule host' r' from' moduleName options' = (Normal p, r').
Proof.
  intros H Hp host' from' options' Hn Hd.
  pose proof (resolveModule_remembers _ _ _ _ _ _ H) as Hkey.
  assert (cacheKey host' (path_dirname host' from') moduleName
          = cacheKey host (path_dirname host from) moduleName) as Hk.
  { rewrite (cacheKey_same_naming host host') by done. by rewrite Hd. }
  unfold resolveModule. cbv zeta. unfold Path in *. rewrite Hk, Hkey. simpl.
  by rewrite (proj2 (truthy_str_true p)).
Qed.

(** X4. The paths of a directory are computed once: after a call, every
    later call for the same directory gives the same list from the cache,
    whatever [node-modules-paths] would give now, and changes nothing;
    [getModulePaths] touches neither the haste map, the options nor the
    name cache. *)
Theorem getModulePaths_cached r from :
  let '(paths, r') := getModulePaths host r from in
  same_static r r' ∧
  _moduleNameCache r' = _moduleNameCache r ∧
  ∀ host', getModulePaths host' r' from = (paths, r').
Proof.
  unfold getModulePaths.
  destruct (_modulePathCache r !! from) as [cached|] eqn:Hc.
  - split; [done|]. split; [done|]. intros host'. by rewrite Hc.
  - split; [done|]. split; [done|]. intros host'. simpl.
    by rewrite lookup_insert_eq.
Qed.

(** X5. Among the patterns of [moduleNameMapper] the first that matches
    the name decides, also when the name it maps to is not found: the
    patterns after it are not tried. *)
Theorem resolveStubModuleName_first_match r from moduleName
    pre mapped regex rest :
  moduleNameMapper (_options r) = Some (pre ++ (mapped, regex) :: rest)%list →
  (∀ entry, entry ∈ pre → regexp_test host entry.2 moduleName = false) →
  regexp_test host regex moduleName = true →
  _resolveStubModuleName host r from moduleName
  = js_or
      (getModule host r (string_replace host moduleName regex mapped) None)
      (findNodeModule host (string_replace host moduleName regex mapped)
         (nodeModuleConfig r (path_dirname host from))).
Proof.
  intros Hmapper Hpre Hmatch. unfold _resolveStubModuleName.
  rewrite Hmapper. clear Hmapper.
  induction pre as [|[mapped' regex'] pre IH]; simpl.
  - by rewrite Hmatch.
  - pose proof (Hpre (mapped', regex') ltac:(apply elem_of_cons; by left))
      as Hn.
    simpl in Hn. rewrite Hn.
    apply IH. intros entry Hin. apply Hpre. apply elem_of_cons; by right.
Qed.

(** X6. A name that no pattern of [moduleNameMapper] matches, and that the
    haste map has no mock for, has no mock module. *)
Theorem getMockModule_none r from name :
  truthy_opt (mocks (_moduleMap r) !! name) = false →
  (∀ mapper entry, moduleNameMapper (_options r) = Some mapper →
     entry ∈ mapper → regexp_test host entry.2 name = false) →
  getMockModule host r from name = None.
Proof.
  intros Hmock Hnone. unfold getMockModule, _resolveStubModuleName.
  rewrite Hmock.
  destruct (moduleNameMapper (_options r)) as [mapper|]; [|done].
  assert (_resolveStubModuleName_loop host r (path_dirname host from)
            mapper name = None) as ->; [|done].
  specialize (Hnone mapper).
  induction mapper as [|[mapped regex] mapper IH]; simpl; [done|].
  pose proof (Hnone (mapped, regex) eq_refl
                ltac:(apply elem_of_cons; by left)) as Hn.
  simpl in Hn. rewrite Hn.
  apply IH. intros entry _ Hin. apply Hnone; [done|].
  apply elem_of_cons; by right.
Qed.

End ResolverMore.

(** * Further properties of the runtime *)

Section RuntimeMore.
Import Runtime.
Context (host : NodeHost) (deps : Deps).
Local Abbreviation normalizedKey := (normalizedKey host).

Lemma set_resolver_same r : set_resolver (_resolver r) r = r.
Proof. by destruct r. Qed.

Lemma on_this_set_resolver_same s :
  on_this (set_resolver (_resolver (this s))) s = s.
Proof. destruct s. unfold on_this. simpl. by rewrite set_resolver_same. Qed.

Lemma same_static_refl r : same_static r r.
Proof. done. Qed.

Lemma resolved_more_refl s : resolved_more s s.
Proof.
  split; [done|]. split; [|done].
  exists (_resolver (this s)). by rewrite set_resolver_same.
Qed.

Lemma resolveModule_Ok_inv from to s p s1 :
  _resolveModule host from to s = Ok p s1 →
  process s1 = process s ∧ resolved_more s s1.
Proof.
  unfold _resolveModule, resolver_resolveModule.
  destruct (truthy_opt to).
  - pose proof (resolveModule_static host (_resolver (this s)) from
                  (default "" to) None) as Hstatic.
    destruct (Resolver.resolveModule host (_resolver (this s)) from
                (default "" to) None) as [[q|e] r]; simpl; [|done].
    intros [= _ <-]. split; [done|]. split; [done|]. split; [|done].
    by exists r.
  - intros [= _ <-]. split; [done|]. apply resolved_more_refl.
Qed.

Lemma fmap_inv_Ok {A B} (g : A → B) (m : M A) s b s' :
  (g <$> m) s = Ok b s' → ∃ a, m s = Ok a s' ∧ b = g a.
Proof.
  unfold fmap, M_fmap. destruct (m s) as [a s1| |]; [|done..].
  intros [= <- <-]. eauto.
Qed.

Lemma outcome_Ok {A} (o : outcome A) (P : A → state → Prop)
    (Q : state → Prop) a s :
  match o with
  | Ok a s => P a s
  | Err _ s => Q s
  | OutOfFuel => True
  end →
  o = Ok a s → P a s.
Proof. by intros H ->. Qed.

Lemma outcome_Err {A} (o : outcome A) (P : A → state → Prop)
    (Q : state → Prop) e s :
  match o with
  | Ok a s => P a s
  | Err _ s => Q s
  | OutOfFuel => True
  end →
  o = Err e s → Q s.
Proof. by intros H ->. Qed.

(** The part of [_normalizeID] between the cache miss and the write to the
    cache: it at most resolves a name, and only that can throw. *)
Lemma normalizeID_parts_spec (isCore : bool) from name s :
  match
    (if isCore
     then mret ("node", Some name, None)
          : M (string * option string * option string)
     else
       haste ← resolver_getModule host name;
       mock ← resolver_getMockModule host from name;
       absolutePath ←
         (if negb (truthy_opt haste) && negb (truthy_opt mock)
          then
            virtualMocks ← gets (fun s => _virtualMocks (this s));
            let virtualMockPath := _getVirtualMockPath host from name in
            if truthy_str name
               && bool_decide (is_Some (virtualMocks !! virtualMockPath))
            then mret (Some virtualMockPath) : M (option string)
            else Some <$> _resolveModule host from (Some name)
          else mret None);
       moduleResource ← resolver_getModule host name;
       let absolutePath :=
         match absolutePath with
         | Some a => Some a
         | None =>
             if truthy_opt moduleResource then moduleResource else None
         end in
       mockResource ← resolver_getMockModule host from name;
       let mockPath :=
         if truthy_opt mockResource then mockResource else None in
       mret ("user", absolutePath, mockPath)) s
  with
  | Ok parts s0 =>
      parts.1.1 ≠ "" ∧ process s0 = process s ∧ resolved_more s s0
  | Err _ s0 => process s0 = process s
  | OutOfFuel => True
  end.
Proof.
  destruct isCore.
  { simpl. split; [done|]. split; [done|]. apply resolved_more_refl. }
  unfold resolver_getModule, resolver_getMockModule. do 2 run_head.
  destruct (negb _ && negb _).
  - run_head. destruct (truthy_str name && _).
    + do 3 run_head. simpl. split; [done|]. split; [done|].
      apply resolved_more_refl.
    + rewrite fmap_bind. unfold mbind at 1, M_bind at 1.
      destruct (_resolveModule host from (Some name) s) as [q s0|e s0|]
        eqn:Hres; [| |done].
      * do 2 run_head. simpl. split; [done|].
        by apply resolveModule_Ok_inv in Hres.
      * unfold _resolveModule, resolver_resolveModule in Hres.
        destruct (truthy_opt (Some name)); [|done].
        destruct (Resolver.resolveModule host (_resolver (this s)) from
                    (default "" (Some name)) None) as [[q|e'] r];
          simpl in Hres; [done|]. by injection Hres as _ <-.
  - do 3 run_head. simpl. split; [done|]. split; [done|].
    apply resolved_more_refl.
Qed.

(** What a call of [_normalizeID] that returns leaves behind. *)
Lemma normalizeID_inv from moduleName s id s1 :
  _normalizeID host from moduleName s = Ok id s1 →
  id ≠ "" ∧
  resolved_more s s1 ∧
  normalizedIDCache (process s1) !! normalizedKey from moduleName = Some id ∧
  (∀ k, k ≠ normalizedKey from moduleName →
        normalizedIDCache (process s1) !! k
        = normalizedIDCache (process s) !! k).
Proof.
  intros H. unfold _normalizeID in H.
  fold (normalizedKey from moduleName) in H.
  step_ok H.
  destruct (truthy_opt (normalizedIDCache (process s)
                          !! normalizedKey from moduleName)) eqn:Hc.
  { destruct (normalizedIDCache (process s)
                !! normalizedKey from moduleName) as [c|] eqn:Hc';
      [|done].
    prim_ok H. simpl in *. apply truthy_str_true in Hc.
    split; [done|]. split; [apply resolved_more_refl|]. done. }
  clear Hc. step_ok H. step_ok H. destruct a as [[moduleType ap] mp].
  match type of Hstep with
  | (if ?c then _ else _) _ = _ =>
      pose proof (normalizeID_parts_spec c from
                    (if truthy_opt moduleName
                     then default "" moduleName else "") s) as Hspec
  end.
  destruct (outcome_Ok _ _ _ _ _ Hspec Hstep) as (Htype & Hproc & Hmore).
  clear Hspec.
  step_ok H. prim_ok H. simpl in *.
  split; [by apply append_nonempty|].
  split.
  { destruct Hmore as (Hheap & Hthis & Hre). split; [done|].
    split; [done|]. simpl. by rewrite Hproc. }
  rewrite Hproc. split; [by rewrite lookup_insert_eq|].
  intros k Hk. by rewrite lookup_insert_ne.
Qed.

(** A call of [_normalizeID] that throws has written no id. *)
Lemma normalizeID_throws from moduleName s e s1 :
  _normalizeID host from moduleName s = Err e s1 → process s1 = process s.
Proof.
  intros H. unfold _normalizeID in H.
  apply bind_inv_Err in H as [H|(cached & s0 & Hg & H)]; [done|].
  cbv [gets] in Hg. injection Hg as <- <-. cbv beta zeta in H.
  destruct (truthy_opt _); [done|].
  apply bind_inv_Err in H as [H|(isCore & s0 & Hc & H)]; [done|].
  cbv [resolver_isCoreModule gets] in Hc. injection Hc as <- <-.
  apply bind_inv_Err in H as [H|(parts & s0 & Hp & H)].
  - match type of H with
    | (if ?c then _ else _) _ = _ =>
        pose proof (normalizeID_parts_spec c from
                      (if truthy_opt moduleName
                       then default "" moduleName else "") s) as Hspec
    end.
    exact (outcome_Err _ _ _ _ _ Hspec H).
  - by destruct parts as [[? ?] ?].
Qed.

(** [x || ''] is [x] when [x] is a string, and [''] otherwise. *)
Lemma js_or_empty (x : option string) :
  default "" (js_or x (Some "")) = default "" x.
Proof.
  destruct x as [x|]; [|done]. unfold js_or. simpl.
  destruct (truthy_str x) eqn:Hx; [done|]. simpl.
  unfold truthy_str in Hx. by destruct (String.eqb_spec x "").
Qed.

(** X7. Ids are given once: after [_normalizeID] returned an id for
    [(from, moduleName)], a later call for the same pair returns the same
    id and changes nothing, in every state whose cache of ids still has the
    entry, whatever the resolver, the haste map and the virtual mocks of
    that state are (the cache is shared by the runtimes of the process). *)
Theorem normalizeID_stable from moduleName s id s1 s2 :
  _normalizeID host from moduleName s = Ok id s1 →
  normalizedIDCache (process s2) !! normalizedKey from moduleName
  = normalizedIDCache (process s1) !! normalizedKey from moduleName →
  _normalizeID host from moduleName s2 = Ok id s2.
Proof.
  intros H Hsame. apply normalizeID_inv in H as (Hid & _ & Hc & _).
  apply normalizeID_cached; [|done]. by rewrite <- Hc.
Qed.

(** X8. The id of a core module names the module alone: it is
    [node<sep>name<sep>] from whatever file it is asked for, and computing
    it leaves the runtime and the stores as they were. *)
Theorem normalizeID_core_module from name s :
  name ≠ "" →
  Resolver.isCoreModule host (_resolver (this s)) name = true →
  truthy_opt (normalizedIDCache (process s)
                !! normalizedKey from (Some name)) = false →
  ∃ s1,
    _normalizeID host from (Some name) s
    = Ok ("node" +:+ path_delimiter host +:+ name +:+ path_delimiter host
          +:+ "") s1 ∧
    same_runtime s s1.
Proof.
  intros Hname Hcore Hmiss. unfold _normalizeID.
  fold (normalizedKey from (Some name)).
  assert ((if truthy_opt (Some name)
           then default "" (Some name) else "") = name) as Hn.
  { simpl. by rewrite (proj2 (truthy_str_true name)). }
  rewrite Hn. run_head. rewrite Hmiss.
  unfold resolver_isCoreModule. run_head. rewrite Hcore.
  run_head. cbv iota beta. run_head.
  rewrite !js_or_empty. simpl. eexists. split; [reflexivity|by split].
Qed.

(** X9. The id of an ordinary module (no core module, no haste module, no
    mock module, no virtual mock) is built from the path its name resolves
    to, [user<sep>path<sep>], not from the name or the requiring file: two
    names for one file have one id. Computing it costs the one resolution,
    which the resolver remembers. *)
Theorem normalizeID_by_resolved_path from name s p r' :
  name ≠ "" →
  truthy_opt (normalizedIDCache (process s)
                !! normalizedKey from (Some name)) = false →
  Resolver.isCoreModule host (_resolver (this s)) name = false →
  truthy_opt (Resolver.getModule host (_resolver (this s)) name None)
  = false →
  truthy_opt (Resolver.getMockModule host (_resolver (this s)) from name)
  = false →
  _virtualMocks (this s) !! _getVirtualMockPath host from name = None →
  Resolver.resolveModule host (_resolver (this s)) from name None
  = (Normal p, r') →
  ∃ s1,
    _normalizeID host from (Some name) s
    = Ok ("user" +:+ path_delimiter host +:+ p +:+ path_delimiter host
          +:+ "") s1 ∧
    this s1 = set_resolver r' (this s) ∧ heap s1 = heap s.
Proof.
  intros Hname Hmiss Hcore Hhaste Hmock Hvirtual Hres.
  pose proof (resolveModule_static host (_resolver (this s)) from name None)
    as Hstatic.
  rewrite Hres in Hstatic. simpl in Hstatic.
  unfold _normalizeID. fold (normalizedKey from (Some name)).
  assert ((if truthy_opt (Some name)
           then default "" (Some name) else "") = name) as Hn.
  { simpl. by rewrite (proj2 (truthy_str_true name)). }
  rewrite Hn. run_head. rewrite Hmiss.
  unfold resolver_isCoreModule, resolver_getModule, resolver_getMockModule.
  run_head. rewrite Hcore. do 2 run_head. rewrite Hhaste, Hmock.
  cbn [negb andb]. run_head. rewrite Hvirtual.
  rewrite bool_decide_eq_false_2 by (by intros [? ?]).
  rewrite andb_false_r.
  unfold _resolveModule, resolver_resolveModule.
  change (default "" (Some name)) with name. cbn [truthy_opt].
  rewrite (proj2 (truthy_str_true name)) by done.
  rewrite ?bind_assoc, fmap_bind. unfold mbind at 1, M_bind at 1.
  rewrite Hres. cbn [lift_completion]. unfold mret at 1, M_ret at 1.
  do 2 run_head. cbn [this on_this _resolver set_resolver].
  rewrite (getMockModule_static host (_resolver (this s)) r') by done.
  rewrite Hmock. run_head. cbv iota beta. run_head.
  rewrite !js_or_empty. simpl. eexists. split; [reflexivity|]. by split.
Qed.

(** X10. The id of a file itself, as [_normalizeID(from)] computes it for
    the module that is running, is [user<sep>from<sep>]: the id under which
    an ordinary require reaches that file. *)
Theorem normalizeID_of_file from moduleName s :
  truthy_opt moduleName = false →
  truthy_opt (normalizedIDCache (process s)
                !! normalizedKey from moduleName) = false →
  Resolver.isCoreModule host (_resolver (this s)) "" = false →
  truthy_opt (Resolver.getModule host (_resolver (this s)) "" None)
  = false →
  truthy_opt (Resolver.getMockModule host (_resolver (this s)) from "")
  = false →
  ∃ s1,
    _normalizeID host from moduleName s
    = Ok ("user" +:+ path_delimiter host +:+ from +:+ path_delimiter host
          +:+ "") s1 ∧
    same_runtime s s1.
Proof.
  intros Hname Hmiss Hcore Hhaste Hmock.
  unfold _normalizeID. fold (normalizedKey from moduleName).
  rewrite Hname. run_head. rewrite Hmiss.
  unfold resolver_isCoreModule, resolver_getModule, resolver_getMockModule.
  run_head. rewrite Hcore. do 2 run_head. rewrite Hhaste, Hmock.
  cbn [negb andb]. run_head. cbn [truthy_str String.eqb negb andb].
  unfold _resolveModule. cbn [truthy_opt truthy_str String.eqb negb].
  do 3 run_head. rewrite ?Hhaste, ?Hmock. run_head.
  cbv iota beta. run_head.
  rewrite !js_or_empty. simpl. eexists. split; [reflexivity|]. by split.
Qed.

Lemma resolved_more_virtualMocks s s1 :
  resolved_more s s1 → _virtualMocks (this s1) = _virtualMocks (this s).
Proof. intros (_ & (r' & Hthis & _) & _). by rewrite Hthis. Qed.

Lemma resolved_more_explicitShouldMock s s1 :
  resolved_more s s1 →
  _explicitShouldMock (this s1) = _explicitShouldMock (this s).
Proof. intros (_ & (r' & Hthis & _) & _). by rewrite Hthis. Qed.

Lemma resolved_more_shouldAutoMock s s1 :
  resolved_more s s1 → _shouldAutoMock (this s1) = _shouldAutoMock (this s).
Proof. intros (_ & (r' & Hthis & _) & _). by rewrite Hthis. Qed.

Lemma explicitly_inv b from name s s1 :
  explicitly host b from name s = Ok tt s1 →
  ∃ id sA,
    _normalizeID host from (Some name) s = Ok id sA ∧
    s1 = on_this (fun r =>
           set_explicitShouldMock
             (<[id := b]> (_explicitShouldMock r)) r) sA.
Proof.
  intros H. unfold explicitly in H. step_ok H.
  cbv [modify] in H. injection H as <-. eauto.
Qed.

(** A virtual mock settles the question. *)
Lemma shouldMock_virtual from name s :
  is_Some (_virtualMocks (this s) !! _getVirtualMockPath host from name) →
  _shouldMock host from name s = Ok true s.
Proof.
  intros Hv. unfold _shouldMock. run_head.
  by rewrite bool_decide_eq_true_2.
Qed.

(** Without a virtual mock, an explicit flag on the id settles it. *)
Lemma shouldMock_explicit b from name s id :
  _virtualMocks (this s) !! _getVirtualMockPath host from name = None →
  normalizedIDCache (process s) !! normalizedKey from (Some name) = Some id →
  id ≠ "" →
  _explicitShouldMock (this s) !! id = Some b →
  _shouldMock host from name s = Ok b s.
Proof.
  intros Hv Hc Hid He. unfold _shouldMock. run_head. rewrite Hv.
  rewrite bool_decide_eq_false_2 by (by intros [? ?]).
  rewrite (bind_Ok _ _ _ _ _ (normalizeID_cached host _ _ _ _ Hc Hid)).
  run_head. by rewrite He.
Qed.

(** X11. [jest.mock(name)] and [jest.unmock(name)] decide the next
    [require(name)] of that file: once the flag is set (and [name] has no
    virtual mock), [_shouldMock] answers with the flag, whatever automock
    and the caches say, so [requireModuleOrMock] is [requireMock] after
    [jest.mock] and [requireModule] after [jest.unmock]. *)
Theorem require_after_explicitly self b from name s s1 :
  explicitly host b from name s = Ok tt s1 →
  _virtualMocks (this s) !! _getVirtualMockPath host from name = None →
  _shouldMock host from name s1 = Ok b s1 ∧
  requireModuleOrMock host deps self from name s1
  = (if b then requireMock host deps self from name
     else requireModule host deps self from (Some name) None) s1.
Proof.
  intros H Hv. apply explicitly_inv in H as (id & sA & Hid & ->).
  apply normalizeID_inv in Hid as (Hne & Hmore & Hc & _).
  assert (_shouldMock host from name
            (on_this (fun r =>
               set_explicitShouldMock
                 (<[id := b]> (_explicitShouldMock r)) r) sA)
          = Ok b (on_this (fun r =>
               set_explicitShouldMock
                 (<[id := b]> (_explicitShouldMock r)) r) sA)) as Hshould.
  { apply shouldMock_explicit with id; try done.
    - simpl. by rewrite (resolved_more_virtualMocks s sA).
    - simpl. by rewrite lookup_insert_eq. }
  split; [done|].
  unfold requireModuleOrMock. by rewrite (bind_Ok _ _ _ _ _ Hshould).
Qed.

(** X12. A virtual mock cannot be unmocked: after
    [jest.mock(name, factory, {virtual: true})] the module is mocked for
    that file, and it stays mocked whatever explicit flag is set for it
    afterwards ([jest.unmock] included), since the virtual mocks are looked
    at first and are never removed. *)
Theorem virtual_mock_is_mocked from name factory s s1 :
  setMock host from name factory (Some true) s = Ok tt s1 →
  _shouldMock host from name s1 = Ok true s1 ∧
  ∀ b s2, explicitly host b from name s1 = Ok tt s2 →
          _shouldMock host from name s2 = Ok true s2.
Proof.
  intros H. unfold setMock in H. cbn [Resolver.opt_true] in H.
  do 3 step_ok H. cbv [modify] in H. injection H as <-.
  apply normalizeID_inv in Hstep as (_ & Hmore & _).
  apply resolved_more_virtualMocks in Hmore. simpl in Hmore.
  assert (is_Some (_virtualMocks (this s0)
                     !! _getVirtualMockPath host from name)) as Hv.
  { rewrite Hmore, lookup_insert_eq. by eexists. }
  split; [by apply shouldMock_virtual|].
  intros b s2 H2. apply explicitly_inv in H2 as (id & sA & Hid & ->).
  apply normalizeID_inv in Hid as (_ & Hmore2 & _).
  apply resolved_more_virtualMocks in Hmore2. simpl in Hmore2.
  apply shouldMock_virtual. simpl. by rewrite Hmore2.
Qed.

(** X13. With automock off, a module that has no virtual mock and no
    explicit flag is not mocked: [require(name)] is [requireModule]. The
    id is computed first, so a name that does not resolve throws there. *)
Theorem require_with_automock_off self from name s id s1 :
  _shouldAutoMock (this s) = false →
  _virtualMocks (this s) !! _getVirtualMockPath host from name = None →
  _normalizeID host from (Some name) s = Ok id s1 →
  _explicitShouldMock (this s) !! id = None →
  _shouldMock host from name s = Ok false s1 ∧
  requireModuleOrMock host deps self from name s
  = requireModule host deps self from (Some name) None s1.
Proof.
  intros Hauto Hv Hid He.
  pose proof Hid as (_ & Hmore & _)%normalizeID_inv.
  assert (_shouldMock host from name s = Ok false s1) as Hshould.
  { unfold _shouldMock. run_head. rewrite Hv.
    rewrite bool_decide_eq_false_2 by (by intros [? ?]).
    rewrite (bind_Ok _ _ _ _ _ Hid). run_head.
    rewrite (resolved_more_explicitShouldMock s s1), He by done.
    unfold resolver_isCoreModule. do 3 run_head.
    by rewrite (resolved_more_shouldAutoMock s s1), Hauto by done. }
  split; [done|].
  unfold requireModuleOrMock. by rewrite (bind_Ok _ _ _ _ _ Hshould).
Qed.

Lemma try_catch_fmap_Ok {A B} (g : A → B) (m : M A) h s a s1 :
  m s = Ok a s1 → try_catch (g <$> m) h s = Ok (g a) s1.
Proof. intros H. unfold try_catch, fmap, M_fmap. by rewrite H. Qed.

Lemma resolved_more_trans s s1 s2 :
  resolved_more s s1 → resolved_more s1 s2 → resolved_more s s2.
Proof.
  intros (Hh1 & (r1 & Ht1 & Hs1) & Hu1) (Hh2 & (r2 & Ht2 & Hs2) & Hu2).
  split; [congruence|]. split; [|congruence].
  exists r2. split.
  - rewrite Ht2, Ht1. by destruct (this s).
  - rewrite Ht1 in Hs2. simpl in Hs2.
    destruct Hs1 as (? & ? & ?), Hs2 as (? & ? & ?).
    split_and!; congruence.
Qed.

(** What [_shouldMock] reads of the runtime is the same after ids were
    given and names resolved. *)
Lemma resolved_more_reads s s1 from name :
  resolved_more s s1 →
  _explicitShouldMock (this s1) = _explicitShouldMock (this s) ∧
  _shouldAutoMock (this s1) = _shouldAutoMock (this s) ∧
  _shouldUnmockTransitiveDependenciesCache (this s1)
  = _shouldUnmockTransitiveDependenciesCache (this s) ∧
  _shouldMockModuleCache (this s1) = _shouldMockModuleCache (this s) ∧
  _unmockList (this s1) = _unmockList (this s) ∧
  _transitiveShouldMock (this s1) = _transitiveShouldMock (this s) ∧
  Resolver.isCoreModule host (_resolver (this s1)) name
  = Resolver.isCoreModule host (_resolver (this s)) name ∧
  Resolver.getMockModule host (_resolver (this s1)) from name
  = Resolver.getMockModule host (_resolver (this s)) from name.
Proof.
  intros (_ & (r' & Hthis & Hstatic) & _). rewrite Hthis. simpl.
  split_and!; try done.
  - by apply isCoreModule_static.
  - by apply getMockModule_static.
Qed.

Lemma resolveModule_Err_inv from to s e s1 :
  _resolveModule host from to s = Err e s1 →
  process s1 = process s ∧ resolved_more s s1.
Proof.
  unfold _resolveModule, resolver_resolveModule.
  destruct (truthy_opt to); [|done].
  pose proof (resolveModule_static host (_resolver (this s)) from
                (default "" to) None) as Hstatic.
  destruct (Resolver.resolveModule host (_resolver (this s)) from
              (default "" to) None) as [[q|e'] r]; simpl; [done|].
  intros [= _ <-]. split; [done|]. split; [done|]. split; [|done].
  by exists r.
Qed.

(** Runs [_shouldMock] up to the resolution of the module, for a module
    that automock has to decide on: [Hid] is the call that gives the id,
    which leaves the state [sA]. *)
Ltac automock_decides Hun Hid sA :=
  let Hv := fresh in let He := fresh in let Hauto := fresh in
  let Hcore := fresh in let Htc := fresh in let Hmc := fresh in
  let HeA := fresh in let HautoA := fresh in let HtcA := fresh in
  let HmcA := fresh in let HcoreA := fresh in
  destruct Hun as (_ & Hv & He & Hauto & Hcore & Htc & Hmc);
  match type of Hid with
  | _normalizeID _ ?from (Some ?name) ?s = _ =>
      pose proof Hid as (_ & Hmore & _)%normalizeID_inv;
      destruct (resolved_more_reads s sA from name Hmore)
        as (HeA & HautoA & HtcA & HmcA & _ & _ & HcoreA & _)
  end;
  unfold _shouldMock; run_head; rewrite Hv;
  rewrite bool_decide_eq_false_2 by (by intros [? ?]);
  rewrite (bind_Ok _ _ _ _ _ Hid);
  run_head; rewrite HeA, He; unfold resolver_isCoreModule; do 3 run_head;
  rewrite HautoA, Hauto, HcoreA, Hcore, HtcA, bool_decide_eq_false_2 by done;
  cbn [negb orb];
  run_head; rewrite HmcA, Hmc; unfold resolver_getMockModule; run_head;
  rewrite ?bind_assoc.

Ltac automock_resolved Hres :=
  erewrite bind_Ok by (apply try_catch_fmap_Ok; exact Hres);
  cbv beta iota; run_head.

(** X14. Under automock, a module whose resolved path matches the
    [unmockedModulePathPatterns] is not mocked, and the verdict is
    remembered for its id. This holds of the first [require] of the module
    as of a later one: [_shouldMock] computes the id ([sA] is the state that
    leaves) and resolves the name once more ([sB]). *)
Theorem shouldMock_unmocked_path from name s id sA p sB :
  _normalizeID host from (Some name) s = Ok id sA →
  undecided host s from name id →
  _resolveModule host from (Some name) sA = Ok p sB →
  matches_unmockList host s p = true →
  ∃ s',
    _shouldMock host from name s = Ok false s' ∧
    _shouldMockModuleCache (this s') !! id = Some false ∧
    heap s' = heap s.
Proof.
  intros Hid Hun Hres Hlist.
  pose proof Hres as (_ & HmoreB)%resolveModule_Ok_inv.
  automock_decides Hun Hid sA. automock_resolved Hres.
  pose proof (resolved_more_trans _ _ _ Hmore HmoreB) as Hall.
  destruct (resolved_more_reads s sB from name Hall)
    as (_ & _ & _ & _ & Hlist' & _).
  unfold matches_unmockList in Hlist. rewrite Hlist', Hlist. run_head.
  eexists. split; [reflexivity|]. simpl. split; [by rewrite lookup_insert_eq|].
  by destruct Hall as (-> & _).
Qed.

(** X15. Unmocking is transitive: what a transitively unmocked file
    requires is not mocked either, and becomes transitively unmocked
    itself, so that the same holds for what it requires in turn. The ids
    are computed by [_shouldMock] itself: that of the module first, and,
    after the name is resolved, that of the requiring file [cur]. *)
Theorem shouldMock_transitive from name s id sA p sB cur sC :
  _normalizeID host from (Some name) s = Ok id sA →
  undecided host s from name id →
  _resolveModule host from (Some name) sA = Ok p sB →
  matches_unmockList host s p = false →
  _normalizeID host from None sB = Ok cur sC →
  _transitiveShouldMock (this s) !! cur = Some false →
  ∃ s',
    _shouldMock host from name s = Ok false s' ∧
    _transitiveShouldMock (this s') !! id = Some false ∧
    _shouldUnmockTransitiveDependenciesCache (this s')
      !! (from +:+ path_delimiter host +:+ id) = Some true ∧
    heap s' = heap s.
Proof.
  intros Hid Hun Hres Hlist Hcur Htrans.
  pose proof Hres as (_ & HmoreB)%resolveModule_Ok_inv.
  pose proof Hcur as (_ & HmoreC & _)%normalizeID_inv.
  automock_decides Hun Hid sA. automock_resolved Hres.
  pose proof (resolved_more_trans _ _ _ Hmore HmoreB) as HallB.
  pose proof (resolved_more_trans _ _ _ HallB HmoreC) as HallC.
  destruct (resolved_more_reads s sB from name HallB)
    as (_ & _ & _ & _ & Hlist' & _).
  destruct (resolved_more_reads s sC from name HallC)
    as (_ & _ & _ & _ & _ & Htrans' & _).
  unfold matches_unmockList in Hlist. rewrite Hlist', Hlist.
  rewrite (bind_Ok _ _ _ _ _ Hcur).
  do 2 run_head. rewrite Htrans', Htrans, bool_decide_eq_true_2 by done.
  cbn [orb]. do 2 run_head.
  eexists. split; [reflexivity|]. simpl.
  split; [by rewrite lookup_insert_eq|].
  split; [by rewrite lookup_insert_eq|].
  by destruct HallC as (-> & _).
Qed.

(** X16. Under automock, an ordinary module required by a file outside
    [node_modules] that is not transitively unmocked is mocked, unless its
    path matches the unmock patterns; the verdict is remembered. The ids are
    computed by [_shouldMock] itself, as for a first [require]. *)
Theorem shouldMock_automock from name s id sA p sB cur sC :
  _normalizeID host from (Some name) s = Ok id sA →
  undecided host s from name id →
  _resolveModule host from (Some name) sA = Ok p sB →
  matches_unmockList host s p = false →
  _normalizeID host from None sB = Ok cur sC →
  _transitiveShouldMock (this s) !! cur ≠ Some false →
  includes (NODE_MODULES host) from = false →
  ∃ s',
    _shouldMock host from name s = Ok true s' ∧
    _shouldMockModuleCache (this s') !! id = Some true ∧
    heap s' = heap s.
Proof.
  intros Hid Hun Hres Hlist Hcur Htrans Hfrom.
  pose proof Hres as (_ & HmoreB)%resolveModule_Ok_inv.
  pose proof Hcur as (_ & HmoreC & _)%normalizeID_inv.
  automock_decides Hun Hid sA. automock_resolved Hres.
  pose proof (resolved_more_trans _ _ _ Hmore HmoreB) as HallB.
  pose proof (resolved_more_trans _ _ _ HallB HmoreC) as HallC.
  destruct (resolved_more_reads s sB from name HallB)
    as (_ & _ & _ & _ & Hlist' & _).
  destruct (resolved_more_reads s sC from name HallC)
    as (_ & _ & _ & _ & _ & Htrans' & _).
  unfold matches_unmockList in Hlist. rewrite Hlist', Hlist.
  rewrite (bind_Ok _ _ _ _ _ Hcur).
  do 2 run_head. rewrite Htrans', bool_decide_eq_false_2, Hfrom by done.
  cbn [orb andb]. run_head.
  eexists. split; [reflexivity|]. simpl.
  split; [by rewrite lookup_insert_eq|].
  by destruct HallC as (-> & _).
Qed.

(** X17. Under automock, a module whose id can be computed but whose name
    cannot be resolved is mocked when it has a mock module (the verdict is
    remembered); when it has none, the resolver's error is thrown on. The
    second case needs an id given without the name being resolved in this
    runtime: the cache of ids is shared by the runtimes of the process. *)
Theorem shouldMock_unresolved from name s id sA e sB :
  _normalizeID host from (Some name) s = Ok id sA →
  undecided host s from name id →
  _resolveModule host from (Some name) sA = Err e sB →
  if truthy_opt (Resolver.getMockModule host (_resolver (this s)) from name)
  then ∃ s', _shouldMock host from name s = Ok true s' ∧
             _shouldMockModuleCache (this s') !! id = Some true ∧
             heap s' = heap s
  else _shouldMock host from name s = Err e sB.
Proof.
  intros Hid Hun Hres.
  pose proof Hres as (_ & HmoreB)%resolveModule_Err_inv.
  pose proof Hid as (_ & HmoreA & _)%normalizeID_inv.
  destruct (resolved_more_reads s sA from name HmoreA)
    as (_ & _ & _ & _ & _ & _ & _ & HmockA).
  pose proof (resolved_more_trans _ _ _ HmoreA HmoreB) as Hall.
  destruct (truthy_opt (Resolver.getMockModule host (_resolver (this s))
                          from name)) eqn:Hmock.
  - automock_decides Hun Hid sA.
    erewrite bind_Ok; cycle 1.
    { unfold try_catch, fmap, M_fmap. rewrite Hres, HmockA, Hmock.
      reflexivity. }
    cbv beta iota. run_head.
    eexists. split; [reflexivity|]. simpl.
    split; [by rewrite lookup_insert_eq|].
    by destruct Hall as (-> & _).
  - automock_decides Hun Hid sA.
    erewrite bind_Err; [reflexivity|].
    unfold try_catch, fmap, M_fmap. by rewrite Hres, HmockA, Hmock.
Qed.

Lemma resolved_more_static s s1 :
  resolved_more s s1 → same_static (_resolver (this s)) (_resolver (this s1)).
Proof. intros (_ & (r' & Hthis & Hstatic) & _). by rewrite Hthis. Qed.

(** X18. A core module is not loaded by the runtime: [requireModule] hands
    the name to node's own [require] and returns what that gives (or throws
    what that throws); the registries, the stores and the runtime are left
    as they were, and no module record is made. *)
Theorem requireModule_core_module self from name options s :
  name ≠ "" →
  Resolver.isCoreModule host (_resolver (this s)) name = true →
  ∃ s1,
    same_runtime s s1 ∧
    requireModule host deps self from (Some name) options s
    = lift_completion (node_require deps name) s1.
Proof.
  intros Hname Hcore.
  destruct (normalizeID_core host from name s Hcore)
    as (id & s1 & Hid & Hthis & Hheap).
  exists s1. split; [by split|].
  unfold requireModule. rewrite (bind_Ok _ _ _ _ _ Hid).
  do 4 run_head. unfold resolver_isCoreModule. run_head. cbv zeta.
  change (default "" (Some name)) with name.
  rewrite Hthis, Hcore. cbn [truthy_opt].
  rewrite (proj2 (truthy_str_true name)) by done. done.
Qed.

(** X19. [requireModule], and so [require.requireActual], loads the manual
    mock of a name that has one: for a name that is no haste module and no
    core module, the file it goes for is the mock module, not what the name
    resolves to; only a call from the runtime's own modules, a call made
    while that mock itself is running, and a name that was explicitly
    unmocked get the real module. *)
Theorem requireModule_manual_mock from name options s id sA mock :
  name ≠ "" →
  is_internal options = false →
  _normalizeID host from (Some name) s = Ok id sA →
  Resolver.isCoreModule host (_resolver (this s)) name = false →
  truthy_opt (Resolver.getModule host (_resolver (this s)) name None)
  = false →
  Resolver.getMockModule host (_resolver (this s)) from name = Some mock →
  mock ≠ "" →
  _isCurrentlyExecutingManualMock (this s) ≠ Some mock →
  _explicitShouldMock (this s) !! id ≠ Some false →
  requireModule_path host deps from (Some name) options s
  = Ok (ModulePath mock) sA.
Proof.
  intros Hname Hint Hid Hcore Hhaste Hmock Hne Hexec Hexp.
  pose proof Hid as (_ & Hmore & _)%normalizeID_inv.
  pose proof (resolved_more_static _ _ Hmore) as Hstatic.
  pose proof (resolved_more_explicitShouldMock _ _ Hmore) as He.
  assert (_isCurrentlyExecutingManualMock (this sA)
          = _isCurrentlyExecutingManualMock (this s)) as Hcur.
  { destruct Hmore as (_ & (r' & Hthis & _) & _). by rewrite Hthis. }
  unfold requireModule_path. rewrite (bind_Ok _ _ _ _ _ Hid).
  unfold resolver_getModule, resolver_getMockModule, resolver_isCoreModule.
  do 5 run_head. cbv zeta. change (default "" (Some name)) with name.
  rewrite (getModule_static host _ _ _ _ Hstatic),
    (getMockModule_static host _ _ _ _ Hstatic),
    (isCoreModule_static host _ _ _ Hstatic).
  rewrite Hhaste, Hmock, Hcore, Hint, Hcur, He.
  cbn [truthy_opt]. rewrite (proj2 (truthy_str_true name)) by done.
  rewrite (proj2 (truthy_str_true mock)) by done.
  rewrite !bool_decide_eq_false_2 by congruence.
  cbn [negb andb truthy_opt].
  rewrite (proj2 (truthy_str_true mock)) by done. done.
Qed.

(** X20. After the environment is torn down, requiring a file that is not
    registered runs nothing: the file is neither transformed nor executed,
    whatever the transformer would do; the call registers a record for it
    and returns the record's [exports], a fresh empty object. *)
Theorem requireModule_after_teardown self p options s :
  global (_environment (this s)) = None →
  is_Some (moduleRegistries (heap s) !! _moduleRegistry (this s)) →
  moduleRegistry_get (_moduleRegistry (this s)) p s = None →
  path_extname host p ≠ ".json" →
  path_extname host p ≠ ".node" →
  ∃ s',
    requireModule_load host deps self p options s
    = Ok (VObj (length (objects (heap s)))) s' ∧
    objects (heap s') !! length (objects (heap s)) = Some ∅ ∧
    moduleRegistry_get (_moduleRegistry (this s')) p s'
    = Some (length (modules (heap s))) ∧
    this s' = this s.
Proof.
  intros Hg [reg Hreg] Hmiss Hjson Hnode.
  unfold requireModule_load. run_head. rewrite Hmiss.
  rewrite (proj2 (String.eqb_neq _ _) Hjson),
    (proj2 (String.eqb_neq _ _) Hnode).
  do 3 run_head. unfold _execModule. run_head.
  cbn [this on_heap]. rewrite Hg. do 2 run_head.
  unfold moduleRegistry_get at 1.
  cbn [this heap on_heap moduleRegistries set_moduleRegistries
       set_modules set_objects].
  rewrite list_lookup_alter_eq, Hreg. cbn [fmap option_fmap option_map
    mbind option_bind]. rewrite lookup_insert_eq.
  unfold fmap at 1, M_fmap at 1.
  erewrite read_module_Ok by (cbn; by apply list_lookup_middle).
  eexists. split; [reflexivity|]. cbn.
  split; [by apply list_lookup_middle|]. split; [|done].
  unfold moduleRegistry_get. cbn.
  rewrite list_lookup_alter_eq, Hreg. cbn. by rewrite lookup_insert_eq.
Qed.

(** X21. A [.json] file is not executed: on a registry miss its text is
    read and parsed, and the parsed value becomes the [exports] of the
    record registered for the file, which is what the call returns; the
    runtime is otherwise unchanged. *)
Theorem requireModule_json self p options s text v objs :
  is_Some (moduleRegistries (heap s) !! _moduleRegistry (this s)) →
  moduleRegistry_get (_moduleRegistry (this s)) p s = None →
  path_extname host p = ".json" →
  is_Some (global (_environment (this s))) →
  fs_readFileSync deps p = Normal text →
  JSON_parse deps text (objects (heap s) ++ [∅]) = Normal (v, objs) →
  ∃ s' m,
    requireModule_load host deps self p options s = Ok v s' ∧
    moduleRegistry_get (_moduleRegistry (this s')) p s'
    = Some (length (modules (heap s))) ∧
    modules (heap s') !! length (modules (heap s)) = Some m ∧
    exports m = v ∧ filename m = p ∧
    objects (heap s') = objs ∧
    this s' = this s.
Proof.
  intros [reg Hreg] Hmiss Hjson [g Hg] Hread Hparse.
  unfold requireModule_load. run_head. rewrite Hmiss, Hjson.
  cbn [String.eqb Ascii.eqb Bool.eqb andb].
  do 4 run_head. cbn [this on_heap]. rewrite Hg, Hread.
  do 2 run_head. cbn [heap on_heap objects set_objects set_modules
                      set_moduleRegistries].
  rewrite Hparse. run_head. cbv iota beta. do 3 run_head.
  unfold moduleRegistry_get at 1.
  cbn [this heap on_heap moduleRegistries set_moduleRegistries
       set_modules set_objects].
  rewrite list_lookup_alter_eq, Hreg. cbn [fmap option_fmap option_map
    mbind option_bind]. rewrite lookup_insert_eq.
  unfold fmap at 1, M_fmap at 1.
  erewrite read_module_Ok
    by (cbn; by rewrite list_lookup_alter_eq, list_lookup_middle).
  do 2 eexists. split; [reflexivity|]. cbn.
  split.
  { unfold moduleRegistry_get. cbn.
    rewrite list_lookup_alter_eq, Hreg. cbn. by rewrite lookup_insert_eq. }
  split; [by rewrite list_lookup_alter_eq, list_lookup_middle|done].
Qed.

(** X22. Only a name that is not explicitly unmocked, asked for by a
    module that is not one of the runtime's own, can get its manual mock
    from [requireModule]: for an internal call, and after
    [jest.unmock(name)], the file [requireModule] goes for is the one the
    name resolves to, whatever mock module the name has. *)
Theorem requireModule_real_module from name options s id sA p s1 :
  name ≠ "" →
  _normalizeID host from (Some name) s = Ok id sA →
  Resolver.isCoreModule host (_resolver (this s)) name = false →
  is_internal options = true
  ∨ _explicitShouldMock (this s) !! id = Some false →
  _resolveModule host from (Some name) sA = Ok p s1 →
  requireModule_path host deps from (Some name) options s
  = Ok (ModulePath p) s1.
Proof.
  intros Hname Hid Hcore Hwhy Hres.
  pose proof Hid as (_ & Hmore & _)%normalizeID_inv.
  pose proof (resolved_more_static _ _ Hmore) as Hstatic.
  pose proof (resolved_more_explicitShouldMock _ _ Hmore) as He.
  unfold requireModule_path. rewrite (bind_Ok _ _ _ _ _ Hid).
  unfold resolver_getModule, resolver_getMockModule, resolver_isCoreModule.
  do 5 run_head. cbv zeta. change (default "" (Some name)) with name.
  rewrite (isCoreModule_static host _ _ _ Hstatic), Hcore, He.
  rewrite andb_false_r.
  match goal with
  | |- context [truthy_opt (if ?c then _ else None)] =>
      assert (c = false) as ->
  end.
  { destruct Hwhy as [Hint|Hexp].
    - by rewrite Hint.
    - rewrite Hexp, (bool_decide_eq_true_2 (Some false = Some false))
        by done.
      cbn [negb].
      by rewrite !andb_false_r. }
  cbn [truthy_opt]. unfold fmap, M_fmap. by rewrite Hres.
Qed.

(** X23. Automock metadata is taken once per path: when the cache has
    metadata for the path a name resolves to, [_generateMock] builds the
    mock from it and loads nothing, whatever the module would export now
    (a runtime with no fuel left gives the same). *)
Theorem generateMock_from_cache self from name s p s1 meta :
  _resolveModule host from (Some name) s = Ok p s1 →
  _mockMetaDataCache (this s) !! p = Some meta →
  _generateMock host deps self from name s
  = Ok (generateFromMetadata deps meta (objects (heap s))).1
       (on_heap
          (set_objects
             (generateFromMetadata deps meta (objects (heap s))).2) s1).
Proof.
  intros Hres Hmeta.
  pose proof Hres as (_ & Hheap & (r' & Hthis & _) & _)%resolveModule_Ok_inv.
  unfold _generateMock. rewrite (bind_Ok _ _ _ _ _ Hres). unfold Path in *.
  run_head. rewrite Hthis. cbn [_mockMetaDataCache set_resolver].
  rewrite Hmeta, bool_decide_eq_true_2 by (by eexists).
  do 3 run_head. rewrite Hthis. cbn [_mockMetaDataCache set_resolver].
  rewrite Hmeta, Hheap. cbn [mjoin option_join].
  by destruct (generateFromMetadata deps meta (objects (heap s))).
Qed.

(** [_shouldMock] looks at the runtime and at the ids, not at the stores. *)
Lemma shouldMock_true_after_setMock from name s id :
  normalizedIDCache (process s) !! normalizedKey from (Some name) = Some id →
  id ≠ "" →
  _explicitShouldMock (this s) !! id = Some true →
  _shouldMock host from name s = Ok true s.
Proof.
  intros Hc Hid He.
  destruct (_virtualMocks (this s) !! _getVirtualMockPath host from name)
    as [b|] eqn:Hv.
  - apply shouldMock_virtual. rewrite Hv. by eexists.
  - by apply shouldMock_explicit with id.
Qed.

Lemma setMock_inv from name factory s s1 :
  setMock host from name factory None s = Ok tt s1 →
  ∃ id sA,
    _normalizeID host from (Some name) s = Ok id sA ∧
    s1 = on_this (fun r =>
           set_mockFactories (<[id := factory]> (_mockFactories r)) r)
           (on_this (fun r =>
              set_explicitShouldMock
                (<[id := true]> (_explicitShouldMock r)) r) sA).
Proof.
  intros H. unfold setMock in H. cbn [Resolver.opt_true] in H.
  do 3 step_ok H. cbv [modify] in H. injection H as <-. eauto.
Qed.

(** X24. [jest.setMock(name, v)] makes [require(name)] of that file give
    [v]: with no mock registered for the name yet, the next
    [requireModuleOrMock] returns [v], whatever automock, the virtual
    mocks and the resolver say about the name and without loading any
    file; [v] is registered, so that the requires after it give [v] as
    well (when [v] is truthy; a falsy mock is made anew each time). *)
Theorem setMock_then_require self from name ctx v s s1 :
  setMock host from name {| cl_ctx := ctx; cl_body := Ret v |} None s
  = Ok tt s1 →
  is_Some (mockRegistries (heap s1) !! _mockRegistry (this s1)) →
  (∀ id w, mockRegistry_get (_mockRegistry (this s1)) id s1 = Some w →
           truthy w = false) →
  ∃ s2,
    requireModuleOrMock host deps self from name s1 = Ok v s2 ∧
    (truthy v = true →
     requireModuleOrMock host deps self from name s2 = Ok v s2).
Proof.
  intros H [reg Hreg] Hfalsy.
  apply setMock_inv in H as (id & sA & Hid & Hs1).
  apply normalizeID_inv in Hid as (Hid & _ & Hc & _).
  assert (normalizedIDCache (process s1)
            !! normalizedKey from (Some name) = Some id) as Hc1
    by (by rewrite Hs1).
  assert (_explicitShouldMock (this s1) !! id = Some true) as He1.
  { rewrite Hs1. simpl. by rewrite lookup_insert_eq. }
  assert (_mockFactories (this s1) !! id
          = Some {| cl_ctx := ctx; cl_body := Ret v |}) as Hf1.
  { rewrite Hs1. simpl. by rewrite lookup_insert_eq. }
  clear Hs1 Hc.
  assert (_shouldMock host from name s1 = Ok true s1) as Hshould
    by (by apply shouldMock_true_after_setMock with id).
  assert (truthy (default VUndefined
            (mockRegistry_get (_mockRegistry (this s1)) id s1)) = false)
    as Hmiss.
  { destruct (mockRegistry_get (_mockRegistry (this s1)) id s1) as [w|]
      eqn:Hw; [|done]. by apply (Hfalsy id). }
  eexists. split.
  - unfold requireModuleOrMock. rewrite (bind_Ok _ _ _ _ _ Hshould).
    unfold requireMock.
    rewrite (bind_Ok _ _ _ _ _ (normalizeID_cached host _ _ _ _ Hc1 Hid)).
    run_head. rewrite Hmiss. run_head. rewrite Hf1.
    do 3 run_head. reflexivity.
  - intros Hv.
    unfold requireModuleOrMock.
    erewrite bind_Ok; cycle 1.
    { by apply shouldMock_true_after_setMock with id. }
    unfold requireMock.
    erewrite bind_Ok; cycle 1.
    { by apply normalizeID_cached. }
    run_head.
    assert (mockRegistry_get (_mockRegistry (this s1)) id
              (on_heap (fun h =>
                 set_mockRegistries
                   (alter (insert id v) (_mockRegistry (this s1))
                      (mockRegistries h)) h) s1) = Some v) as Hhit.
    { unfold mockRegistry_get. simpl.
      rewrite list_lookup_alter_eq, Hreg. simpl.
      by rewrite lookup_insert_eq. }
    cbn [this on_heap]. rewrite Hhit. simpl. by rewrite Hv.
Qed.

End RuntimeMore.

(** ** What no operation undoes *)

Section Persistence.
Import Runtime.
Context (host : NodeHost) (deps : Deps).

Lemma registers_keeps a p : keeps host (registers a p) any any.
Proof.
  split; unfold registers; simpl; try done.
  - intros f s Hm _ (c & Hc & Hp). rewrite Hm. eauto.
  - intros s (c & Hc & Hp). split; [|done]. exists c. split; [|done].
    apply lookup_lt_Some in Hc as Hlt. by rewrite lookup_app_l.
  - intros key l s (c & Hc & Hp).
    destruct (decide (_moduleRegistry (this s) = a)) as [->|Hne].
    + exists (<[key := l]> c). rewrite list_lookup_alter_eq, Hc.
      split; [done|].
      destruct (decide (key = p)) as [->|Hk].
      * rewrite lookup_insert_eq. by eexists.
      * by rewrite lookup_insert_ne.
    + exists c. by rewrite list_lookup_alter_ne.
Qed.

Lemma registers_mock_keeps a id : keeps host (registers_mock a id) any any.
Proof.
  split; unfold registers_mock; simpl; try done.
  - intros f s _ Hm (c & Hc & Hp). rewrite Hm. eauto.
  - intros s (c & Hc & Hp). split; [|done]. exists c. split; [|done].
    apply lookup_lt_Some in Hc as Hlt. by rewrite lookup_app_l.
  - intros b key v s _ (c & Hc & Hp).
    destruct (decide (b = a)) as [->|Hne].
    + exists (<[key := v]> c). rewrite list_lookup_alter_eq, Hc.
      split; [done|].
      destruct (decide (key = id)) as [->|Hk].
      * rewrite lookup_insert_eq. by eexists.
      * by rewrite lookup_insert_ne.
    + exists c. by rewrite list_lookup_alter_ne.
Qed.

Lemma resolver_over_keeps r : keeps host (resolver_over r) any any.
Proof.
  split; unfold resolver_over; simpl; try done.
  - intros f s _ _ Hr H. by rewrite Hr.
  - intros from to s (Ho & Hm & Hn).
    destruct (resolveModule_static host (_resolver (this s)) from to None)
      as (Ho' & Hm' & Hn').
    unfold same_static. by rewrite Ho', Hm', Hn'.
  - intros from s H.
    assert (same_static (_resolver (this s))
              (Resolver.getModulePaths host (_resolver (this s)) from).2)
      as (Ho' & Hm' & Hn').
    { unfold Resolver.getModulePaths.
      by destruct (Resolver._modulePathCache _ !! _). }
    destruct H as (Ho & Hm & Hn).
    unfold same_static. by rewrite Ho', Hm', Hn'.
Qed.

Lemma hoare_ends_in {A} Inv (m : M A) s :
  hoare Inv m any → Inv s → ends_in (m s) Inv.
Proof.
  intros Hm Hs. specialize (Hm s Hs). unfold ends_in.
  destruct (m s); [by destruct Hm|done..].
Qed.

(** X25. Registries only grow: whatever a module body does (requiring
    other modules or mocks, generating automocks, the calls on [jest],
    [jest.resetModuleRegistry] among them), an entry that a module
    registry or a mock registry has when the body starts is still there
    when the body ends, by returning or by throwing. A reset replaces the
    runtime's registries, it empties none. *)
Theorem registry_entries_stay fuel ctx body s :
  (∀ a p, registers a p s →
     ends_in (run host (ops host deps fuel) ctx body s) (registers a p)) ∧
  (∀ a id, registers_mock a id s →
     ends_in (run host (ops host deps fuel) ctx body s)
       (registers_mock a id)).
Proof.
  split.
  - intros a p. apply hoare_ends_in.
    apply (run_ok host _ _ _ (registers_keeps a p)).
    apply (ops_keep host deps _ _ _ (registers_keeps a p)).
  - intros a id. apply hoare_ends_in.
    apply (run_ok host _ _ _ (registers_mock_keeps a id)).
    apply (ops_keep host deps _ _ _ (registers_mock_keeps a id)).
Qed.

(** X26. The haste map and the options of the runtime's resolver are fixed:
    no module body changes them, it at most fills the resolver's caches. *)
Theorem resolver_stays_over fuel ctx body s :
  ends_in (run host (ops host deps fuel) ctx body s)
    (resolver_over (_resolver (this s))).
Proof.
  apply hoare_ends_in; [|done].
  apply (run_ok host _ _ _ (resolver_over_keeps (_resolver (this s)))).
  apply (ops_keep host deps _ _ _
           (resolver_over_keeps (_resolver (this s)))).
Qed.

(** Proves that straight-line code over the primitives keeps [K]'s
    invariant. *)
Ltac keeps_inv K Hself :=
  repeat first
    [ apply hoare_ret; done
    | apply hoare_throw
    | apply hoare_gets
    | apply hoare_lift_completion
    | apply hoare_read_module
    | apply (hoare_write_module _ _ _ _ K)
    | apply (hoare_modify_heap _ _ _ _ K); done
    | apply (execModule_ok _ _ _ _ _ K _ Hself)
    | apply hoare_fmap
    | eapply hoare_bind; [|intros ? _]
    | match goal with
      | |- hoare _ (match ?x with _ => _ end) _ => destruct x
      | |- hoare _ (let '(_, _) := ?x in _) _ => destruct x
      end ].

(** X27. [requireModule] never leaves the file unregistered: when its
    second half ends, by returning or by throwing, the registry that was
    current when it started has an entry for the path. So a module whose
    body threw stays registered with what it had exported so far. *)
Theorem load_leaves_registered fuel p options s :
  is_Some (moduleRegistries (heap s) !! _moduleRegistry (this s)) →
  ends_in (requireModule_load host deps (ops host deps fuel) p options s)
    (registers (_moduleRegistry (this s)) p).
Proof.
  intros [reg Hreg].
  pose proof (registers_keeps (_moduleRegistry (this s)) p) as K.
  pose proof (ops_keep host deps _ _ _ K fuel) as Hself.
  unfold requireModule_load. run_head.
  destruct (moduleRegistry_get (_moduleRegistry (this s)) p s) as [l|]
    eqn:Hl.
  - apply hoare_ends_in.
    + unfold typeError. keeps_inv K Hself.
    + unfold moduleRegistry_get in Hl. rewrite Hreg in Hl.
      exists reg. split; [done|]. by eexists.
  - do 3 run_head. apply hoare_ends_in.
    + unfold typeError. keeps_inv K Hself.
    + exists (<[p := length (modules (heap s))]> reg). simpl.
      rewrite list_lookup_alter_eq, Hreg. simpl.
      split; [done|]. rewrite lookup_insert_eq. by eexists.
Qed.

End Persistence.

(** ** Ids are kept

    The cache of ids is written by [_normalizeID] alone, at a key that
    holds no id yet, so that an id once given stays whatever runs. *)

Section Ids.
Import Runtime.
Context (host : NodeHost) (deps : Deps) (k v : string) (Hv : v ≠ "").
Local Abbreviation hoare := (hoare (has_id k v)).
Local Abbreviation ops_ok := (ops_ok (has_id k v)).

Lemma ids_normalizeID from moduleName :
  hoare (_normalizeID host from moduleName) any.
Proof.
  intros s Hs.
  destruct (_normalizeID host from moduleName s) as [id s1|e s1|] eqn:H;
    [| |done].
  - split; [|done].
    destruct (decide (k = normalizedKey host from moduleName)) as [->|Hne].
    + rewrite (normalizeID_cached host from moduleName s v Hs Hv) in H.
      by injection H as <- <-.
    + apply normalizeID_inv in H as (_ & _ & _ & Hother).
      unfold has_id. by rewrite Hother.
  - apply normalizeID_throws in H. unfold has_id. by rewrite H.
Qed.

Create HintDb ids.

(** A primitive that leaves the process-wide caches alone. *)
Ltac ids_prim :=
  let s := fresh "s" in
  let Hs := fresh "Hs" in
  intros s Hs;
  cbv [gets modify alloc_object alloc_module alloc_moduleRegistry
       alloc_mockRegistry read_module write_module moduleRegistry_lookup
       mockRegistry_lookup mockRegistry_set moduleRegistry_store
       mockRegistry_store getProp setProp typeError throw out_of_fuel
       resolver_getModule resolver_getMockModule resolver_isCoreModule
       lift_completion mret M_ret];
  repeat case_match; simplify_eq;
  first [exact I | assumption | split; [assumption|exact I]].

Ltac istep :=
  cbv beta zeta;
  lazymatch goal with
  | |- hoare (mret _) _ => apply hoare_ret; exact I
  | |- hoare (mbind _ _) _ => eapply (hoare_bind _ _ _ any); [ | intros ? _]
  | |- hoare (fmap _ _) _ => apply hoare_fmap
  | |- hoare (try_catch _ _) _ => apply hoare_try_catch; [ | intros ?]
  | |- hoare (_normalizeID _ _ _) _ => apply ids_normalizeID
  | |- hoare (if ?b then _ else _) _ => destruct b
  | |- hoare (match ?x with _ => _ end) _ => destruct x
  | |- hoare _ _ => first [solve [eauto with ids] | ids_prim]
  end.

Ltac isteps := repeat istep.

Lemma ids_resolveModule from to : hoare (_resolveModule host from to) any.
Proof.
  intros s Hs. unfold _resolveModule, resolver_resolveModule.
  destruct (truthy_opt to); [|done].
  by destruct (Resolver.resolveModule host (_resolver (this s)) from
                 (default "" to) None) as [[p|e] r].
Qed.
#[local] Hint Resolve ids_resolveModule : ids.

Lemma ids_getModulePaths from : hoare (resolver_getModulePaths host from) any.
Proof.
  intros s Hs. unfold resolver_getModulePaths.
  by destruct (Resolver.getModulePaths host (_resolver (this s)) from).
Qed.
#[local] Hint Resolve ids_getModulePaths : ids.

Lemma ids_shouldMock from moduleName :
  hoare (_shouldMock host from moduleName) any.
Proof. unfold _shouldMock. isteps. Qed.
#[local] Hint Resolve ids_shouldMock : ids.

Lemma ids_resetModuleRegistry : hoare resetModuleRegistry any.
Proof. unfold resetModuleRegistry. isteps. Qed.
#[local] Hint Resolve ids_resetModuleRegistry : ids.

Lemma ids_setMock from moduleName mockFactory options :
  hoare (setMock host from moduleName mockFactory options) any.
Proof. unfold setMock. isteps. Qed.
#[local] Hint Resolve ids_setMock : ids.

Lemma ids_explicitly b from moduleName :
  hoare (explicitly host b from moduleName) any.
Proof. unfold explicitly. isteps. Qed.
#[local] Hint Resolve ids_explicitly : ids.

Lemma ids_runScript script filename :
  hoare (_runScript host deps script filename) any.
Proof. unfold _runScript. isteps. Qed.
#[local] Hint Resolve ids_runScript : ids.

Section WithOps.
Context (self : Ops) (Hself : ops_ok self).

Lemma ids_self_requireModuleOrMock from moduleName :
  hoare (o_requireModuleOrMock self from moduleName) any.
Proof. apply Hself. Qed.

Lemma ids_self_requireModule from moduleName options :
  hoare (o_requireModule self from moduleName options) any.
Proof. apply Hself. Qed.

Lemma ids_self_requireMock from moduleName :
  hoare (o_requireMock self from moduleName) any.
Proof. apply Hself. Qed.

Lemma ids_self_generateMock from moduleName :
  hoare (o_generateMock self from moduleName) any.
Proof. apply Hself. Qed.

#[local] Hint Resolve ids_self_requireModuleOrMock ids_self_requireModule
  ids_self_requireMock ids_self_generateMock : ids.

Lemma ids_run p : ∀ ctx, hoare (run host self ctx p) any.
Proof. induction p; intros ctx; simpl; isteps. Qed.
#[local] Hint Resolve ids_run : ids.

Lemma ids_execModule localModule options :
  hoare (_execModule host deps self localModule options) any.
Proof. unfold _execModule. isteps. Qed.
#[local] Hint Resolve ids_execModule : ids.

Lemma ids_requireModule from moduleName options :
  hoare (requireModule host deps self from moduleName options) any.
Proof. unfold requireModule. isteps. Qed.
#[local] Hint Resolve ids_requireModule : ids.

Lemma ids_generateMock from moduleName :
  hoare (_generateMock host deps self from moduleName) any.
Proof. unfold _generateMock. isteps. Qed.
#[local] Hint Resolve ids_generateMock : ids.

Lemma ids_requireMock from moduleName :
  hoare (requireMock host deps self from moduleName) any.
Proof. unfold requireMock. isteps. Qed.
#[local] Hint Resolve ids_requireMock : ids.

Lemma ids_requireModuleOrMock from moduleName :
  hoare (requireModuleOrMock host deps self from moduleName) any.
Proof. unfold requireModuleOrMock. isteps. Qed.

End WithOps.

Lemma ids_ops fuel : ops_ok (ops host deps fuel).
Proof.
  induction fuel as [|fuel IH].
  - split; intros; simpl; apply hoare_out_of_fuel.
  - split; intros; simpl.
    + by apply ids_requireModuleOrMock.
    + by apply ids_requireModule.
    + by apply ids_requireMock.
    + by apply ids_generateMock.
Qed.

(** X28. An id once given is kept: whatever a module body does, an id that
    the process-wide cache holds when the body starts is still there, for
    the same key, when the body ends, by returning or by throwing. *)
Theorem ids_stay fuel ctx body s :
  has_id k v s →
  ends_in (run host (ops host deps fuel) ctx body s) (has_id k v).
Proof.
  apply hoare_ends_in. apply ids_run, ids_ops.
Qed.

End Ids.

(** ** The constructor again *)

Section ConstructorMore.
Import Runtime.
Context (host : NodeHost) (deps : Deps).

(** X29. The unmock regular expression is made once per config: when
    the constructor has set its fields, the runtime's [_unmockList] is what
    the process-wide cache holds for its config, and a runtime constructed
    later for the same config gets that very expression without building
    one, whatever the config's [unmockedModulePathPatterns] are by then,
    also when they are no regular expression. *)
Theorem constructed_shares_unmockList config environment resolver h p s :
  constructed host config environment resolver h p = Normal s →
  _unmockList (this s)
  = unmockRegExpCache (process s) !! config_identity config ∧
  ∀ config' environment' resolver' h',
    config_identity config' = config_identity config →
    mocksPattern config' = mocksPattern config →
    testRegex config' = testRegex config →
    is_Some (_unmockList (this s)) →
    ∃ s',
      constructed host config' environment' resolver' h' (process s)
      = Normal s' ∧
      _unmockList (this s') = _unmockList (this s).
Proof.
  intros Hc. unfold constructed in Hc.
  destruct (match mocksPattern config with
            | Some pattern =>
                if truthy_str pattern
                then completion_bind (regexp_new host pattern)
                       (fun re => Normal (Some re))
                else Normal None
            | None => Normal None
            end) as [mp|] eqn:Hmp; [|done].
  cbn [completion_bind] in Hc.
  destruct (regexp_new host
              (String.concat (path_sep host) (split_slash (testRegex config))))
    as [tr|] eqn:Htr; [|done].
  cbn [completion_bind] in Hc.
  assert (_unmockList (this s)
          = unmockRegExpCache (process s) !! config_identity config)
    as Hcached.
  { destruct (unmockRegExpCache p !! config_identity config) as [re|]
      eqn:Hcache.
    - injection Hc as <-. cbn. rewrite Hcache. cbn. by rewrite Hcache.
    - destruct (unmockedModulePathPatterns config) as [patterns|].
      + destruct (regexp_new host (String.concat "|" patterns)) as [re|];
          [|done].
        injection Hc as <-. cbn. rewrite Hcache. cbn.
        by rewrite lookup_insert_eq.
      + injection Hc as <-. cbn. rewrite Hcache. cbn. by rewrite Hcache. }
  split; [done|].
  - intros config' environment' resolver' h' Hsame Hmp' Htr' [re Hre].
    unfold constructed. rewrite Hmp', Hmp, Htr', Htr, Hsame.
    rewrite <- Hcached, Hre. cbn [completion_bind].
    eexists. split; [reflexivity|]. done.
Qed.

(** X30. With no setup files the constructor loads nothing, whatever fuel
    it has. When its regular expressions compile it returns a runtime whose
    two registries are fresh and empty, with the stores of objects and
    module records, and the cache of ids, as it found them; when one does
    not, it throws that [SyntaxError]. *)
Theorem constructor_without_setup_files fuel config environment resolver
    h p :
  setupFiles config = [] →
  match constructed host config environment resolver h p with
  | Abrupt e =>
      constructor host deps fuel config environment resolver h p = Abrupt e
  | Normal _ =>
      ∃ s',
        constructor host deps fuel config environment resolver h p
        = Normal (Ok tt s') ∧
        moduleRegistries (heap s') !! _moduleRegistry (this s') = Some ∅ ∧
        mockRegistries (heap s') !! _mockRegistry (this s') = Some ∅ ∧
        objects (heap s') = objects h ∧
        modules (heap s') = modules h ∧
        normalizedIDCache (process s') = normalizedIDCache p
  end.
Proof.
  intros Hnone. unfold constructor.
  destruct (constructed host config environment resolver h p) as [s|e]
    eqn:Hc; [|done].
  apply constructed_inv in Hc as (mp & tr & ul & ->).
  cbn [completion_bind]. rewrite Hnone. cbn [forEach length].
  run_head. unfold resetModuleRegistry. do 5 run_head.
  rewrite bool_decide_eq_false_2 by (intros Hne; by apply Hne).
  destruct (global (_environment _)) as [g|]; run_head;
    (eexists; split; [reflexivity|]); cbn;
    by rewrite !list_lookup_middle.
Qed.

End ConstructorMore.

(** * The properties at work on the example host *)

Section Examples.
Import Runtime.

(** Two files that require each other: the inner module sees the value the
    outer one had assigned before it required it, the caller the value
    assigned after. *)
Example circular_require_sees_partial_exports :
  match requireModule Demo.circular_host Demo.circular_deps
          (ops Demo.circular_host Demo.circular_deps 3)
          "/proj/a.js" None None
          (Demo.fresh Demo.circular_host Demo.noHaste false)
  with
  | Ok v s' =>
      v = VObj 0 ∧
      Demo.prop_of s' 0 "v" = Some (VNum 2) ∧
      Demo.prop_of s' 0 "sawB" = Some (VNum 20) ∧
      Demo.prop_of s' 1 "v" = Some (VNum 20) ∧
      Demo.prop_of s' 1 "sawA" = Some (VNum 1)
  | _ => False
  end.
Proof. vm_compute. repeat split; reflexivity. Qed.



Lemma requireModule_unnamed_loads_from_witness :
  _resolveModule Demo.circular_host "/proj/a.js" None
    (Demo.fresh Demo.circular_host Demo.noHaste false)
  = Ok "/proj/a.js" (Demo.fresh Demo.circular_host Demo.noHaste false).
Proof.
  exact (proj1 (requireModule_unnamed_loads_from Demo.circular_host
                  Demo.circular_deps
                  (ops Demo.circular_host Demo.circular_deps 3)
                  "/proj/a.js" None None
                  (Demo.fresh Demo.circular_host Demo.noHaste false)
                  eq_refl)).
Defined.

(** The example runtimes are what the constructor sets up. *)
Example fresh_is_constructed resolutions haste automock :
  constructed (Demo.host resolutions) (Demo.config automock [])
    Demo.environment (Resolver.constructor haste Demo.resolverConfig)
    Demo.emptyStore Demo.emptyProcess
  = Normal (Demo.fresh (Demo.host resolutions) haste automock).
Proof. reflexivity. Qed.

(** Constructing a runtime for a config with one setup file runs the file:
    the runtime that comes out has the file's exports, with the property
    the file has set. *)
Example constructor_runs_setup_file :
  match constructor (Demo.host []) Demo.setup_deps 2 Demo.setup_config
          Demo.environment Demo.plain_resolver Demo.emptyStore
          Demo.emptyProcess
  with
  | Normal (Ok tt s') =>
      moduleRegistry_get (_moduleRegistry (this s')) "/proj/setup.js" s'
      = Some 0 ∧
      exports <$> modules (heap s') !! 0 = Some (VObj 0) ∧
      Demo.prop_of s' 0 "ready" = Some (VBool true)
  | _ => False
  end.
Proof. vm_compute. repeat split; reflexivity. Qed.

Lemma constructor_requires_setup_files_witness :
  ∃ s0 s1 s_b l e,
    moduleRegistries (heap s0) !! _moduleRegistry (this s0) = Some ∅ ∧
    constructor (Demo.host []) Demo.setup_deps 2 Demo.setup_config
      Demo.environment Demo.plain_resolver Demo.emptyStore Demo.emptyProcess
    = Normal (requireEach (Demo.host []) Demo.setup_deps
                (ops (Demo.host []) Demo.setup_deps 2) ["/proj/setup.js"]
                s0) ∧
    requireEach (Demo.host []) Demo.setup_deps
      (ops (Demo.host []) Demo.setup_deps 2) ["/proj/setup.js"] s0
    = (run (Demo.host []) (ops (Demo.host []) Demo.setup_deps 2)
         {| c_from := "/proj/setup.js"; c_module := l; c_options := None |}
         (Demo.setup (VObj e) "/proj" "/proj/setup.js");;
       after_body "/proj/setup.js" s1;;
       requireEach (Demo.host []) Demo.setup_deps
         (ops (Demo.host []) Demo.setup_deps 2) []) s_b ∧
    moduleRegistry_get (_moduleRegistry (this s_b)) "/proj/setup.js" s_b
    = Some l.
Proof.
  destruct (constructor_requires_setup_files (Demo.host []) Demo.setup_deps
              2 Demo.setup_config Demo.environment Demo.plain_resolver
              Demo.emptyStore Demo.emptyProcess
              (Demo.fresh_for Demo.setup_config) eq_refl)
    as (s0 & _ & _ & Hmod & Heq & Hruns).
  destruct (Hruns "/proj/setup.js" [] {| script_id := 0 |} Demo.setup)
    as (s1 & s_b & l & e & _ & Hrun & Hl & _).
  - reflexivity.
  - vm_compute. discriminate.
  - vm_compute. discriminate.
  - by eexists.
  - reflexivity.
  - reflexivity.
  - exists s0, s1, s_b, l, e. split; [exact Hmod|]. split; [exact Heq|].
    split; [exact Hrun|exact Hl].
Defined.

(** C10 fails as stated for a config whose mocks pattern is no regular
    expression: the constructor throws the [SyntaxError] of [new RegExp]
    and requires no setup file. *)
Lemma constructor_requires_setup_files_counterexample :
  setupFiles Demo.broken_config = ["/proj/setup.js"] ∧
  constructor (Demo.host []) Demo.setup_deps 2 Demo.broken_config
    Demo.environment Demo.plain_resolver Demo.emptyStore Demo.emptyProcess
  = Abrupt (JsError "SyntaxError"
              "Invalid regular expression: /(/: Unterminated group" None).
Proof. split; reflexivity. Qed.

(** Automock generation runs the module and what it requires, and leaves
    the module registry as empty as it was. *)
Lemma generateMock_restores_registries_witness :
  ∃ v s',
    _generateMock Demo.circular_host Demo.circular_deps
      (ops Demo.circular_host Demo.circular_deps 3)
      "/proj/test.js" "./a"
      (Demo.fresh Demo.circular_host Demo.noHaste false)
    = Ok v s' ∧
    _moduleRegistry (this s') = 0 ∧
    _mockRegistry (this s') = 0 ∧
    moduleRegistries (heap s') !! 0 = Some ∅ ∧
    mockRegistries (heap s') !! 0 = Some ∅.
Proof.
  assert (returned
    (_generateMock Demo.circular_host Demo.circular_deps
       (ops Demo.circular_host Demo.circular_deps 3)
       "/proj/test.js" "./a"
       (Demo.fresh Demo.circular_host Demo.noHaste false)) = true) as Hret
    by (vm_compute; reflexivity).
  destruct (_generateMock Demo.circular_host Demo.circular_deps
       (ops Demo.circular_host Demo.circular_deps 3)
       "/proj/test.js" "./a"
       (Demo.fresh Demo.circular_host Demo.noHaste false))
    as [v s'| |] eqn:H; [|discriminate Hret..].
  destruct (generateMock_restores_registries Demo.circular_host
              Demo.circular_deps 3 "/proj/test.js" "./a" _ v s' H)
    as (Hmod & Hmock & Hmods & Hmocks).
  exists v, s'. split; [reflexivity|]. split; [exact Hmod|].
  split; [exact Hmock|].
  split; [exact (Hmods 0 ∅ eq_refl)|exact (Hmocks 0 ∅ eq_refl)].
Defined.

Lemma execModule_restores_on_return_witness :
  ∃ s',
    _execModule Demo.circular_host Demo.circular_deps
      (ops Demo.circular_host Demo.circular_deps 3) 0 None Demo.a_state
    = Ok tt s' ∧
    _currentlyExecutingModulePath (this s') = "" ∧
    _isCurrentlyExecutingManualMock (this s') = None.
Proof.
  assert (returned
    (_execModule Demo.circular_host Demo.circular_deps
       (ops Demo.circular_host Demo.circular_deps 3) 0 None Demo.a_state)
    = true) as Hret by (vm_compute; reflexivity).
  destruct (_execModule Demo.circular_host Demo.circular_deps
       (ops Demo.circular_host Demo.circular_deps 3) 0 None Demo.a_state)
    as [[] s'| |] eqn:H; [|discriminate Hret..].
  destruct (execModule_restores_on_return Demo.circular_host
              Demo.circular_deps _ 0 None _ tt s' H) as [H1 H2].
  exists s'. split; [reflexivity|]. split; [exact H1|exact H2].
Defined.

(** C4 fails as stated: a body that throws leaves both pointers at the
    module's file name, not at what they were on entry, and so does a
    transformer that throws (here: for want of the file). *)
Lemma execModule_error_exit_counterexample :
  _currentlyExecutingModulePath (this Demo.thrower_state) = "" ∧
  _isCurrentlyExecutingManualMock (this Demo.thrower_state) = None ∧
  match _execModule (Demo.host []) Demo.thrower_deps
          (ops (Demo.host []) Demo.thrower_deps 1) 0 None
          Demo.thrower_state
  with
  | Err e s' =>
      e = JsError "Error" "boom" None ∧
      _currentlyExecutingModulePath (this s') = "/proj/throws.js" ∧
      _isCurrentlyExecutingManualMock (this s') = Some "/proj/throws.js"
  | _ => False
  end ∧
  match _execModule (Demo.host []) (Demo.deps [])
          (ops (Demo.host []) (Demo.deps []) 1) 0 None
          Demo.thrower_state
  with
  | Err e s' =>
      e = JsError "Error" "ENOENT: no such file, open '/proj/throws.js'"
            (Some "ENOENT") ∧
      _currentlyExecutingModulePath (this s') = "/proj/throws.js" ∧
      _isCurrentlyExecutingManualMock (this s') = Some "/proj/throws.js"
  | _ => False
  end.
Proof. vm_compute. repeat split; reflexivity. Qed.

Lemma shouldMock_core_module_witness :
  ∃ s', _shouldMock (Demo.host []) "/proj/a.js" "fs"
          (Demo.fresh (Demo.host []) Demo.noHaste true)
        = Ok false s'.
Proof.
  apply (shouldMock_core_module (Demo.host []) "/proj/a.js" "fs"
           (Demo.fresh (Demo.host []) Demo.noHaste true)).
  - reflexivity.
  - reflexivity.
  - intros id s1 _. apply lookup_empty.
Defined.

(** C3 fails as stated: after [jest.mock('fs')], run by the module
    [/proj/a.js], the core module [fs] is mocked. *)
Lemma shouldMock_core_module_counterexample :
  match explicitly (Demo.host []) true "/proj/a.js" "fs"
          (Demo.fresh (Demo.host []) Demo.noHaste true)
  with
  | Ok _ s1 =>
      Resolver.isCoreModule (Demo.host []) (_resolver (this s1)) "fs" = true ∧
      match _shouldMock (Demo.host []) "/proj/a.js" "fs" s1 with
      | Ok shouldMock _ => shouldMock = true
      | _ => False
      end
  | _ => False
  end.
Proof. vm_compute. repeat split; reflexivity. Qed.

End Examples.

(** * The further properties at work on the example host *)

Section MoreExamples.
Import Runtime.

Lemma pair_eta_fst {A B} (x : A * B) (a : A) : x.1 = a → x = (a, x.2).
Proof. intros <-. by destruct x. Qed.

Lemma resolveModule_cached_for_directory_witness :
  Resolver.resolveModule (Demo.host []) Demo.foo_resolved
    "/proj/b.js" "foo" None
  = (Normal "/proj/node_modules/foo/index.js", Demo.foo_resolved).
Proof.
  apply (resolveModule_cached_for_directory Demo.fooHost
           Demo.plain_resolver "/proj/a.js" "foo" None
           "/proj/node_modules/foo/index.js" Demo.foo_resolved).
  - apply pair_eta_fst. vm_compute. reflexivity.
  - discriminate.
  - vm_compute. repeat split; reflexivity.
  - vm_compute. reflexivity.
Defined.

Lemma resolveStubModuleName_first_match_witness :
  Resolver._resolveStubModuleName Demo.stub_host Demo.stub_resolver
    "/proj/x.js" "a.css"
  = Some "/proj/styleMock.js".
Proof.
  apply (resolveStubModuleName_first_match Demo.stub_host
           Demo.stub_resolver "/proj/x.js" "a.css"
           [("fileMock", ".png")] "styleMock" ".css" [("anyMock", "a")]).
  - reflexivity.
  - intros entry Hin.
    apply elem_of_cons in Hin as [->|Hin]; [vm_compute; reflexivity|].
    by apply elem_of_nil in Hin.
  - vm_compute. reflexivity.
Defined.

Lemma getMockModule_none_witness :
  Resolver.getMockModule Demo.stub_host Demo.stub_resolver
    "/proj/x.js" "jquery" = None.
Proof.
  apply (getMockModule_none Demo.stub_host Demo.stub_resolver
           "/proj/x.js" "jquery").
  - vm_compute. reflexivity.
  - intros mapper entry [= <-] Hin.
    repeat (apply elem_of_cons in Hin as [->|Hin]; [vm_compute; reflexivity|]).
    by apply elem_of_nil in Hin.
Defined.

Lemma result_after {A} (m : M A) s a :
  Demo.result m s = Some a → m s = Ok a (Demo.after m s).
Proof.
  unfold Demo.result, Demo.after. destruct (m s); [|done..].
  by intros [= ->].
Qed.

Lemma normalizeID_stable_witness :
  _normalizeID (Demo.host []) "/proj/a.js" (Some "fs") Demo.other_runtime
  = Ok "node:fs:" Demo.other_runtime.
Proof.
  apply (normalizeID_stable (Demo.host []) "/proj/a.js" (Some "fs")
           Demo.plain_state "node:fs:" Demo.fs_asked Demo.other_runtime).
  - apply (result_after (_normalizeID (Demo.host []) "/proj/a.js"
                           (Some "fs"))).
    vm_compute. reflexivity.
  - reflexivity.
Defined.

Lemma normalizeID_core_module_witness :
  ∃ s1,
    _normalizeID (Demo.host []) "/proj/deep/c.js" (Some "fs")
      Demo.plain_state
    = Ok "node:fs:" s1 ∧
    same_runtime Demo.plain_state s1.
Proof.
  apply (normalizeID_core_module (Demo.host []) "/proj/deep/c.js" "fs"
           Demo.plain_state).
  - discriminate.
  - vm_compute. reflexivity.
  - vm_compute. reflexivity.
Defined.

Lemma normalizeID_by_resolved_path_witness :
  ∃ s1,
    _normalizeID Demo.circular_host "/proj/a.js" (Some "./b")
      (Demo.pair_state true)
    = Ok "user:/proj/b.js:" s1 ∧
    this s1 = set_resolver Demo.b_resolved (this (Demo.pair_state true)) ∧
    heap s1 = heap (Demo.pair_state true).
Proof.
  apply (normalizeID_by_resolved_path Demo.circular_host "/proj/a.js" "./b"
           (Demo.pair_state true) "/proj/b.js" Demo.b_resolved).
  - discriminate.
  - vm_compute. reflexivity.
  - vm_compute. reflexivity.
  - vm_compute. reflexivity.
  - vm_compute. reflexivity.
  - vm_compute. reflexivity.
  - apply pair_eta_fst. vm_compute. reflexivity.
Defined.

Lemma normalizeID_of_file_witness :
  ∃ s1,
    _normalizeID Demo.circular_host "/proj/b.js" None (Demo.pair_state true)
    = Ok "user:/proj/b.js:" s1 ∧
    same_runtime (Demo.pair_state true) s1.
Proof.
  apply (normalizeID_of_file Demo.circular_host "/proj/b.js" None
           (Demo.pair_state true)).
  - reflexivity.
  - vm_compute. reflexivity.
  - vm_compute. reflexivity.
  - vm_compute. reflexivity.
  - vm_compute. reflexivity.
Defined.

Lemma require_after_explicitly_witness :
  _shouldMock Demo.circular_host "/proj/a.js" "./b" (Demo.b_flagged true)
  = Ok true (Demo.b_flagged true) ∧
  requireModuleOrMock Demo.circular_host Demo.circular_deps
    (ops Demo.circular_host Demo.circular_deps 2) "/proj/a.js" "./b"
    (Demo.b_flagged true)
  = requireMock Demo.circular_host Demo.circular_deps
      (ops Demo.circular_host Demo.circular_deps 2) "/proj/a.js" "./b"
      (Demo.b_flagged true).
Proof.
  apply (require_after_explicitly Demo.circular_host Demo.circular_deps
           (ops Demo.circular_host Demo.circular_deps 2) true
           "/proj/a.js" "./b" (Demo.pair_state false) (Demo.b_flagged true)).
  - apply (result_after (explicitly Demo.circular_host true "/proj/a.js"
                           "./b")).
    vm_compute. reflexivity.
  - vm_compute. reflexivity.
Defined.

Lemma virtual_mock_is_mocked_witness :
  _shouldMock (Demo.host []) "/proj/a.js" "nowhere" Demo.virtual_mocked
  = Ok true Demo.virtual_mocked ∧
  ∀ b s2,
    explicitly (Demo.host []) b "/proj/a.js" "nowhere" Demo.virtual_mocked
    = Ok tt s2 →
    _shouldMock (Demo.host []) "/proj/a.js" "nowhere" s2 = Ok true s2.
Proof.
  apply (virtual_mock_is_mocked (Demo.host []) "/proj/a.js" "nowhere"
           Demo.answer Demo.plain_state Demo.virtual_mocked).
  apply (result_after (setMock (Demo.host []) "/proj/a.js" "nowhere"
                         Demo.answer (Some true))).
  vm_compute. reflexivity.
Defined.

Lemma require_with_automock_off_witness :
  _shouldMock Demo.circular_host "/proj/a.js" "./b" (Demo.pair_state false)
  = Ok false
      (Demo.after (_normalizeID Demo.circular_host "/proj/a.js" (Some "./b"))
         (Demo.pair_state false)) ∧
  requireModuleOrMock Demo.circular_host Demo.circular_deps
    (ops Demo.circular_host Demo.circular_deps 2) "/proj/a.js" "./b"
    (Demo.pair_state false)
  = requireModule Demo.circular_host Demo.circular_deps
      (ops Demo.circular_host Demo.circular_deps 2) "/proj/a.js"
      (Some "./b") None
      (Demo.after (_normalizeID Demo.circular_host "/proj/a.js" (Some "./b"))
         (Demo.pair_state false)).
Proof.
  apply (require_with_automock_off Demo.circular_host Demo.circular_deps
           (ops Demo.circular_host Demo.circular_deps 2)
           "/proj/a.js" "./b" (Demo.pair_state false) "user:/proj/b.js:").
  - reflexivity.
  - vm_compute. reflexivity.
  - apply (result_after (_normalizeID Demo.circular_host "/proj/a.js"
                           (Some "./b"))).
    vm_compute. reflexivity.
  - vm_compute. reflexivity.
Defined.

(** Discharges [undecided] on a concrete state. *)
Ltac undecided_here :=
  repeat split;
    first [ discriminate
          | vm_compute; reflexivity
          | intros H; vm_compute in H; discriminate H ].

Lemma shouldMock_unmocked_path_witness :
  ∃ s',
    _shouldMock Demo.react_host "/proj/a.js" "react" Demo.react_fresh
    = Ok false s' ∧
    _shouldMockModuleCache (this s')
      !! "user:/proj/node_modules/react/index.js:" = Some false ∧
    heap s' = heap Demo.react_fresh.
Proof.
  apply (shouldMock_unmocked_path Demo.react_host "/proj/a.js" "react"
           Demo.react_fresh "user:/proj/node_modules/react/index.js:"
           Demo.react_id_given Demo.react_index Demo.react_found).
  - apply (result_after (_normalizeID Demo.react_host "/proj/a.js"
                           (Some "react"))).
    vm_compute. reflexivity.
  - undecided_here.
  - apply (result_after (_resolveModule Demo.react_host "/proj/a.js"
                           (Some "react"))).
    vm_compute. reflexivity.
  - vm_compute. reflexivity.
Defined.

Lemma shouldMock_transitive_witness :
  ∃ s',
    _shouldMock Demo.react_host Demo.react_index "./lib" Demo.react_unmocked
    = Ok false s' ∧
    _transitiveShouldMock (this s')
      !! "user:/proj/node_modules/react/lib.js:" = Some false ∧
    _shouldUnmockTransitiveDependenciesCache (this s')
      !! (Demo.react_index +:+ ":" +:+
          "user:/proj/node_modules/react/lib.js:") = Some true ∧
    heap s' = heap Demo.react_unmocked.
Proof.
  apply (shouldMock_transitive Demo.react_host Demo.react_index "./lib"
           Demo.react_unmocked "user:/proj/node_modules/react/lib.js:"
           Demo.lib_id_given "/proj/node_modules/react/lib.js"
           Demo.lib_found "user:/proj/node_modules/react/index.js:"
           Demo.index_id_given).
  - apply (result_after (_normalizeID Demo.react_host Demo.react_index
                           (Some "./lib"))).
    vm_compute. reflexivity.
  - undecided_here.
  - apply (result_after (_resolveModule Demo.react_host Demo.react_index
                           (Some "./lib"))).
    vm_compute. reflexivity.
  - vm_compute. reflexivity.
  - apply (result_after (_normalizeID Demo.react_host Demo.react_index
                           None)).
    vm_compute. reflexivity.
  - vm_compute. reflexivity.
Defined.

Lemma shouldMock_automock_witness :
  ∃ s',
    _shouldMock Demo.circular_host "/proj/a.js" "./b" (Demo.pair_state true)
    = Ok true s' ∧
    _shouldMockModuleCache (this s') !! "user:/proj/b.js:" = Some true ∧
    heap s' = heap (Demo.pair_state true).
Proof.
  apply (shouldMock_automock Demo.circular_host "/proj/a.js" "./b"
           (Demo.pair_state true) "user:/proj/b.js:" Demo.b_id_given
           "/proj/b.js" Demo.b_found "user:/proj/a.js:" Demo.a_id_given).
  - apply (result_after (_normalizeID Demo.circular_host "/proj/a.js"
                           (Some "./b"))).
    vm_compute. reflexivity.
  - undecided_here.
  - apply (result_after (_resolveModule Demo.circular_host "/proj/a.js"
                           (Some "./b"))).
    vm_compute. reflexivity.
  - vm_compute. reflexivity.
  - apply (result_after (_normalizeID Demo.circular_host "/proj/a.js" None)).
    vm_compute. reflexivity.
  - intros H. vm_compute in H. discriminate H.
  - vm_compute. reflexivity.
Defined.

Lemma thrown_after {A} (m : M A) s e :
  Demo.thrown m s = Some e → m s = Err e (Demo.after m s).
Proof.
  unfold Demo.thrown, Demo.after. destruct (m s); [done| |done].
  by intros [= ->].
Qed.

Lemma shouldMock_unresolved_witness :
  (∃ s',
     _shouldMock (Demo.host []) "/proj/a.js" "widget"
       (Demo.fresh (Demo.host []) Demo.widget_haste true)
     = Ok true s' ∧
     _shouldMockModuleCache (this s') !! Demo.widget_id = Some true ∧
     heap s' = heap (Demo.fresh (Demo.host []) Demo.widget_haste true)) ∧
  _shouldMock (Demo.host []) "/proj/a.js" "react" Demo.second_project
  = Err (JsError "Error" "Cannot find module 'react' from 'a.js'"
           (Some "MODULE_NOT_FOUND"))
        (Demo.after (_resolveModule (Demo.host []) "/proj/a.js"
                       (Some "react"))
           Demo.second_project).
Proof.
  split.
  - pose proof (shouldMock_unresolved (Demo.host []) "/proj/a.js" "widget"
                  (Demo.fresh (Demo.host []) Demo.widget_haste true)
                  Demo.widget_id (Demo.widget_asked (Demo.host []) true)
                  (Resolver.notFoundError (Demo.host []) "/proj/a.js"
                     "widget")
                  (Demo.after
                     (_resolveModule (Demo.host []) "/proj/a.js"
                        (Some "widget"))
                     (Demo.widget_asked (Demo.host []) true))) as H.
    assert (truthy_opt
              (Resolver.getMockModule (Demo.host [])
                 (_resolver
                    (this (Demo.fresh (Demo.host []) Demo.widget_haste true)))
                 "/proj/a.js" "widget") = true) as Hmock
      by (vm_compute; reflexivity).
    rewrite Hmock in H. apply H.
    + apply (result_after (_normalizeID (Demo.host []) "/proj/a.js"
                             (Some "widget"))).
      vm_compute. reflexivity.
    + undecided_here.
    + apply (thrown_after (_resolveModule (Demo.host []) "/proj/a.js"
                             (Some "widget"))).
      vm_compute. reflexivity.
  - pose proof (shouldMock_unresolved (Demo.host []) "/proj/a.js" "react"
                  Demo.second_project "user:/h/react.js:"
                  Demo.second_project
                  (JsError "Error" "Cannot find module 'react' from 'a.js'"
                     (Some "MODULE_NOT_FOUND"))
                  (Demo.after
                     (_resolveModule (Demo.host []) "/proj/a.js"
                        (Some "react"))
                     Demo.second_project)) as H.
    assert (truthy_opt
              (Resolver.getMockModule (Demo.host [])
                 (_resolver (this Demo.second_project))
                 "/proj/a.js" "react") = false) as Hmock
      by (vm_compute; reflexivity).
    rewrite Hmock in H. apply H.
    + apply normalizeID_cached; [vm_compute; reflexivity|discriminate].
    + undecided_here.
    + apply (thrown_after (_resolveModule (Demo.host []) "/proj/a.js"
                             (Some "react"))).
      vm_compute. reflexivity.
Defined.

Lemma requireModule_core_module_witness :
  ∃ s1,
    same_runtime Demo.plain_state s1 ∧
    requireModule (Demo.host []) (Demo.deps [])
      (ops (Demo.host []) (Demo.deps []) 0) "/proj/a.js" (Some "fs") None
      Demo.plain_state
    = Ok (VHost "fs") s1.
Proof.
  apply (requireModule_core_module (Demo.host []) (Demo.deps [])
           (ops (Demo.host []) (Demo.deps []) 0) "/proj/a.js" "fs" None
           Demo.plain_state).
  - discriminate.
  - vm_compute. reflexivity.
Defined.

Lemma requireModule_manual_mock_witness :
  requireModule_path Demo.widget_host (Demo.deps []) "/proj/a.js"
    (Some "widget") None (Demo.fresh Demo.widget_host Demo.widget_haste false)
  = Ok (ModulePath "/proj/__mocks__/widget.js")
       (Demo.widget_asked Demo.widget_host false).
Proof.
  apply (requireModule_manual_mock Demo.widget_host (Demo.deps [])
           "/proj/a.js" "widget" None
           (Demo.fresh Demo.widget_host Demo.widget_haste false)
           Demo.widget_id (Demo.widget_asked Demo.widget_host false)
           "/proj/__mocks__/widget.js").
  - discriminate.
  - reflexivity.
  - apply (result_after (_normalizeID Demo.widget_host "/proj/a.js"
                           (Some "widget"))).
    vm_compute. reflexivity.
  - vm_compute. reflexivity.
  - vm_compute. reflexivity.
  - vm_compute. reflexivity.
  - discriminate.
  - discriminate.
  - intros H. vm_compute in H. discriminate H.
Defined.

Lemma requireModule_after_teardown_witness :
  ∃ s',
    requireModule_load (Demo.host []) Demo.thrower_deps
      (ops (Demo.host []) Demo.thrower_deps 0) "/proj/throws.js" None
      Demo.torn_down
    = Ok (VObj 0) s' ∧
    objects (heap s') !! 0 = Some ∅ ∧
    moduleRegistry_get (_moduleRegistry (this s')) "/proj/throws.js" s'
    = Some 0 ∧
    this s' = this Demo.torn_down.
Proof.
  apply (requireModule_after_teardown (Demo.host []) Demo.thrower_deps
           (ops (Demo.host []) Demo.thrower_deps 0) "/proj/throws.js" None
           Demo.torn_down).
  - reflexivity.
  - exists ∅. vm_compute. reflexivity.
  - vm_compute. reflexivity.
  - vm_compute. discriminate.
  - vm_compute. discriminate.
Defined.

Lemma requireModule_json_witness :
  ∃ s' m,
    requireModule_load (Demo.host []) Demo.json_deps
      (ops (Demo.host []) Demo.json_deps 0) "/proj/data.json" None
      Demo.plain_state
    = Ok (VStr "{}") s' ∧
    moduleRegistry_get (_moduleRegistry (this s')) "/proj/data.json" s'
    = Some 0 ∧
    modules (heap s') !! 0 = Some m ∧
    exports m = VStr "{}" ∧ filename m = "/proj/data.json" ∧
    objects (heap s') = [∅] ∧
    this s' = this Demo.plain_state.
Proof.
  apply (requireModule_json (Demo.host []) Demo.json_deps
           (ops (Demo.host []) Demo.json_deps 0) "/proj/data.json" None
           Demo.plain_state "{}" (VStr "{}") [∅]).
  - exists ∅. vm_compute. reflexivity.
  - vm_compute. reflexivity.
  - vm_compute. reflexivity.
  - eexists. reflexivity.
  - reflexivity.
  - reflexivity.
Defined.

Lemma load_leaves_registered_witness :
  match requireModule_load (Demo.host []) Demo.thrower_deps
          (ops (Demo.host []) Demo.thrower_deps 1) "/proj/throws.js" None
          (Demo.fresh (Demo.host []) Demo.noHaste false)
  with
  | Err _ s' => registers 0 "/proj/throws.js" s'
  | _ => False
  end.
Proof.
  pose proof (load_leaves_registered (Demo.host []) Demo.thrower_deps 1
                "/proj/throws.js" None
                (Demo.fresh (Demo.host []) Demo.noHaste false)) as H.
  assert (Demo.threw
            (requireModule_load (Demo.host []) Demo.thrower_deps
               (ops (Demo.host []) Demo.thrower_deps 1) "/proj/throws.js"
               None (Demo.fresh (Demo.host []) Demo.noHaste false)) = true)
    as Hthrew by (vm_compute; reflexivity).
  destruct (requireModule_load (Demo.host []) Demo.thrower_deps
              (ops (Demo.host []) Demo.thrower_deps 1) "/proj/throws.js"
              None (Demo.fresh (Demo.host []) Demo.noHaste false))
    as [v s'|e s'|]; [discriminate Hthrew| |discriminate Hthrew].
  apply H. exists ∅. vm_compute. reflexivity.
Defined.

Lemma requireModule_real_module_witness :
  requireModule_path Demo.widget_host (Demo.deps []) "/proj/a.js"
    (Some "widget") None Demo.widget_unmocked
  = Ok (ModulePath "/proj/node_modules/widget/index.js")
       (Demo.after
          (_resolveModule Demo.widget_host "/proj/a.js" (Some "widget"))
          Demo.widget_unmocked).
Proof.
  apply (requireModule_real_module Demo.widget_host (Demo.deps [])
           "/proj/a.js" "widget" None Demo.widget_unmocked Demo.widget_id
           Demo.widget_unmocked).
  - discriminate.
  - apply normalizeID_cached; [vm_compute; reflexivity|discriminate].
  - vm_compute. reflexivity.
  - right. vm_compute. reflexivity.
  - apply (result_after (_resolveModule Demo.widget_host "/proj/a.js"
                           (Some "widget"))).
    vm_compute. reflexivity.
Defined.

Lemma generateMock_from_cache_witness :
  _generateMock Demo.circular_host Demo.thrower_deps
    (ops Demo.circular_host Demo.thrower_deps 0) "/proj/test.js" "./a"
    Demo.metadata_cached
  = Ok (VObj 0)
       (on_heap (set_objects [{[ "v" := VUndefined ]}])
          (Demo.after
             (_resolveModule Demo.circular_host "/proj/test.js" (Some "./a"))
             Demo.metadata_cached)).
Proof.
  apply (generateMock_from_cache Demo.circular_host Demo.thrower_deps
           (ops Demo.circular_host Demo.thrower_deps 0) "/proj/test.js"
           "./a" Demo.metadata_cached "/proj/a.js"
           (Demo.after
              (_resolveModule Demo.circular_host "/proj/test.js"
                 (Some "./a"))
              Demo.metadata_cached)
           Demo.a_metadata).
  - apply (result_after (_resolveModule Demo.circular_host "/proj/test.js"
                           (Some "./a"))).
    vm_compute. reflexivity.
  - vm_compute. reflexivity.
Defined.

Lemma setMock_then_require_witness :
  ∃ s2,
    requireModuleOrMock Demo.circular_host Demo.thrower_deps
      (ops Demo.circular_host Demo.thrower_deps 0) "/proj/a.js" "./b"
      Demo.b_set
    = Ok (VNum 7) s2 ∧
    (truthy (VNum 7) = true →
     requireModuleOrMock Demo.circular_host Demo.thrower_deps
       (ops Demo.circular_host Demo.thrower_deps 0) "/proj/a.js" "./b" s2
     = Ok (VNum 7) s2).
Proof.
  assert (mockRegistries (heap Demo.b_set) !! _mockRegistry (this Demo.b_set)
          = Some ∅) as Hreg by (vm_compute; reflexivity).
  apply (setMock_then_require Demo.circular_host Demo.thrower_deps
           (ops Demo.circular_host Demo.thrower_deps 0) "/proj/a.js" "./b"
           (cl_ctx Demo.seven) (VNum 7) (Demo.pair_state true) Demo.b_set).
  - apply (result_after (setMock Demo.circular_host "/proj/a.js" "./b"
                           Demo.seven None)).
    vm_compute. reflexivity.
  - rewrite Hreg. by eexists.
  - intros id w. unfold mockRegistry_get. rewrite Hreg. simpl.
    rewrite lookup_empty. discriminate.
Defined.

Lemma constructed_shares_unmockList_witness :
  _unmockList (this Demo.react_fresh)
  = unmockRegExpCache (process Demo.react_fresh) !! 1 ∧
  ∃ s',
    constructed Demo.react_host Demo.react_later Demo.environment
      Demo.plain_resolver Demo.emptyStore (process Demo.react_fresh)
    = Normal s' ∧
    _unmockList (this s') = Some "node_modules/react".
Proof.
  destruct (constructed_shares_unmockList Demo.react_host Demo.react_config
              Demo.environment Demo.plain_resolver Demo.emptyStore
              Demo.emptyProcess Demo.react_fresh eq_refl) as [Hfirst Hlater].
  split; [exact Hfirst|].
  apply (Hlater Demo.react_later Demo.environment Demo.plain_resolver
           Demo.emptyStore eq_refl eq_refl eq_refl).
  by eexists.
Defined.

Lemma constructor_without_setup_files_witness :
  ∃ s',
    constructor (Demo.host []) Demo.thrower_deps 0 (Demo.config true [])
      Demo.environment Demo.plain_resolver Demo.emptyStore Demo.emptyProcess
    = Normal (Ok tt s') ∧
    moduleRegistries (heap s') !! _moduleRegistry (this s') = Some ∅ ∧
    mockRegistries (heap s') !! _mockRegistry (this s') = Some ∅ ∧
    objects (heap s') = [] ∧
    modules (heap s') = [] ∧
    normalizedIDCache (process s') = ∅.
Proof.
  exact (constructor_without_setup_files (Demo.host []) Demo.thrower_deps 0
           (Demo.config true []) Demo.environment Demo.plain_resolver
           Demo.emptyStore Demo.emptyProcess eq_refl).
Defined.

Lemma ids_stay_witness :
  ends_in
    (run (Demo.host []) (ops (Demo.host []) Demo.thrower_deps 2)
       (cl_ctx Demo.answer)
       (JestResetModuleRegistry (Require "fs" (fun fs => Ret fs)))
       Demo.fs_asked)
    (has_id "/proj/a.js:fs" "node:fs:").
Proof.
  apply (ids_stay (Demo.host []) Demo.thrower_deps "/proj/a.js:fs"
           "node:fs:").
  - discriminate.
  - vm_compute. reflexivity.
Defined.

End MoreExamples.
